(** * Signal-to-bracket execution engine: a shallow embedding

    The development follows four source files of the repository:

    - [order_utils.py]           bounded retry around the exchange client
                                 (module [order_utils]);
    - [config.py]                the fee tiers (module [config]);
    - [hosted_trading_loop.py]   the scheduler and the order bracket executor
                                 (module [hosted_trading_loop]);
    - [position_monitor.py]      the reconciliation loop
                                 (module [position_monitor]).

    Conventions.

    - Python [float] is IEEE binary64: it is embedded as the kernel's primitive
      [float], so every arithmetic step rounds as the interpreter rounds.
    - Python [str] is embedded as [string]; the texts that are sliced or
      searched are ASCII.
    - The exchange client, the notifier and the clock are collaborators: what
      they answer is an input of each function (an oracle indexed by the
      attempt number, or a field of an environment record), what is asked of
      them is an [Event] of the returned trace, in program order.
    - The relational store is a record of tables (lists of rows); a statement
      that can raise takes its fault from the environment.  In the
      reconciliation loop these are the signal lookup and the four
      statements that record a Trade (a fault among the four leaves a store
      that no run without a fault leaves); its SELECTs and the single
      UPDATE that marks a position closed_manual or needs_review are taken
      to execute.
    - Logger lines are not effects of the model. *)

From Stdlib Require Import ZArith List Bool String Ascii Floats Lia.
From Stdlib Require Import DecimalString Permutation.
Import ListNotations.

Set Warnings "-inexact-float".
Local Open Scope string_scope.
Local Open Scope list_scope.

(* ================================================================== *)
(** ** Python built-ins used by the source files *)
(* ================================================================== *)

Module Py.

(** [str(n)] for a non-negative counter and for an integer. *)
Definition str_of_nat (n : nat) : string :=
  NilZero.string_of_uint (Nat.to_uint n).

Definition str_of_int (z : Z) : string :=
  NilZero.string_of_int (Z.to_int z).

(** [s[:n]] *)
Definition take (n : nat) (s : string) : string := String.substring 0 n s.

(** [str.lower()] and [str.upper()] on ASCII text. *)
Definition lower_ascii (c : ascii) : ascii :=
  let n := nat_of_ascii c in
  if (65 <=? n)%nat && (n <=? 90)%nat then ascii_of_nat (n + 32) else c.

Definition upper_ascii (c : ascii) : ascii :=
  let n := nat_of_ascii c in
  if (97 <=? n)%nat && (n <=? 122)%nat then ascii_of_nat (n - 32) else c.

Fixpoint map_string (f : ascii -> ascii) (s : string) : string :=
  match s with
  | EmptyString => EmptyString
  | String c s' => String (f c) (map_string f s')
  end.

Definition lower : string -> string := map_string lower_ascii.
Definition upper : string -> string := map_string upper_ascii.

(** [needle in hay] *)
Fixpoint contains (needle hay : string) : bool :=
  String.prefix needle hay
  || match hay with
     | EmptyString => false
     | String _ hay' => contains needle hay'
     end.

(** [s.replace(old, "")] for a non-empty [old]: occurrences are removed
    left to right and do not overlap; [skip] counts the characters of a
    match still to drop. *)
Fixpoint remove_from (old : string) (skip : nat) (s : string) : string :=
  match s with
  | EmptyString => EmptyString
  | String c s' =>
      match skip with
      | S k => remove_from old k s'
      | O =>
          if String.prefix old s
          then remove_from old (String.length old - 1) s'
          else String c (remove_from old 0 s')
      end
  end.

Definition remove (old s : string) : string := remove_from old 0 s.

(** [s.split(sep)[0]] for a one-character separator. *)
Fixpoint before (sep : ascii) (s : string) : string :=
  match s with
  | EmptyString => EmptyString
  | String c s' => if Ascii.eqb c sep then EmptyString else String c (before sep s')
  end.

Definition has_char (sep : ascii) (s : string) : bool :=
  contains (String sep EmptyString) s.

(** [s.strip()] on ASCII white space. *)
Definition is_space (c : ascii) : bool :=
  let n := nat_of_ascii c in
  (n =? 32)%nat || ((9 <=? n)%nat && (n <=? 13)%nat) || ((28 <=? n)%nat && (n <=? 31)%nat).

Fixpoint lstrip (s : string) : string :=
  match s with
  | EmptyString => EmptyString
  | String c s' => if is_space c then lstrip s' else s
  end.

Fixpoint rstrip (s : string) : string :=
  match s with
  | EmptyString => EmptyString
  | String c s' =>
      match rstrip s' with
      | EmptyString => if is_space c then EmptyString else String c EmptyString
      | r => String c r
      end
  end.

Definition strip (s : string) : string := rstrip (lstrip s).

Definition newline : string := String (ascii_of_nat 10) EmptyString.

(** [sep.join(l)] *)
Definition join (sep : string) (l : list string) : string := String.concat sep l.

(** Truthiness of a string. *)
Definition nonempty (s : string) : bool :=
  match s with EmptyString => false | _ => true end.

(** *** Floats *)

(** Truthiness of a float: [0.0] and [-0.0] are falsy, [nan] is truthy. *)
Definition truthy (x : float) : bool := negb (PrimFloat.eqb x 0%float).

(** [min(a, b)] and [abs] as the interpreter evaluates them. *)
Definition min (a b : float) : float := if PrimFloat.ltb b a then b else a.

(** [float(n)] for an integer: round to nearest even; [OverflowError]
    ([None]) when out of range. *)
Definition float_of_int (z : Z) : option float :=
  let f := SF2Prim (SpecFloat.binary_normalize prec emax z 0 false) in
  if PrimFloat.is_infinity f then None else Some f.

(** [math.floor(x)]: an exact integer; [ValueError] on [nan] and
    [OverflowError] on an infinity ([None]). *)
Definition floor (x : float) : option Z :=
  match Prim2SF x with
  | SpecFloat.S754_zero _ => Some 0%Z
  | SpecFloat.S754_finite s m e =>
      Some (Z.shiftl (if s then Z.neg m else Z.pos m) e)
  | SpecFloat.S754_infinity _ => None
  | SpecFloat.S754_nan => None
  end.

(** [a / b] on integers: the correctly rounded quotient
    ([ZeroDivisionError] and [OverflowError] are [None]).  The quotient is
    cut to at least 56 bits and a sticky bit records a non-zero remainder,
    so the final rounding to 53 bits is the rounding of the exact value. *)
Definition int_truediv (a b : Z) : option float :=
  if (b =? 0)%Z then None
  else
    let neg := xorb (a <? 0)%Z (b <? 0)%Z in
    let n := Z.abs a in
    let d := Z.abs b in
    if (n =? 0)%Z then Some (if neg then (-0)%float else 0%float)
    else
      let k := Z.max 0 (57 + Z.log2 d - Z.log2 n) in
      let q := (Z.shiftl n k / d)%Z in
      let sticky := if (Z.shiftl n k mod d =? 0)%Z then 0%Z else 1%Z in
      let m := (2 * q + sticky)%Z in
      let f := SF2Prim (SpecFloat.binary_normalize prec emax
                          (if neg then (- m)%Z else m) (- k - 1) false) in
      if PrimFloat.is_infinity f then None else Some f.

(** [int(x)]: truncation toward zero; raises on [nan] and infinities. *)
Definition trunc (x : float) : option Z :=
  match Prim2SF x with
  | SpecFloat.S754_zero _ => Some 0%Z
  | SpecFloat.S754_finite s m e =>
      let a := Z.shiftl (Z.pos m) e in
      Some (if s then (- a)%Z else a)
  | SpecFloat.S754_infinity _ => None
  | SpecFloat.S754_nan => None
  end.

(** [x * n] for a float and an integer. *)
Definition mul_int (x : float) (n : Z) : option float :=
  match float_of_int n with
  | Some f => Some (x * f)%float
  | None => None
  end.

End Py.

(* ================================================================== *)
(** ** Effects: what the code asks of its collaborators *)
(* ================================================================== *)

(** The order type dictionary passed to [exchange.order]. *)
Inductive OrderType : Type :=
| LimitIoc                          (* {"limit": {"tif": "Ioc"}} *)
| TriggerTp (triggerPx : float)     (* isMarket False, tpsl "tp" *)
| TriggerSl (triggerPx : float).    (* isMarket True,  tpsl "sl" *)

(** A value of a notification's [details] dictionary. *)
Inductive Detail : Type :=
| DText (s : string)
| DFloat (x : float)
| DInt (z : Z)
| DBool (b : bool).

(** Statements sent to the store, in the order the code issues them. *)
Inductive DbOp : Type :=
| DbAcknowledge (delivery_id : Z)
| DbGateSignalLookup (signal_id : string)
| DbGatePositionCount (user_id signal_int_id : Z)
| DbGateRecentTradeCount (user_id signal_int_id : Z)
| DbRecordSignalLookup (signal_id : string)
| DbInsertOpenPosition (user_id : Z) (signal_db_id : option Z)
| DbStartBillingCycle (user_id : Z)
| DbErrorLog (api_key error_type error_message : string).

Inductive Event : Type :=
| EvDb (op : DbOp) (raised : bool)
| EvUserState (wallet : string) (raised : bool)
| EvOpenOrders (wallet : string) (raised : bool)
| EvAllMids (raised : bool)
| EvUserFills (wallet : string) (raised : bool)
| EvUpdateLeverage (leverage : Z) (coin : string)
| EvOrder (coin : string) (is_buy : bool) (sz limit_px : float)
          (order_type : OrderType) (reduce_only : bool)
| EvCancel (coin : string) (oid : Z)
| EvSleep (seconds : float)
| EvNotifyAdmin (title : string) (details : list (string * Detail)) (level : string).

Definition Trace := list Event.

(** The sleeps of a trace, in order. *)
Fixpoint sleeps_of (t : Trace) : list float :=
  match t with
  | [] => []
  | EvSleep s :: t' => s :: sleeps_of t'
  | _ :: t' => sleeps_of t'
  end.

(** The number of calls of [exchange.order] and of [exchange.cancel]. *)
Definition is_order (e : Event) : bool :=
  match e with EvOrder _ _ _ _ _ _ => true | _ => false end.

Definition is_cancel (e : Event) : bool :=
  match e with EvCancel _ _ => true | _ => false end.

Definition count_orders (t : Trace) : nat := List.length (filter is_order t).
Definition count_cancels (t : Trace) : nat := List.length (filter is_cancel t).

(** Boolean equality of lists of floats (floats compare with [==]). *)
Fixpoint floats_eqb (l1 l2 : list float) : bool :=
  match l1, l2 with
  | [], [] => true
  | a :: l1', b :: l2' => PrimFloat.eqb a b && floats_eqb l1' l2'
  | _, _ => false
  end.

(* ================================================================== *)
(** ** order_utils.py *)
(* ================================================================== *)

Module order_utils.

Definition MAX_RETRIES : nat := 3.
Definition INITIAL_BACKOFF : float := 1%float.
Definition MAX_BACKOFF : float := 8%float.

(** *** What [exchange.order] and [exchange.cancel] answer *)

(** [statuses[0]] is probed for the keys "filled", "resting" and "error". *)
Record Filled : Type := {
  filled_oid : option Z;
  filled_avgPx : option float;
  filled_totalSz : option float
}.

Record Resting : Type := { resting_oid : option Z }.

Record StatusEntry : Type := {
  st_filled : option Filled;
  st_resting : option Resting;
  st_error : option string
}.

(** Either the call raises (with the exception's text) or it returns a
    dictionary: its "status", the text of its "response" (only printed),
    and [response["data"]["statuses"]]. *)
Inductive OrderReply : Type :=
| OrderRaised (msg : string)
| OrderReplied (status response : string) (statuses : list StatusEntry).

Inductive CancelReply : Type :=
| CancelRaised (msg : string)
| CancelReplied (status result : string).

(** The dictionary a placement returns.  The "id" is [str(oid)], kept
    here as the integer it prints; [None] is the literal "unknown". *)
Record OrderResult : Type := {
  id : option Z;
  avgPx : option float;
  totalSz : option float;
  raw : OrderReply
}.

Definition or_zero (x : option float) : float :=
  match x with Some v => v | None => 0%float end.

(** [user_api_key[:20] + "..." if len(user_api_key) > 20 else user_api_key] *)
Definition short_key (user_api_key : string) : string :=
  if (20 <? String.length user_api_key)%nat
  then (Py.take 20 user_api_key ++ "...")%string
  else user_api_key.

Definition str_of_error (last_error : option string) : string :=
  match last_error with Some e => e | None => "None" end.

(** The body of the [try] of [place_entry_order_with_retry]: the result
    returned, or the text of the exception raised. *)
Definition entry_attempt (reply : OrderReply) : OrderResult + string :=
  match reply with
  | OrderRaised msg => inr msg
  | OrderReplied status response statuses =>
      if String.eqb status "ok" then
        match statuses with
        | st :: _ =>
            match st_filled st, st_resting st, st_error st with
            | Some fill_info, _, _ =>
                inl {| id := filled_oid fill_info;
                       avgPx := Some (or_zero (filled_avgPx fill_info));
                       totalSz := Some (or_zero (filled_totalSz fill_info));
                       raw := reply |}
            | None, Some rest_info, _ =>
                inl {| id := resting_oid rest_info; avgPx := None;
                       totalSz := None; raw := reply |}
            | None, None, Some error_msg => inr ("HL order error: " ++ error_msg)%string
            | None, None, None =>
                inl {| id := None; avgPx := None; totalSz := None; raw := reply |}
            end
        | [] => inl {| id := None; avgPx := None; totalSz := None; raw := reply |}
        end
      else inr ("HL order failed: status=" ++ status ++ ", response=" ++ response)%string
  end.

(** The body of the [try] of [place_tp_order_with_retry] and of
    [place_sl_order_with_retry] ([what] is "TP" or "SL"). *)
Definition trigger_attempt (what : string) (reply : OrderReply) : OrderResult + string :=
  match reply with
  | OrderRaised msg => inr msg
  | OrderReplied status response statuses =>
      if String.eqb status "ok" then
        match statuses with
        | st :: _ =>
            match st_resting st, st_error st with
            | Some rest_info, _ =>
                inl {| id := resting_oid rest_info; avgPx := None;
                       totalSz := None; raw := reply |}
            | None, Some error_msg => inr ("HL " ++ what ++ " error: " ++ error_msg)%string
            | None, None =>
                inl {| id := None; avgPx := None; totalSz := None; raw := reply |}
            end
        | [] => inl {| id := None; avgPx := None; totalSz := None; raw := reply |}
        end
      else inr ("HL " ++ what ++ " failed: status=" ++ status ++ ", response=" ++ response)%string
  end.

(** What the retry loop of a placement leaves when it ends. *)
Record LoopEnd : Type := {
  returned : option OrderResult;
  attempts_log : list string;
  last_error : option string
}.

Section PlaceLoop.

(** [exchange n] is the answer to the [n]-th call of this operation. *)
Variable exchange : nat -> OrderReply.
Variable call : Event.
Variable attempt_body : OrderReply -> OrderResult + string.

(** [for attempt in range(1, MAX_RETRIES + 1)], from [attempt] on, with
    [remaining] iterations left. *)
Fixpoint place_loop (remaining attempt : nat) (backoff : float)
         (log : list string) (last : option string) : Trace * LoopEnd :=
  match remaining with
  | O => ([], {| returned := None; attempts_log := log; last_error := last |})
  | S remaining' =>
      match attempt_body (exchange attempt) with
      | inl result =>
          ([call], {| returned := Some result; attempts_log := log; last_error := last |})
      | inr e =>
          let error_msg := Py.take 200 e in
          let log' := log ++ [("Attempt " ++ Py.str_of_nat attempt ++ ": " ++ error_msg)%string] in
          if (attempt <? MAX_RETRIES)%nat then
            let '(t, r) := place_loop remaining' (S attempt)
                             (Py.min (backoff * 2)%float MAX_BACKOFF) log' (Some e) in
            (call :: EvSleep backoff :: t, r)
          else
            let '(t, r) := place_loop remaining' (S attempt) backoff log' (Some e) in
            (call :: t, r)
      end
  end.

End PlaceLoop.

Definition place_entry_order_with_retry
  (exchange : nat -> OrderReply) (coin : string) (is_buy : bool)
  (quantity limit_price : float) (user_email user_api_key : string)
  : Trace * option OrderResult :=
  let '(t, r) := place_loop exchange
                   (EvOrder coin is_buy quantity limit_price LimitIoc false)
                   entry_attempt MAX_RETRIES 1 INITIAL_BACKOFF [] None in
  match returned r with
  | Some result => (t, Some result)
  | None =>
      (t ++ [EvNotifyAdmin "🚨 CRITICAL: Entry Order Failed (HL)"
               [("User", DText user_email);
                ("API Key", DText (short_key user_api_key));
                ("Coin", DText coin);
                ("Side", DText (if is_buy then "BUY" else "SELL"));
                ("Quantity", DFloat quantity);
                ("Limit Price", DFloat limit_price);
                ("Attempts", DText (Py.join Py.newline (attempts_log r)));
                ("Final Error", DText (Py.take 500 (str_of_error (last_error r))))]
               "error"],
       None)
  end.

Definition place_tp_order_with_retry
  (exchange : nat -> OrderReply) (coin : string) (is_buy : bool)
  (quantity tp_price : float) (user_email user_api_key : string)
  : Trace * option OrderResult :=
  let '(t, r) := place_loop exchange
                   (EvOrder coin is_buy quantity tp_price (TriggerTp tp_price) true)
                   (trigger_attempt "TP") MAX_RETRIES 1 INITIAL_BACKOFF [] None in
  match returned r with
  | Some result => (t, Some result)
  | None =>
      (t ++ [EvNotifyAdmin "🚨 DANGER: TP Order Failed (HL)"
               [("Severity", DText "CRITICAL - Position may be UNPROTECTED");
                ("User", DText user_email);
                ("API Key", DText (short_key user_api_key));
                ("Coin", DText coin);
                ("TP Price", DFloat tp_price);
                ("Attempts", DText (Py.join Py.newline (attempts_log r)));
                ("Final Error", DText (Py.take 500 (str_of_error (last_error r))))]
               "error"],
       None)
  end.

Definition place_sl_order_with_retry
  (exchange : nat -> OrderReply) (coin : string) (is_buy : bool)
  (quantity sl_price : float) (user_email user_api_key : string)
  : Trace * option OrderResult :=
  let '(t, r) := place_loop exchange
                   (EvOrder coin is_buy quantity sl_price (TriggerSl sl_price) true)
                   (trigger_attempt "SL") MAX_RETRIES 1 INITIAL_BACKOFF [] None in
  match returned r with
  | Some result => (t, Some result)
  | None =>
      (t ++ [EvNotifyAdmin "🚨 DANGER: SL Order Failed (HL)"
               [("Severity", DText "CRITICAL - Position UNPROTECTED");
                ("User", DText user_email);
                ("API Key", DText (short_key user_api_key));
                ("Coin", DText coin);
                ("SL Price", DFloat sl_price);
                ("Attempts", DText (Py.join Py.newline (attempts_log r)));
                ("Final Error", DText (Py.take 500 (str_of_error (last_error r))))]
               "error"],
       None)
  end.

(** The test of the [except] clause of [cancel_order_with_retry]:
    ["not found" in error_msg.lower() or "already" in error_msg.lower()]. *)
Definition already_gone (error_msg : string) : bool :=
  Py.contains "not found" (Py.lower error_msg)
  || Py.contains "already" (Py.lower error_msg).

(** The body of the [try]: [inl tt] is [return True]. *)
Definition cancel_attempt (reply : CancelReply) : unit + string :=
  match reply with
  | CancelRaised msg => inr msg
  | CancelReplied status result =>
      if String.eqb status "ok" then inl tt else inr ("Cancel failed: " ++ result)%string
  end.

(** The loop of [cancel_order_with_retry]: [Some true] when it returned
    from inside the loop, [None] when the loop ran out; with the last
    exception. *)
Fixpoint cancel_loop (exchange : nat -> CancelReply) (coin : string) (order_id : Z)
         (remaining attempt : nat) (backoff : float) (last : option string)
  : Trace * (option bool * option string) :=
  match remaining with
  | O => ([], (None, last))
  | S remaining' =>
      match cancel_attempt (exchange attempt) with
      | inl _ => ([EvCancel coin order_id], (Some true, last))
      | inr e =>
          let error_msg := Py.take 200 e in
          if already_gone error_msg then
            ([EvCancel coin order_id], (Some true, Some e))
          else if (attempt <? MAX_RETRIES)%nat then
            let '(t, r) := cancel_loop exchange coin order_id remaining' (S attempt)
                             (Py.min (backoff * 2)%float MAX_BACKOFF) (Some e) in
            (EvCancel coin order_id :: EvSleep backoff :: t, r)
          else
            let '(t, r) := cancel_loop exchange coin order_id remaining' (S attempt)
                             backoff (Some e) in
            (EvCancel coin order_id :: t, r)
      end
  end.

Definition cancel_order_with_retry
  (exchange : nat -> CancelReply) (coin : string) (order_id : Z)
  (order_description user_email user_api_key : string) (notify_on_failure : bool)
  : Trace * bool :=
  let '(t, (r, last)) := cancel_loop exchange coin order_id MAX_RETRIES 1
                           INITIAL_BACKOFF None in
  match r with
  | Some b => (t, b)
  | None =>
      if notify_on_failure then
        (t ++ [EvNotifyAdmin ("⚠️ Failed to Cancel " ++ order_description ++ " (HL)")%string
                 [("User", DText user_email);
                  ("Order ID", DInt order_id);
                  ("Coin", DText coin);
                  ("Error", DText (Py.take 500 (str_of_error last)))]
                 "warning"],
         false)
      else (t, false)
  end.

(** The alerts of the critical-failure section, as the executor calls
    them. *)
Definition notify_bracket_incomplete
  (user_email user_api_key coin : string) (entry_order_id : option Z)
  (tp_placed sl_placed : bool) (error : string) : Event :=
  EvNotifyAdmin "🚨 DANGER: Bracket Order Incomplete (HL)"
    [("Severity", DText "CRITICAL - Position UNPROTECTED");
     ("User", DText user_email);
     ("API Key", DText (Py.take 20 user_api_key ++ "...")%string);
     ("Coin", DText coin);
     ("Entry Order", match entry_order_id with
                     | Some z => DInt z
                     | None => DText "unknown"
                     end);
     ("TP Placed", DText (if tp_placed then "✅ Yes" else "❌ NO"));
     ("SL Placed", DText (if sl_placed then "✅ Yes" else "❌ NO"));
     ("Error", DText (Py.take 500 error));
     ("Action Required", DText "IMMEDIATELY place missing orders manually on Hyperliquid!")]
    "error".

Definition or_unknown (s : string) : string :=
  if Py.nonempty s then s else "unknown".

Definition notify_signal_invalid
  (signal_id symbol action : string) (missing_fields : list string) (reason : string) : Event :=
  EvNotifyAdmin "🚫 SIGNAL REJECTED - Missing SL/TP (HL)"
    [("Signal ID", DText (or_unknown signal_id));
     ("Symbol", DText (or_unknown symbol));
     ("Action", DText (or_unknown action));
     ("Missing Fields", DText (match missing_fields with
                               | [] => "none"
                               | _ => Py.join ", " missing_fields
                               end));
     ("Reason", DText reason);
     ("Impact", DText "Trade NOT executed for ANY user")]
    "error".

Definition notify_signal_invalid_values
  (signal_id symbol action : string) (entry_price stop_loss take_profit : float)
  (reason : string) : Event :=
  EvNotifyAdmin "🚫 SIGNAL REJECTED - Invalid SL/TP Values (HL)"
    [("Signal ID", DText (or_unknown signal_id));
     ("Symbol", DText (or_unknown symbol));
     ("Action", DText (or_unknown action));
     ("Entry Price", DFloat entry_price);
     ("Stop Loss", DFloat stop_loss);
     ("Take Profit", DFloat take_profit);
     ("Reason", DText reason)]
    "error".

Definition notify_critical_error (error_type error location : string) : Event :=
  EvNotifyAdmin ("🚨 CRITICAL ERROR: " ++ error_type ++ " (HL)")%string
    [("Error Type", DText error_type);
     ("Error", DText (Py.take 500 error));
     ("Severity", DText "CRITICAL - Requires investigation");
     ("Location", DText location)]
    "error".

(** The subject prefix [notify_admin] gives a level. *)
Definition subject_prefix (level : string) : string :=
  if String.eqb level "info" then "ℹ️ INFO"
  else if String.eqb level "error" then "🚨 CRITICAL"
  else if String.eqb level "success" then "✅ SUCCESS"
  else "⚠️ WARNING".

End order_utils.

(* ================================================================== *)
(** ** config.py *)
(* ================================================================== *)

Module config.

(** An entry of [FEE_TIERS]. *)
Record Tier : Type := {
  rate : float;
  display : string;
  description : string
}.

Definition FEE_TIERS : list (string * Tier) :=
  [("team", {| rate := 0%float; display := "🏠 Team (0%)";
               description := "Team members - no fees" |});
   ("vip", {| rate := 0.05%float; display := "⭐ VIP (5%)";
              description := "VIP customers" |});
   ("standard", {| rate := 0.1%float; display := "👤 Standard (10%)";
                   description := "Standard customers" |})].

Definition DEFAULT_TIER : string := "standard".

(** [FEE_TIERS[key]]; [None] is the [KeyError]. *)
Fixpoint tier_at (tiers : list (string * Tier)) (key : string) : option Tier :=
  match tiers with
  | [] => None
  | (k, t) :: tiers' => if String.eqb k key then Some t else tier_at tiers' key
  end.

(** [not tier or tier not in FEE_TIERS] *)
Definition defaulted (tier : option string) : bool :=
  match tier with
  | None => true
  | Some t =>
      negb (Py.nonempty t)
      || match tier_at FEE_TIERS t with Some _ => false | None => true end
  end.

Definition get_fee_rate (tier : option string) : option float :=
  match (if defaulted tier then tier_at FEE_TIERS DEFAULT_TIER
         else match tier with
              | Some t => tier_at FEE_TIERS t
              | None => None
              end) with
  | Some t => Some (rate t)
  | None => None
  end.

Definition get_tier_display (tier : option string) : option string :=
  match (if defaulted tier then tier_at FEE_TIERS DEFAULT_TIER
         else match tier with
              | Some t => tier_at FEE_TIERS t
              | None => None
              end) with
  | Some t => Some (display t)
  | None => None
  end.

(** [f"{int(rate * 100)}%"] *)
Definition get_tier_percentage_str (tier : option string) : option string :=
  match get_fee_rate tier with
  | Some r =>
      match Py.trunc (r * 100)%float with
      | Some n => Some (Py.str_of_int n ++ "%")%string
      | None => None
      end
  | None => None
  end.

Definition get_valid_tiers : list string := map fst FEE_TIERS.

End config.

(* ================================================================== *)
(** ** The persistent store (follower_models.py) *)
(* ================================================================== *)

(** Timestamps are microseconds since the epoch. *)
Definition Timestamp := Z.

Definition seconds (n : Z) : Z := (n * 1000000)%Z.
Definition minutes (n : Z) : Z := seconds (n * 60).
Definition hours (n : Z) : Z := minutes (n * 60).

Module Store.

(** follower_users *)
Record User : Type := {
  u_id : Z;
  u_api_key : string;
  u_email : string;
  u_hl_private_key_encrypted : option string;
  u_hl_wallet_address : option string;
  u_credentials_set : bool;
  u_agent_active : bool;
  u_access_granted : bool;
  u_pending_invoice_id : option string;
  u_invoice_due_date : option Timestamp;
  u_billing_cycle_start : option Timestamp;
  u_current_cycle_profit : option float;
  u_current_cycle_trades : option Z;
  u_total_profit : option float;
  u_total_trades : option Z
}.

(** signals *)
Record Signal : Type := {
  s_id : Z;
  s_signal_id : string;
  s_action : string;
  s_symbol : string;
  s_entry_price : float;
  s_stop_loss : float;
  s_take_profit : float;
  s_leverage : float;
  s_risk_pct : option float;
  s_created_at : Timestamp
}.

(** signal_deliveries *)
Record Delivery : Type := {
  sd_id : Z;
  sd_signal_id : Z;
  sd_user_id : Z;
  sd_acknowledged : bool;
  sd_acknowledged_at : option Timestamp;
  sd_executed : bool;
  sd_executed_at : option Timestamp;
  sd_failed : bool
}.

(** open_positions.  The three order identifiers are stored as the text
    [str(id)]; they are kept as the integer they print, [None] being the
    literal "unknown". *)
Record OpenPosition : Type := {
  op_id : Z;
  op_user_id : Z;
  op_signal_id : option Z;
  op_entry_order_id : option Z;
  op_tp_order_id : option Z;
  op_sl_order_id : option Z;
  op_symbol : string;
  op_hl_coin : option string;
  op_side : string;
  op_quantity : float;
  op_leverage : float;
  op_entry_fill_price : option float;
  op_avg_entry_price : option float;
  op_filled_quantity : option float;
  op_fill_count : option Z;
  op_target_tp : float;
  op_target_sl : float;
  op_opened_at : option Timestamp;
  op_first_fill_at : option Timestamp;
  op_last_fill_at : option Timestamp;
  op_status : string
}.

(** trades *)
Record Trade : Type := {
  t_user_id : Z;
  t_signal_id : option string;
  t_order_id : option Z;
  t_opened_at : option Timestamp;
  t_closed_at : Timestamp;
  t_symbol : string;
  t_side : string;
  t_entry_price : float;
  t_exit_price : float;
  t_position_size : float;
  t_leverage : float;
  t_profit_usd : float;
  t_profit_percent : float;
  t_exit_type : string;
  t_fee_charged : float;
  t_notes : string
}.

Record t : Type := {
  users : list User;
  signals : list Signal;
  signal_deliveries : list Delivery;
  open_positions : list OpenPosition;
  trades : list Trade
}.

(** The next value of a serial primary key. *)
Definition next_id (ids : list Z) : Z := (fold_right Z.max 0 ids + 1)%Z.

Definition with_deliveries (db : t) (l : list Delivery) : t :=
  {| users := users db; signals := signals db; signal_deliveries := l;
     open_positions := open_positions db; trades := trades db |}.

Definition with_open_positions (db : t) (l : list OpenPosition) : t :=
  {| users := users db; signals := signals db;
     signal_deliveries := signal_deliveries db;
     open_positions := l; trades := trades db |}.

Definition with_users (db : t) (l : list User) : t :=
  {| users := l; signals := signals db;
     signal_deliveries := signal_deliveries db;
     open_positions := open_positions db; trades := trades db |}.

Definition with_trades (db : t) (l : list Trade) : t :=
  {| users := users db; signals := signals db;
     signal_deliveries := signal_deliveries db;
     open_positions := open_positions db; trades := l |}.

(** [UPDATE open_positions SET status = ..., last_fill_at = ... WHERE id = ...] *)
Definition set_status (id : Z) (status : string) (last_fill : option Timestamp)
           (p : OpenPosition) : OpenPosition :=
  if (op_id p =? id)%Z then
    {| op_id := op_id p; op_user_id := op_user_id p; op_signal_id := op_signal_id p;
       op_entry_order_id := op_entry_order_id p; op_tp_order_id := op_tp_order_id p;
       op_sl_order_id := op_sl_order_id p; op_symbol := op_symbol p;
       op_hl_coin := op_hl_coin p; op_side := op_side p; op_quantity := op_quantity p;
       op_leverage := op_leverage p; op_entry_fill_price := op_entry_fill_price p;
       op_avg_entry_price := op_avg_entry_price p;
       op_filled_quantity := op_filled_quantity p; op_fill_count := op_fill_count p;
       op_target_tp := op_target_tp p; op_target_sl := op_target_sl p;
       op_opened_at := op_opened_at p; op_first_fill_at := op_first_fill_at p;
       op_last_fill_at := match last_fill with
                          | Some ts => Some ts
                          | None => op_last_fill_at p
                          end;
       op_status := status |}
  else p.

End Store.

(* ================================================================== *)
(** ** What the exchange's read-only client answers *)
(* ================================================================== *)

Module Exchange.

(** One entry of [state["assetPositions"]]: [pos["position"]] with its
    "coin" and its signed size "szi" (already parsed; a missing "szi" is 0). *)
Record AssetPosition : Type := {
  pos_coin : option string;
  pos_szi : float
}.

(** [info.user_state(wallet)]: the keys the code reads. *)
Record UserState : Type := {
  assetPositions : option (list AssetPosition);
  accountValue : option float          (* state["marginSummary"]["accountValue"] *)
}.

(** The call raises, or returns a state ([None]: a falsy answer). *)
Inductive StateReply : Type :=
| StateRaised (msg : string)
| StateReplied (state : option UserState).

(** One open order: its "coin" and its "oid". *)
Record OpenOrder : Type := {
  oo_coin : option string;
  oo_oid : option Z
}.

Inductive OrdersReply : Type :=
| OrdersRaised (msg : string)
| OrdersReplied (open_orders : list OpenOrder).

(** [info.all_mids()], read at one coin. *)
Inductive MidsReply : Type :=
| MidsRaised (msg : string)
| MidsReplied (mid : option float).

(** One fill of [info.user_fills(wallet)]. *)
Record Fill : Type := {
  fill_coin : option string;
  fill_px : option float;
  fill_sz : option float;
  fill_time : option Z;               (* milliseconds *)
  fill_closedPnl : option float
}.

Inductive FillsReply : Type :=
| FillsRaised (msg : string)
| FillsReplied (fills : list Fill).

(** Decrypting the stored key and deriving the account from it.  What is
    raised is a [ValueError] (a key or a text that does not decode, a
    private key [Account.from_key] refuses) or another exception (a
    missing encryption key, Fernet's [InvalidToken]). *)
Inductive Decrypt : Type :=
| DecryptRaised (msg : string)
| DecryptValueError (msg : string)
| DecryptEmpty
| Decrypted (api_wallet_address : string).

(** [abs(szi) > 0] *)
Definition is_open (p : AssetPosition) : bool :=
  PrimFloat.ltb 0%float (PrimFloat.abs (pos_szi p)).

End Exchange.

(* ================================================================== *)
(** ** hosted_trading_loop.py *)
(* ================================================================== *)

Module hosted_trading_loop.

Import order_utils Store Exchange.

Definition DEFAULT_RISK_PERCENTAGE : float := 0.02%float.
Definition POLL_INTERVAL_SECONDS : float := 10%float.

(** [log_error_to_db]: one row of error_logs; its own failure is
    swallowed, so the row is an event and nothing more. *)
Definition log_error_to_db (api_key error_type error_message : string) : Event :=
  EvDb (DbErrorLog (short_key api_key) error_type (Py.take 500 error_message)) false.

Definition convert_symbol_to_hl (api_symbol : string) : string :=
  if Py.has_char "/" api_symbol
  then Py.upper (Py.before "/" api_symbol)
  else Py.remove "USDT" (Py.remove "USD" (Py.remove "PF_" (Py.upper api_symbol))).

(** *** The batched fetch *)

(** One row of the query of [get_pending_signals_batched]. *)
Record PendingRow : Type := {
  user_id : Z;
  api_key : string;
  email : string;
  hl_private_key_encrypted : option string;
  hl_wallet_address : option string;
  delivery_id : Z;
  signal_id : string;
  action : string;
  symbol : string;
  entry_price : float;
  stop_loss : float;
  take_profit : float;
  leverage : float;
  risk_pct : float;
  signal_created_at : Timestamp
}.

(** [FROM follower_users u JOIN signal_deliveries sd ON sd.user_id = u.id
     JOIN signals s ON sd.signal_id = s.id] *)
Definition joined (db : Store.t) : list (User * Delivery * Signal) :=
  flat_map (fun u =>
    flat_map (fun sd =>
      if (sd_user_id sd =? u_id u)%Z then
        flat_map (fun s =>
          if (sd_signal_id sd =? s_id s)%Z then [(u, sd, s)] else [])
          (signals db)
      else [])
      (signal_deliveries db))
    (users db).

(** [u.pending_invoice_id IS NULL OR u.invoice_due_date IS NULL
     OR u.invoice_due_date > CURRENT_TIMESTAMP] *)
Definition invoice_not_overdue (now : Timestamp) (u : User) : bool :=
  match u_pending_invoice_id u, u_invoice_due_date u with
  | None, _ => true
  | Some _, None => true
  | Some _, Some due => (now <? due)%Z
  end.

(** The WHERE clause. *)
Definition pending_where (now : Timestamp) (r : User * Delivery * Signal) : bool :=
  let '(u, sd, s) := r in
  u_agent_active u
  && u_credentials_set u
  && u_access_granted u
  && invoice_not_overdue now u
  && negb (sd_acknowledged sd)
  && (now - minutes 15 <? s_created_at s)%Z.

(** The SELECT list. *)
Definition select_row (r : User * Delivery * Signal) : PendingRow :=
  let '(u, sd, s) := r in
  {| user_id := u_id u;
     api_key := u_api_key u;
     email := u_email u;
     hl_private_key_encrypted := u_hl_private_key_encrypted u;
     hl_wallet_address := u_hl_wallet_address u;
     delivery_id := sd_id sd;
     signal_id := s_signal_id s;
     action := s_action s;
     symbol := s_symbol s;
     entry_price := s_entry_price s;
     stop_loss := s_stop_loss s;
     take_profit := s_take_profit s;
     leverage := s_leverage s;
     risk_pct := match s_risk_pct s with
                 | Some r => r
                 | None => 0.02%float
                 end;
     signal_created_at := s_created_at s |}.

(** [ORDER BY s.created_at DESC] *)
Fixpoint insert_desc (r : PendingRow) (l : list PendingRow) : list PendingRow :=
  match l with
  | [] => [r]
  | x :: l' =>
      if (signal_created_at x <? signal_created_at r)%Z
      then r :: l
      else x :: insert_desc r l'
  end.

Definition order_by_created_desc (l : list PendingRow) : list PendingRow :=
  fold_right insert_desc [] l.

Definition get_pending_signals_batched (db : Store.t) (now : Timestamp)
  : list PendingRow :=
  order_by_created_desc (map select_row (filter (pending_where now) (joined db))).

(** *** The state of the loop and the environment of one execution *)

(** The store and the session cache [active_exchanges] (api key to
    wallet address; the clients themselves carry no state of the model). *)
Record World : Type := {
  db : Store.t;
  active_exchanges : list (string * string)
}.

(** Everything the collaborators answer during one [execute_trade]. *)
Record TradeEnv : Type := {
  now : Timestamp;
  db_error : string;                      (* text of a store exception *)
  ack_raises : bool;
  decrypt : Decrypt;
  gate_signal_lookup_raises : bool;
  gate_position_count_raises : bool;
  gate_recent_trade_raises : bool;
  gate_user_state : StateReply;
  gate_open_orders : OrdersReply;
  equity_user_state : StateReply;
  entry_exchange : nat -> OrderReply;
  tp_exchange : nat -> OrderReply;
  sl_exchange : nat -> OrderReply;
  cancel_exchange : nat -> CancelReply;
  close_user_state : StateReply;
  close_all_mids : MidsReply;
  close_exchange : OrderReply;
  record_signal_lookup_raises : bool;
  record_insert_raises : bool;
  record_billing_raises : bool
}.

(** [acknowledge_signal]: the UPDATE of signal_deliveries. *)
Definition acknowledge (now : Timestamp) (delivery_id : Z) (sd : Delivery) : Delivery :=
  if (sd_id sd =? delivery_id)%Z then
    {| sd_id := sd_id sd; sd_signal_id := sd_signal_id sd; sd_user_id := sd_user_id sd;
       sd_acknowledged := true; sd_acknowledged_at := Some now;
       sd_executed := true; sd_executed_at := Some now;
       sd_failed := sd_failed sd |}
  else sd.

Definition acknowledge_signal (db : Store.t) (now : Timestamp) (delivery_id : Z)
  : Store.t :=
  with_deliveries db (map (acknowledge now delivery_id) (signal_deliveries db)).

(** [get_user_equity] *)
Definition get_user_equity (reply : StateReply) : float :=
  match reply with
  | StateRaised _ => 0%float
  | StateReplied (Some state) =>
      match accountValue state with
      | Some v => v
      | None => 0%float
      end
  | StateReplied None => 0%float
  end.

(** [get_or_create_exchange]: the wallet address, a [ValueError] or
    another exception. *)
Inductive ExchangeResult : Type :=
| ExchangeOk (wallet_address : string)
| ExchangeValueError (msg : string)
| ExchangeError (msg : string).

Fixpoint cache_lookup (k : string) (c : list (string * string)) : option string :=
  match c with
  | [] => None
  | (k', v) :: c' => if String.eqb k k' then Some v else cache_lookup k c'
  end.

Definition option_nonempty (s : option string) : option string :=
  match s with
  | Some v => if Py.nonempty v then Some v else None
  | None => None
  end.

Definition get_or_create_exchange
  (cache : list (string * string)) (d : Decrypt) (user : PendingRow)
  : list (string * string) * ExchangeResult :=
  match cache_lookup (api_key user) cache with
  | Some wallet => (cache, ExchangeOk wallet)
  | None =>
      match option_nonempty (hl_private_key_encrypted user) with
      | None =>
          (cache, ExchangeValueError
                    ("No encrypted credentials for user "
                     ++ Py.take 15 (api_key user) ++ "...")%string)
      | Some _ =>
          match d with
          | DecryptRaised msg => (cache, ExchangeError msg)
          | DecryptValueError msg => (cache, ExchangeValueError msg)
          | DecryptEmpty =>
              (cache, ExchangeValueError
                        ("Failed to decrypt credentials for user "
                         ++ Py.take 15 (api_key user) ++ "...")%string)
          | Decrypted api_wallet_address =>
              let wallet_address :=
                match option_nonempty (hl_wallet_address user) with
                | Some w => w
                | None => api_wallet_address
                end in
              ((api_key user, wallet_address) :: cache, ExchangeOk wallet_address)
          end
      end
  end.

(** *** The pre-trade safety gate *)

(** [SELECT id FROM signals WHERE signal_id = $1 LIMIT 1] *)
Definition signal_int_id (db : Store.t) (signal_id : string) : option Z :=
  match find (fun s => String.eqb (s_signal_id s) signal_id) (signals db) with
  | Some s => Some (s_id s)
  | None => None
  end.

(** [SELECT COUNT( * ) FROM open_positions WHERE user_id = $1 AND signal_id = $2] *)
Definition count_positions (db : Store.t) (uid sid : Z) : nat :=
  List.length
    (filter (fun p => (op_user_id p =? uid)%Z
                      && match op_signal_id p with
                         | Some s => (s =? sid)%Z
                         | None => false
                         end)
            (open_positions db)).

(** [SELECT COUNT( * ) FROM trades WHERE user_id = $1 AND signal_id = $2::text
     AND closed_at > NOW() - INTERVAL '60 seconds'] *)
Definition count_recent_trades (db : Store.t) (now : Timestamp) (uid sid : Z) : nat :=
  List.length
    (filter (fun t => (t_user_id t =? uid)%Z
                      && match t_signal_id t with
                         | Some s => String.eqb s (Py.str_of_int sid)
                         | None => false
                         end
                      && (now - seconds 60 <? t_closed_at t)%Z)
            (trades db)).

(** CHECK 0 either returns from the gate, falls through, or raises. *)
Inductive Check0 : Type :=
| Blocked (reason : string)
| Clear
| Failed (e : string).

Definition check_same_signal (db : Store.t) (env : TradeEnv)
           (uid : Z) (sid : string) : Trace * Check0 :=
  if negb (uid =? 0)%Z && Py.nonempty sid then
    if gate_signal_lookup_raises env then
      ([EvDb (DbGateSignalLookup sid) true], Failed (db_error env))
    else
      let t1 := [EvDb (DbGateSignalLookup sid) false] in
      match signal_int_id db sid with
      | None => (t1, Clear)
      | Some int_id =>
          if (int_id =? 0)%Z then (t1, Clear)
          else if gate_position_count_raises env then
            (t1 ++ [EvDb (DbGatePositionCount uid int_id) true], Failed (db_error env))
          else
            let t2 := t1 ++ [EvDb (DbGatePositionCount uid int_id) false] in
            if (0 <? count_positions db uid int_id)%nat then
              (t2, Blocked "Position already exists for this signal")
            else if gate_recent_trade_raises env then
              (t2 ++ [EvDb (DbGateRecentTradeCount uid int_id) true],
               Failed (db_error env))
            else
              let t3 := t2 ++ [EvDb (DbGateRecentTradeCount uid int_id) false] in
              if (0 <? count_recent_trades db (now env) uid int_id)%nat then
                (t3, Blocked "Trade recently closed for this signal")
              else (t3, Clear)
      end
  else ([], Clear).

(** CHECK 1: the first entry of the state with a non-zero size. *)
Definition open_position_reason (reply : StateReply) : option string :=
  match reply with
  | StateRaised _ => None
  | StateReplied None => None
  | StateReplied (Some state) =>
      match assetPositions state with
      | None => None
      | Some l =>
          match find is_open l with
          | None => None
          | Some p =>
              let coin := match pos_coin p with Some c => c | None => "Unknown" end in
              let side := if PrimFloat.ltb 0%float (pos_szi p) then "LONG" else "SHORT" in
              Some ("Open position exists: " ++ coin ++ " " ++ side)%string
          end
      end
  end.

(** CHECK 2 *)
Definition open_orders_reason (reply : OrdersReply) : option string :=
  match reply with
  | OrdersRaised _ => None
  | OrdersReplied [] => None
  | OrdersReplied l =>
      Some ("Open orders exist: " ++ Py.str_of_nat (List.length l) ++ " orders")%string
  end.

Definition state_raised (r : StateReply) : bool :=
  match r with StateRaised _ => true | StateReplied _ => false end.

Definition orders_raised (r : OrdersReply) : bool :=
  match r with OrdersRaised _ => true | OrdersReplied _ => false end.

(** [check_any_open_positions_or_orders]: [(has_open, reason)]. *)
Definition check_any_open_positions_or_orders
  (db : Store.t) (env : TradeEnv) (wallet_address user_short : string)
  (uid : Z) (sid : string) : Trace * (bool * option string) :=
  match check_same_signal db env uid sid with
  | (t0, Blocked reason) => (t0, (true, Some reason))
  | (t0, Failed e) =>
      (t0 ++ [log_error_to_db user_short "SAFETY_CHECK_ERROR" e], (false, None))
  | (t0, Clear) =>
      let t1 := t0 ++ [EvUserState wallet_address (state_raised (gate_user_state env))] in
      match open_position_reason (gate_user_state env) with
      | Some reason => (t1, (true, Some reason))
      | None =>
          let t2 := t1 ++ [EvOpenOrders wallet_address
                             (orders_raised (gate_open_orders env))] in
          match open_orders_reason (gate_open_orders env) with
          | Some reason => (t2, (true, Some reason))
          | None => (t2, (false, None))
          end
      end
  end.

Section Configuration.

(** [SLIPPAGE_BPS] is read from the process environment, [asset_meta] is
    loaded from the exchange when the loop is built.  [round_price]
    rounds to five significant figures through [math.log10], which is
    the C library's: it is a parameter here, [None] when it raises. *)
Variable SLIPPAGE_BPS : Z.
Variable asset_meta : list (string * nat).
Variable round_price : float -> option float.

Fixpoint szDecimals (meta : list (string * nat)) (coin : string) : nat :=
  match meta with
  | [] => 2
  | (name, d) :: meta' => if String.eqb name coin then d else szDecimals meta' coin
  end.

(** [round_size]: [math.floor(size * factor) / factor]; [None] when
    the computation raises. *)
Definition round_size (coin : string) (size : float) : option float :=
  let factor := (10 ^ Z.of_nat (szDecimals asset_meta coin))%Z in
  match Py.mul_int size factor with
  | None => None
  | Some scaled =>
      match Py.floor scaled with
      | None => None
      | Some n => Py.int_truediv n factor
      end
  end.

(** The position sizing of [execute_trade]:
    [risk_amount / risk_per_unit]. *)
Definition position_size (equity risk_pct entry_price stop_loss : float) : float :=
  let risk_amount := (equity * risk_pct)%float in
  let risk_per_unit := PrimFloat.abs (entry_price - stop_loss)%float in
  (risk_amount / risk_per_unit)%float.

(** The [try] of [_emergency_close_position]: what is asked of the
    exchange, and [close_success]. *)
Definition emergency_close_order
  (env : TradeEnv) (wallet_address coin : string) (is_buy_to_close : bool)
  (quantity : float) : Trace * bool :=
  match close_user_state env with
  | StateRaised _ => ([EvUserState wallet_address true], false)
  | StateReplied _ =>
      let t1 := [EvUserState wallet_address false] in
      match close_all_mids env with
      | MidsRaised _ => (t1 ++ [EvAllMids true], false)
      | MidsReplied mid =>
          let t2 := t1 ++ [EvAllMids false] in
          let mid_price := match mid with Some m => m | None => 0%float end in
          if PrimFloat.ltb 0%float mid_price then
            let emergency_slippage := 0.02%float in
            match round_price (if is_buy_to_close
                               then mid_price * (1 + emergency_slippage)
                               else mid_price * (1 - emergency_slippage))%float with
            | None => (t2, false)
            | Some limit_px =>
                let t3 := t2 ++ [EvOrder coin is_buy_to_close quantity limit_px
                                   LimitIoc true] in
                match close_exchange env with
                | OrderRaised _ => (t3, false)
                | OrderReplied status _ _ => (t3, String.eqb status "ok")
                end
            end
          else (t2, false)
      end
  end.

(** The alert and the log row that end [_emergency_close_position]. *)
Definition close_report
  (user_email user_api_key coin : string) (entry_order_id : option Z)
  (reason : string) (close_success : bool) : Trace :=
  [notify_bracket_incomplete user_email user_api_key coin entry_order_id
     false false
     (reason ++ " - Emergency close "
      ++ (if close_success then "SUCCESSFUL" else "FAILED"))%string;
   log_error_to_db user_api_key "EMERGENCY_CLOSE"
     (reason ++ ". Close: " ++ (if close_success then "OK" else "FAILED"))%string].

(** [_emergency_close_position] *)
Definition _emergency_close_position
  (env : TradeEnv) (wallet_address coin : string) (is_buy_to_close : bool)
  (quantity : float) (user_email user_api_key : string)
  (entry_order_id : option Z) (reason : string) : Trace :=
  let '(t, close_success) :=
    emergency_close_order env wallet_address coin is_buy_to_close quantity in
  t ++ close_report user_email user_api_key coin entry_order_id reason close_success.

(** What the bracket leaves for the record of the Open Position. *)
Record Bracket : Type := {
  b_coin : string;
  b_side : string;
  b_quantity : float;
  b_leverage : float;
  b_entry_order : OrderResult;
  b_tp_order : OrderResult;
  b_sl_order : OrderResult;
  b_tp_price : float;
  b_sl_price : float
}.

(** The [except Exception] of [execute_trade]. *)
Definition trade_execution_error (user signal : PendingRow) (e : string) : Trace :=
  [log_error_to_db (api_key user) "TRADE_EXECUTION_ERROR" (Py.take 200 e)].

(** The three orders, entry first ("EXECUTE 3-ORDER BRACKET"). *)
Definition place_orders
  (env : TradeEnv) (user signal : PendingRow) (wallet_address coin : string)
  (quantity : float) : Trace * option Bracket :=
  let is_buy := String.eqb (Py.upper (action signal)) "BUY" in
  let user_email := email user in
  let user_api_key := api_key user in
  match Py.int_truediv SLIPPAGE_BPS 10000 with
  | None => (trade_execution_error user signal "division by zero", None)
  | Some bps =>
      let slippage_mult := (if is_buy then 1 + bps else 1 - bps)%float in
      match round_price (entry_price signal * slippage_mult)%float with
      | None => (trade_execution_error user signal "round_price", None)
      | Some entry_limit_price =>
          let '(t_entry, entry_order) :=
            place_entry_order_with_retry (entry_exchange env) coin is_buy
              quantity entry_limit_price user_email user_api_key in
          match entry_order with
          | None =>
              (t_entry ++ [log_error_to_db user_api_key "ENTRY_ORDER_FAILED"
                             "Entry failed after all retries"], None)
          | Some entry_order =>
              let t1 := t_entry ++ [EvSleep 2%float] in
              match round_price (take_profit signal) with
              | None => (t1 ++ trade_execution_error user signal "round_price", None)
              | Some tp_price =>
                  let '(t_tp, tp_order) :=
                    place_tp_order_with_retry (tp_exchange env) coin (negb is_buy)
                      quantity tp_price user_email user_api_key in
                  match tp_order with
                  | None =>
                      (t1 ++ t_tp
                       ++ _emergency_close_position env wallet_address coin
                            (negb is_buy) quantity user_email user_api_key
                            (id entry_order) "TP order failed after all retries",
                       None)
                  | Some tp_order =>
                      let t2 := t1 ++ t_tp in
                      match round_price (stop_loss signal) with
                      | None =>
                          (t2 ++ trade_execution_error user signal "round_price", None)
                      | Some sl_price =>
                          let '(t_sl, sl_order) :=
                            place_sl_order_with_retry (sl_exchange env) coin
                              (negb is_buy) quantity sl_price user_email user_api_key in
                          match sl_order with
                          | None =>
                              let t_cancel :=
                                match id tp_order with
                                | Some oid =>
                                    fst (cancel_order_with_retry (cancel_exchange env)
                                           coin oid "Orphaned TP" "unknown" "unknown" true)
                                | None => []
                                end in
                              (t2 ++ t_sl ++ t_cancel
                               ++ _emergency_close_position env wallet_address coin
                                    (negb is_buy) quantity user_email user_api_key
                                    (id entry_order) "SL order failed after all retries",
                               None)
                          | Some sl_order =>
                              (t2 ++ t_sl,
                               Some {| b_coin := coin;
                                       b_side := Py.upper (action signal);
                                       b_quantity := quantity;
                                       b_leverage := leverage signal;
                                       b_entry_order := entry_order;
                                       b_tp_order := tp_order;
                                       b_sl_order := sl_order;
                                       b_tp_price := tp_price;
                                       b_sl_price := sl_price |})
                          end
                      end
                  end
              end
          end
      end
  end.

(** [exchange.update_leverage(int(leverage), coin, is_cross=True)] inside
    its own [try]: nothing is asked when [int] raises. *)
Definition set_leverage (lev : float) (coin : string) : Trace :=
  match Py.trunc lev with
  | Some n => [EvUpdateLeverage n coin]
  | None => []
  end.

(** From "Get equity" to the stop-loss order: the part of the [try]
    of [execute_trade] between the safety check and the record. *)
Definition size_and_place
  (env : TradeEnv) (user signal : PendingRow) (wallet_address : string)
  : Trace * option Bracket :=
  let coin := convert_symbol_to_hl (symbol signal) in
  let t_eq := [EvUserState wallet_address (state_raised (equity_user_state env))] in
  let equity := get_user_equity (equity_user_state env) in
  if PrimFloat.leb equity 0%float then (t_eq, None)
  else if negb (Py.truthy (stop_loss signal)) || negb (Py.truthy (take_profit signal)) then
    let missing :=
      (if Py.truthy (stop_loss signal) then [] else ["stop_loss"])
      ++ (if Py.truthy (take_profit signal) then [] else ["take_profit"]) in
    (t_eq ++ [notify_signal_invalid (signal_id signal) (symbol signal) (action signal)
                missing ("Missing: " ++ Py.join ", " missing)%string], None)
  else if PrimFloat.leb (stop_loss signal) 0%float
          || PrimFloat.leb (take_profit signal) 0%float then
    (t_eq ++ [notify_signal_invalid_values (signal_id signal) (symbol signal)
                (action signal) (entry_price signal) (stop_loss signal)
                (take_profit signal) "Zero or negative"], None)
  else
    let risk_per_unit := PrimFloat.abs (entry_price signal - stop_loss signal)%float in
    if PrimFloat.leb risk_per_unit 0%float then
      (t_eq ++ [notify_signal_invalid_values (signal_id signal) (symbol signal)
                  (action signal) (entry_price signal) (stop_loss signal)
                  (take_profit signal) "SL distance zero"], None)
    else
      match round_size coin (position_size equity (risk_pct signal)
                               (entry_price signal) (stop_loss signal)) with
      | None =>
          (t_eq ++ trade_execution_error user signal
                     "cannot convert float to integer", None)
      | Some quantity =>
          if PrimFloat.leb quantity 0%float then (t_eq, None)
          else if PrimFloat.eqb (leverage signal) 0%float then
            (* the margin of the log line: position_value / leverage *)
            (t_eq ++ trade_execution_error user signal "float division by zero", None)
          else
            let t_lev := set_leverage (leverage signal) coin in
            let '(t, b) := place_orders env user signal wallet_address coin quantity in
            (t_eq ++ t_lev ++ t, b)
      end.

(** "RECORD OPEN POSITION": the lookup, the INSERT and the start of the
    billing cycle share one [try]; whatever raises is logged and the
    trade still counts as executed. *)
Definition new_position (db : Store.t) (env : TradeEnv) (user signal : PendingRow)
           (b : Bracket) : OpenPosition :=
  {| op_id := next_id (map op_id (open_positions db));
     op_user_id := user_id user;
     op_signal_id := signal_int_id db (signal_id signal);
     op_entry_order_id := id (b_entry_order b);
     op_tp_order_id := id (b_tp_order b);
     op_sl_order_id := id (b_sl_order b);
     op_symbol := symbol signal;
     op_hl_coin := Some (b_coin b);
     op_side := b_side b;
     op_quantity := b_quantity b;
     op_leverage := b_leverage b;
     op_entry_fill_price :=
       Some (match avgPx (b_entry_order b) with
             | Some px => px
             | None => entry_price signal
             end);
     op_avg_entry_price := None;
     op_filled_quantity := None;
     op_fill_count := None;
     op_target_tp := b_tp_price b;
     op_target_sl := b_sl_price b;
     op_opened_at := Some (now env);
     op_first_fill_at := None;
     op_last_fill_at := None;
     op_status := "open" |}.

(** [UPDATE follower_users SET billing_cycle_start = $2
     WHERE id = $1 AND billing_cycle_start IS NULL] *)
Definition start_billing_cycle (uid : Z) (at_ : Timestamp) (u : User) : User :=
  if (u_id u =? uid)%Z then
    match u_billing_cycle_start u with
    | Some _ => u
    | None =>
        {| u_id := u_id u; u_api_key := u_api_key u; u_email := u_email u;
           u_hl_private_key_encrypted := u_hl_private_key_encrypted u;
           u_hl_wallet_address := u_hl_wallet_address u;
           u_credentials_set := u_credentials_set u;
           u_agent_active := u_agent_active u;
           u_access_granted := u_access_granted u;
           u_pending_invoice_id := u_pending_invoice_id u;
           u_invoice_due_date := u_invoice_due_date u;
           u_billing_cycle_start := Some at_;
           u_current_cycle_profit := u_current_cycle_profit u;
           u_current_cycle_trades := u_current_cycle_trades u;
           u_total_profit := u_total_profit u;
           u_total_trades := u_total_trades u |}
    end
  else u.

Definition record_open_position
  (db : Store.t) (env : TradeEnv) (user signal : PendingRow) (b : Bracket)
  : Store.t * Trace :=
  if record_signal_lookup_raises env then
    (db, [EvDb (DbRecordSignalLookup (signal_id signal)) true])
  else
    let t1 := [EvDb (DbRecordSignalLookup (signal_id signal)) false] in
    let row := new_position db env user signal b in
    if record_insert_raises env then
      (db, t1 ++ [EvDb (DbInsertOpenPosition (op_user_id row) (op_signal_id row)) true])
    else
      let db1 := with_open_positions db (open_positions db ++ [row]) in
      let t2 := t1 ++ [EvDb (DbInsertOpenPosition (op_user_id row) (op_signal_id row))
                         false] in
      if record_billing_raises env then
        (db1, t2 ++ [EvDb (DbStartBillingCycle (user_id user)) true])
      else
        (with_users db1 (map (start_billing_cycle (user_id user) (now env)) (users db1)),
         t2 ++ [EvDb (DbStartBillingCycle (user_id user)) false]).

(** *** [execute_trade], in the four stretches the store and the
    exchange see it in *)

(** What a call leaves: a returned flag, or an exception that leaves
    the function. *)
Inductive ExecResult : Type :=
| Returned (success : bool)
| Raised (e : string).

(** "EARLY ACKNOWLEDGMENT": [if delivery_id: await acknowledge_signal];
    the flag tells whether the UPDATE raised. *)
Definition early_acknowledgment (db : Store.t) (env : TradeEnv) (signal : PendingRow)
  : Store.t * Trace * bool :=
  if (delivery_id signal =? 0)%Z then (db, [], false)
  else if ack_raises env then
    (db, [EvDb (DbAcknowledge (delivery_id signal)) true], true)
  else
    (acknowledge_signal db (now env) (delivery_id signal),
     [EvDb (DbAcknowledge (delivery_id signal)) false], false).

(** "Get exchange" and "SAFETY CHECK": the wallet to trade on when the
    gate lets the trade through. *)
Definition safety_check (w : World) (env : TradeEnv) (user signal : PendingRow)
  : list (string * string) * Trace * option string :=
  match get_or_create_exchange (active_exchanges w) (decrypt env) user with
  | (cache, ExchangeValueError cred_error) =>
      (cache, [log_error_to_db (api_key user) "CREDENTIALS_NOT_FOUND" cred_error], None)
  | (cache, ExchangeError e) => (cache, trade_execution_error user signal e, None)
  | (cache, ExchangeOk wallet_address) =>
      let user_short := (Py.take 15 (api_key user) ++ "...")%string in
      let '(t, (has_open, _)) :=
        check_any_open_positions_or_orders (db w) env wallet_address user_short
          (user_id user) (signal_id signal) in
      (cache, t, if has_open then None else Some wallet_address)
  end.

Definition execute_trade (w : World) (env : TradeEnv) (user signal : PendingRow)
  : World * Trace * ExecResult :=
  let '(db1, t_ack, ack_raised) := early_acknowledgment (db w) env signal in
  if ack_raised then
    ({| db := db1; active_exchanges := active_exchanges w |}, t_ack,
     Raised (db_error env))
  else
    let w1 := {| db := db1; active_exchanges := active_exchanges w |} in
    let '(cache, t_gate, wallet) := safety_check w1 env user signal in
    match wallet with
    | None => ({| db := db1; active_exchanges := cache |}, t_ack ++ t_gate,
               Returned false)
    | Some wallet_address =>
        let '(t_place, bracket) := size_and_place env user signal wallet_address in
        match bracket with
        | None => ({| db := db1; active_exchanges := cache |},
                   t_ack ++ t_gate ++ t_place, Returned false)
        | Some b =>
            let '(db2, t_rec) := record_open_position db1 env user signal b in
            ({| db := db2; active_exchanges := cache |},
             t_ack ++ t_gate ++ t_place ++ t_rec, Returned true)
        end
    end.

(** *** The scheduler *)

(** [_execute_signal_for_user]: an exception of [execute_trade] is
    logged and goes no further. *)
Definition _execute_signal_for_user (w : World) (env : TradeEnv) (item : PendingRow)
  : World * Trace :=
  match execute_trade w env item item with
  | (w', t, Returned _) => (w', t)
  | (w', t, Raised e) =>
      (w', t ++ [log_error_to_db (api_key item) "SIGNAL_PROCESSING_ERROR"
                   (Py.take 200 e)])
  end.

(** What one poll cycle takes from outside: the clock, whether the
    fetch raises, the permutation [random.shuffle] picks, and the
    environment of each execution. *)
Record TickEnv : Type := {
  tick_now : Timestamp;
  fetch_raises : option string;       (* the text of the exception *)
  shuffle : list PendingRow -> list PendingRow;
  trade_env : PendingRow -> TradeEnv
}.

Definition BATCH_SIZE : nat := 25.
Definition BATCH_DELAY : float := 0.05%float.

(** [asyncio.gather] over one batch; the tasks are run one after the
    other, in the order of the batch. *)
Fixpoint gather (w : World) (env : TickEnv) (batch : list PendingRow)
  : World * Trace :=
  match batch with
  | [] => (w, [])
  | item :: batch' =>
      let '(w1, t1) := _execute_signal_for_user w (trade_env env item) item in
      let '(w2, t2) := gather w1 env batch' in
      (w2, t1 ++ t2)
  end.

(** [for i in range(0, len(pending), BATCH_SIZE)] *)
Fixpoint run_batches (fuel : nat) (w : World) (env : TickEnv)
         (pending : list PendingRow) : World * Trace :=
  match fuel, pending with
  | O, _ => (w, [])
  | _, [] => (w, [])
  | S fuel', _ =>
      let '(w1, t1) := gather w env (firstn BATCH_SIZE pending) in
      match skipn BATCH_SIZE pending with
      | [] => (w1, t1)
      | rest =>
          let '(w2, t2) := run_batches fuel' w1 env rest in
          (w2, t1 ++ EvSleep BATCH_DELAY :: t2)
      end
  end.

(** [poll_and_execute]; with the exception of the fetch, if it raised. *)
Definition poll_and_execute (w : World) (env : TickEnv)
  : World * Trace * option string :=
  match fetch_raises env with
  | Some e => (w, [], Some e)
  | None =>
    let pending := get_pending_signals_batched (db w) (tick_now env) in
    match pending with
    | [] => (w, [], None)
    | _ =>
        let pending := shuffle env pending in
        let '(w', t) := run_batches (List.length pending) w env pending in
        (w', t, None)
    end
  end.

(** [run], for as many polls as there are environments. *)
Fixpoint run (w : World) (envs : list TickEnv) : World * Trace :=
  match envs with
  | [] => (w, [])
  | env :: envs' =>
      let '(w1, t1, raised) := poll_and_execute w env in
      let t1' :=
        match raised with
        | Some e =>
            t1 ++ [log_error_to_db "system" "TRADING_LOOP_ERROR" (Py.take 200 e);
                   notify_critical_error "TRADING_LOOP_ERROR" e
                     "hosted_trading_loop.run";
                   EvSleep 10%float]
        | None => t1 ++ [EvSleep POLL_INTERVAL_SECONDS]
        end in
      let '(w2, t2) := run w1 envs' in
      (w2, t1' ++ t2)
  end.

End Configuration.

End hosted_trading_loop.

(* ================================================================== *)
(** ** position_monitor.py *)
(* ================================================================== *)

Module position_monitor.

Import Store Exchange.

Definition CHECK_INTERVAL_SECONDS : float := 60%float.

(** [get_base_symbol] *)
Definition get_base_symbol (symbol : string) : string :=
  if negb (Py.nonempty symbol) then ""
  else
    let base := Py.upper symbol in
    let base := if Py.has_char "/" base then Py.before "/" base else base in
    let base := Py.remove "USDT" (Py.remove "USD" (Py.remove "PF_" base)) in
    Py.strip base.

(** *** Signal matching *)

(** SQL [LIKE]: [%] matches any run of characters, [_] any one
    character, a backslash takes the next character literally (a pattern
    that ends in a backslash matches nothing). *)
Fixpoint like (pattern : string) : string -> bool :=
  match pattern with
  | EmptyString => fun s => negb (Py.nonempty s)
  | String c p' =>
      if Ascii.eqb c "%" then
        fix any_run (s : string) : bool :=
          like p' s
          || match s with
             | EmptyString => false
             | String _ s' => any_run s'
             end
      else if Ascii.eqb c "_" then
        fun s => match s with
                 | EmptyString => false
                 | String _ s' => like p' s'
                 end
      else if Ascii.eqb c "\" then
        match p' with
        | EmptyString => fun _ => false
        | String c' p'' =>
            fun s => match s with
                     | EmptyString => false
                     | String x s' => Ascii.eqb x c' && like p'' s'
                     end
        end
      else
        fun s => match s with
                 | EmptyString => false
                 | String x s' => Ascii.eqb x c && like p' s'
                 end
  end.

(** [action_map.get(side.lower(), side.upper())] *)
Definition signal_action_of (side : string) : string :=
  if String.eqb (Py.lower side) "long" then "BUY"
  else if String.eqb (Py.lower side) "short" then "SELL"
  else Py.upper side.

Definition LOOKBACK_HOURS : Z := 48.

(** The WHERE clause of [find_matching_signal]. *)
Definition signal_matches (now : Timestamp) (symbol side : string) (s : Signal) : bool :=
  like ("%" ++ get_base_symbol symbol ++ "%")%string (Py.upper (s_symbol s))
  && String.eqb (Py.upper (s_action s)) (Py.upper (signal_action_of side))
  && (now - hours LOOKBACK_HOURS <=? s_created_at s)%Z.

(** [ORDER BY created_at DESC LIMIT 1] *)
Fixpoint latest (l : list Signal) : option Signal :=
  match l with
  | [] => None
  | s :: l' =>
      match latest l' with
      | None => Some s
      | Some s' => if (s_created_at s <? s_created_at s')%Z then Some s' else Some s
      end
  end.

(** [find_matching_signal]; a store exception is caught and read as
    "no match". *)
Definition find_matching_signal (db : Store.t) (now : Timestamp) (raises : bool)
           (symbol side : string) : option Signal :=
  if raises then None
  else latest (filter (signal_matches now symbol side) (signals db)).

(** *** Is the position still open on the exchange? *)

(** The dictionaries [check_position_closed] returns. *)
Inductive CheckResult : Type :=
| StillOpen (current_size : float)       (* {'closed': False, 'current_size': ...} *)
| Anomaly                                (* {'closed': False, 'anomaly': True} *)
| Closed (exit_price : option float) (exit_type : string)
| CheckError (e : string).               (* {'closed': False, 'error': ...} *)

Definition coin_is (coin : string) (c : option string) : bool :=
  match c with
  | Some x => String.eqb x coin
  | None => String.eqb "" coin
  end.

(** [str(o.get('oid', '')) == str(order_id)] *)
Definition oid_is (order_id : option Z) (o : OpenOrder) : bool :=
  match oo_oid o, order_id with
  | Some a, Some b => (a =? b)%Z
  | _, _ => false
  end.

Definition fill_time_or_zero (f : Fill) : Z :=
  match fill_time f with Some t => t | None => 0%Z end.

(** [fills.sort(key=lambda x: x.get('time', 0), reverse=True)]: a stable
    sort, latest first. *)
Fixpoint insert_fill (f : Fill) (l : list Fill) : list Fill :=
  match l with
  | [] => [f]
  | x :: l' =>
      if (fill_time_or_zero x <=? fill_time_or_zero f)%Z
      then f :: l
      else x :: insert_fill f l'
  end.

Definition sort_fills (l : list Fill) : list Fill := fold_right insert_fill [] l.

Definition fill_coin_is (coin : string) (f : Fill) : bool :=
  match fill_coin f with
  | Some c => String.eqb c coin
  | None => false
  end.

Definition or_zero (x : option float) : float :=
  match x with Some v => v | None => 0%float end.

(** The statements that record a Trade run one after the other on a
    connection without a transaction: each is committed when it returns,
    and each may raise.  These are the ones that raise. *)
Record WriteFaults : Type := {
  insert_raises : bool;      (* INSERT INTO trades, or the acquire before it *)
  stats_raises : bool;       (* UPDATE follower_users SET total_trades = ... *)
  cycle_raises : bool;       (* UPDATE follower_users SET billing_cycle_start = ... *)
  close_raises : bool        (* UPDATE open_positions SET status = 'closed' *)
}.

Definition no_fault : WriteFaults :=
  {| insert_raises := false; stats_raises := false; cycle_raises := false;
     close_raises := false |}.

(** What the monitor is answered while it checks one position. *)
Record MonitorEnv : Type := {
  m_now : Timestamp;
  m_decrypt : Decrypt;
  m_user_state : StateReply;
  m_open_orders : OrdersReply;
  m_exit_fills : FillsReply;
  m_pnl_fills : FillsReply;
  m_match_raises : bool;
  m_write_raises : WriteFaults
}.

Definition state_raised (r : StateReply) : bool :=
  match r with StateRaised _ => true | StateReplied _ => false end.

Definition orders_raised (r : OrdersReply) : bool :=
  match r with OrdersRaised _ => true | OrdersReplied _ => false end.

Definition fills_raised (r : FillsReply) : bool :=
  match r with FillsRaised _ => true | FillsReplied _ => false end.

(** The first loop over [assetPositions] looks for this coin, the second
    for any coin. *)
Definition live_position (coin : string) (l : list AssetPosition) : option AssetPosition :=
  match find (fun p => coin_is coin (pos_coin p) && is_open p) l with
  | Some p => Some p
  | None => find is_open l
  end.

(** The exit type read off the open orders, or the anomaly. *)
Definition exit_type_from_orders (reply : OrdersReply) (tp_order_id sl_order_id : option Z)
  : option string :=
  match reply with
  | OrdersRaised _ => Some "UNKNOWN"
  | OrdersReplied open_orders =>
      let tp_exists := existsb (oid_is tp_order_id) open_orders in
      let sl_exists := existsb (oid_is sl_order_id) open_orders in
      if tp_exists && sl_exists then None
      else if negb tp_exists && sl_exists then Some "TP"
      else if tp_exists && negb sl_exists then Some "SL"
      else Some "UNKNOWN"
  end.

(** The exit price read off the fills: the price of the latest fill of
    this coin. *)
Definition exit_price_from_fills (reply : FillsReply) (coin : string) : option float :=
  match reply with
  | FillsRaised _ => None
  | FillsReplied fills =>
      match find (fill_coin_is coin) (sort_fills fills) with
      | Some f => Some (or_zero (fill_px f))
      | None => None
      end
  end.

Definition check_position_closed
  (env : MonitorEnv) (wallet_address coin : string) (tp_order_id sl_order_id : option Z)
  : Trace * CheckResult :=
  match m_user_state env with
  | StateRaised e => ([EvUserState wallet_address true], CheckError e)
  | StateReplied state =>
      let t1 := [EvUserState wallet_address false] in
      let positions :=
        match state with
        | Some st => match assetPositions st with Some l => l | None => [] end
        | None => []
        end in
      match live_position coin positions with
      | Some p => (t1, StillOpen (PrimFloat.abs (pos_szi p)))
      | None =>
          let t2 := t1 ++ [EvOpenOrders wallet_address (orders_raised (m_open_orders env))] in
          match exit_type_from_orders (m_open_orders env) tp_order_id sl_order_id with
          | None => (t2, Anomaly)
          | Some exit_type =>
              (t2 ++ [EvUserFills wallet_address (fills_raised (m_exit_fills env))],
               Closed (exit_price_from_fills (m_exit_fills env) coin) exit_type)
          end
      end
  end.

(** [get_hl_realized_pnl]: the sum of the "closedPnl" of the fills of the
    coin since the position opened ([since] in milliseconds). *)
Definition get_hl_realized_pnl (reply : FillsReply) (coin : string) (since : option Z)
  : option float :=
  match reply with
  | FillsRaised _ => None
  | FillsReplied fills =>
      let coin_fills := sort_fills (filter (fill_coin_is coin) fills) in
      let coin_fills :=
        match since with
        | Some since_ms => filter (fun f => (since_ms <=? fill_time_or_zero f)%Z) coin_fills
        | None => coin_fills
        end in
      match coin_fills with
      | [] => None
      | _ => Some (fold_left (fun acc f => (acc + or_zero (fill_closedPnl f))%float)
                     coin_fills 0%float)
      end
  end.

(** *** Recording a closure *)

(** [a or b] on optional floats. *)
Definition or_else (a b : option float) : option float :=
  match a with
  | Some x => if Py.truthy x then Some x else b
  | None => b
  end.

(** [not x] on an optional float. *)
Definition falsy (a : option float) : bool :=
  match a with
  | Some x => negb (Py.truthy x)
  | None => true
  end.

Definition normal_side (side : string) : string :=
  let u := Py.upper side in
  if String.eqb u "BUY" || String.eqb u "LONG" then "LONG"
  else if String.eqb u "SELL" || String.eqb u "SHORT" then "SHORT"
  else side.

(** [abs(entry_price - exit_price) < 0.00001] *)
Definition same_price (entry_price exit_price : float) : bool :=
  PrimFloat.ltb (PrimFloat.abs (entry_price - exit_price)%float) 0.00001%float.

(** "Update user stats":
    [UPDATE follower_users SET total_trades = COALESCE(total_trades, 0) + 1,
     total_profit = COALESCE(total_profit, 0) + $1, ... WHERE id = $2] *)
Definition add_stats (uid : Z) (profit_usd : float) (u : User) : User :=
  if (u_id u =? uid)%Z then
    {| u_id := u_id u; u_api_key := u_api_key u; u_email := u_email u;
       u_hl_private_key_encrypted := u_hl_private_key_encrypted u;
       u_hl_wallet_address := u_hl_wallet_address u;
       u_credentials_set := u_credentials_set u;
       u_agent_active := u_agent_active u;
       u_access_granted := u_access_granted u;
       u_pending_invoice_id := u_pending_invoice_id u;
       u_invoice_due_date := u_invoice_due_date u;
       u_billing_cycle_start := u_billing_cycle_start u;
       u_current_cycle_profit :=
         Some (or_zero (u_current_cycle_profit u) + profit_usd)%float;
       u_current_cycle_trades :=
         Some (match u_current_cycle_trades u with Some n => n | None => 0 end + 1)%Z;
       u_total_profit := Some (or_zero (u_total_profit u) + profit_usd)%float;
       u_total_trades :=
         Some (match u_total_trades u with Some n => n | None => 0 end + 1)%Z |}
  else u.

(** "Start billing cycle if not started":
    [UPDATE follower_users SET billing_cycle_start = $2
     WHERE id = $1 AND billing_cycle_start IS NULL] *)
Definition start_cycle (uid : Z) (opened_at : Timestamp) (u : User) : User :=
  if (u_id u =? uid)%Z then
    match u_billing_cycle_start u with
    | Some _ => u
    | None =>
        {| u_id := u_id u; u_api_key := u_api_key u; u_email := u_email u;
           u_hl_private_key_encrypted := u_hl_private_key_encrypted u;
           u_hl_wallet_address := u_hl_wallet_address u;
           u_credentials_set := u_credentials_set u;
           u_agent_active := u_agent_active u;
           u_access_granted := u_access_granted u;
           u_pending_invoice_id := u_pending_invoice_id u;
           u_invoice_due_date := u_invoice_due_date u;
           u_billing_cycle_start := Some opened_at;
           u_current_cycle_profit := u_current_cycle_profit u;
           u_current_cycle_trades := u_current_cycle_trades u;
           u_total_profit := u_total_profit u;
           u_total_trades := u_total_trades u |}
    end
  else u.

Definition mark (db : Store.t) (id : Z) (status : string) (last_fill : option Timestamp)
  : Store.t :=
  if (id =? 0)%Z then db
  else with_open_positions db (map (set_status id status last_fill) (open_positions db)).

(** The head of [record_trade_close], up to "Safety: entry != exit": the
    entry price and the size the closure is recorded with, [None] where the
    function returns [False] before it looks for a signal. *)
Definition checked_prices (position : OpenPosition) (exit_price : float)
  : option (float * float) :=
  let entry_price := or_else (op_avg_entry_price position) (op_entry_fill_price position) in
  let position_size := or_else (op_filled_quantity position) (Some (op_quantity position)) in
  if falsy entry_price || falsy position_size then None
  else
    match entry_price, position_size with
    | Some entry_price0, Some position_size =>
        if same_price entry_price0 exit_price then
          match op_entry_fill_price position with
          | Some e =>
              if negb (Py.truthy e) || same_price e exit_price then None
              else Some (e, position_size)
          | None => None
          end
        else Some (entry_price0, position_size)
    | _, _ => None
    end.

(** "Signal matching": the reference the trade is recorded under ([None]
    inside: SQL NULL), or [None] for a manual trade. *)
Definition signal_reference (db : Store.t) (now : Timestamp) (match_raises : bool)
           (position : OpenPosition) : option (option string) :=
  let bound :=
    match op_signal_id position with
    | Some sid => if (sid =? 0)%Z then None else Some (Py.str_of_int sid)
    | None => None
    end in
  match bound with
  | Some r => Some (Some r)
  | None =>
      match find_matching_signal db now match_raises (op_symbol position)
              (normal_side (op_side position)) with
      | None => None
      | Some s =>
          (* matching_signal.get('signal_id') or matching_signal.get('id') *)
          Some (if Py.nonempty (s_signal_id s) then Some (s_signal_id s)
                else if (s_id s =? 0)%Z then None
                else Some (Py.str_of_int (s_id s)))
      end
  end.

(** "P&L calculation - prefer HL realized P&L": the profit and its source. *)
Definition realized_profit (side : string) (entry_price exit_price position_size : float)
           (hl_pnl : option float) : float * string :=
  let calculated_pnl :=
    (if String.eqb side "LONG"
     then (exit_price - entry_price) * position_size
     else (entry_price - exit_price) * position_size)%float in
  match hl_pnl with
  | Some p =>
      if PrimFloat.ltb 0.01%float (PrimFloat.abs p)
      then (p, "hyperliquid")
      else (calculated_pnl, "calculated")
  | None => (calculated_pnl, "calculated")
  end.

(** "Profit percent" *)
Definition profit_percent_of (side : string) (entry_price exit_price : float) : float :=
  if PrimFloat.ltb 0%float entry_price then
    let pct := ((exit_price - entry_price) / entry_price * 100)%float in
    if String.eqb side "SHORT" then (- pct)%float else pct
  else 0%float.

Definition opened_of (position : OpenPosition) : option Timestamp :=
  match op_opened_at position with
  | Some ts => Some ts
  | None => op_first_fill_at position
  end.

(** The row of the INSERT INTO trades. *)
Definition ledger_entry (position : OpenPosition) (signal_id : option string)
           (entry_price position_size exit_price : float) (exit_type : string)
           (closed_at : Timestamp) (hl_pnl : option float) : Trade :=
  let fill_count :=
    match op_fill_count position with
    | Some n => if (n =? 0)%Z then 1%Z else n
    | None => 1%Z
    end in
  let side := normal_side (op_side position) in
  let profit := realized_profit side entry_price exit_price position_size hl_pnl in
  {| t_user_id := op_user_id position;
     t_signal_id := signal_id;
     t_order_id := op_entry_order_id position;
     t_opened_at := opened_of position;
     t_closed_at := closed_at;
     t_symbol := op_symbol position;
     t_side := side;
     t_entry_price := entry_price;
     t_exit_price := exit_price;
     t_position_size := position_size;
     t_leverage := op_leverage position;
     t_profit_usd := fst profit;
     t_profit_percent := profit_percent_of side entry_price exit_price;
     t_exit_type := exit_type;
     t_fee_charged := 0%float;
     t_notes := ("Signal trade. " ++ Py.str_of_int fill_count
                 ++ " fills. P&L source: " ++ snd profit)%string |}.

(** "Mark position closed", the last statement of the recording; nothing
    is asked of the store for a position without an id. *)
Definition mark_closed (db : Store.t) (now : Timestamp) (raises : WriteFaults)
           (position : OpenPosition) : Store.t * bool :=
  if (op_id position =? 0)%Z then (db, true)
  else if close_raises raises then (db, false)
  else (mark db (op_id position) "closed" (Some now), true).

(** The four statements that record a Trade, in the order of the source;
    the first that raises ends the function, which answers [False], and
    what the statements before it wrote stays written. *)
Definition write_trade (db : Store.t) (now : Timestamp) (raises : WriteFaults)
           (position : OpenPosition) (trade : Trade) : Store.t * bool :=
  if insert_raises raises then (db, false)
  else
    let db1 := with_trades db (trades db ++ [trade]) in
    if stats_raises raises then (db1, false)
    else
      let db2 := with_users db1
                   (map (add_stats (op_user_id position) (t_profit_usd trade))
                        (users db1)) in
      match opened_of position with
      | Some position_opened_at =>
          if cycle_raises raises then (db2, false)
          else
            mark_closed
              (with_users db2
                 (map (start_cycle (op_user_id position) position_opened_at) (users db2)))
              now raises position
      | None => mark_closed db2 now raises position
      end.

(** [record_trade_close]: the store it leaves and the flag it returns.
    The single UPDATE that marks a manual closure is taken to execute. *)
Definition record_trade_close
  (db : Store.t) (now : Timestamp) (match_raises : bool) (raises : WriteFaults)
  (position : OpenPosition) (exit_price : float) (exit_type : string)
  (closed_at : Timestamp) (hl_pnl : option float) : Store.t * bool :=
  match checked_prices position exit_price with
  | None => (db, false)
  | Some (entry_price, position_size) =>
      match signal_reference db now match_raises position with
      | None => (mark db (op_id position) "closed_manual" (Some now), false)
      | Some signal_id =>
          write_trade db now raises position
            (ledger_entry position signal_id entry_price position_size
               exit_price exit_type closed_at hl_pnl)
      end
  end.

(** *** One position of one tick *)

(** A row of [get_open_positions]: the position joined with its user. *)
Record Monitored : Type := {
  position : OpenPosition;
  user_api_key : string;
  hl_private_key_encrypted : option string;
  hl_wallet_address : option string
}.

(** [SELECT ... FROM open_positions op JOIN follower_users u
     ON op.user_id = u.id WHERE op.status = 'open'] *)
Definition get_open_positions (db : Store.t) : list Monitored :=
  flat_map (fun op =>
    if String.eqb (op_status op) "open" then
      flat_map (fun u =>
        if (op_user_id op =? u_id u)%Z then
          [{| position := op;
              user_api_key := u_api_key u;
              hl_private_key_encrypted := u_hl_private_key_encrypted u;
              hl_wallet_address := u_hl_wallet_address u |}]
        else [])
        (users db)
    else [])
    (open_positions db).

Record World : Type := {
  db : Store.t;
  active_exchanges : list (string * string)
}.

Fixpoint cache_lookup (k : string) (c : list (string * string)) : option string :=
  match c with
  | [] => None
  | (k', v) :: c' => if String.eqb k k' then Some v else cache_lookup k c'
  end.

Definition option_nonempty (s : option string) : option string :=
  match s with
  | Some v => if Py.nonempty v then Some v else None
  | None => None
  end.

(** [get_exchange]: the wallet address, or [None]. *)
Definition get_exchange (cache : list (string * string)) (d : Decrypt) (p : Monitored)
  : list (string * string) * option string :=
  match cache_lookup (user_api_key p) cache with
  | Some wallet => (cache, Some wallet)
  | None =>
      match option_nonempty (hl_private_key_encrypted p), d with
      | Some _, Decrypted account_address =>
          let wallet_address :=
            match option_nonempty (hl_wallet_address p) with
            | Some w => w
            | None => account_address
            end in
          ((user_api_key p, wallet_address) :: cache, Some wallet_address)
      | _, _ => (cache, None)
      end
  end.

(** "Verify exit type from price proximity" *)
Definition exit_type_by_proximity (exit_price tp sl : float) : string :=
  let dist_to_tp := PrimFloat.abs (exit_price - tp)%float in
  let dist_to_sl := PrimFloat.abs (exit_price - sl)%float in
  if PrimFloat.ltb dist_to_tp dist_to_sl then "TP" else "SL".

(** The steps of [check_position] once the position is known closed at
    [exit_price]. *)
Definition close_position
  (db : Store.t) (env : MonitorEnv) (p : Monitored) (wallet_address coin : string)
  (exit_price : float) : Store.t * Trace :=
  let pos := position p in
  let exit_type := exit_type_by_proximity exit_price (op_target_tp pos) (op_target_sl pos) in
  let t_pnl := [EvUserFills wallet_address (fills_raised (m_pnl_fills env))] in
  let hl_pnl :=
    get_hl_realized_pnl (m_pnl_fills env) coin
      (match op_opened_at pos with
       | Some ts => Some (ts / 1000)%Z
       | None => None
       end) in
  let '(db', _) :=
    record_trade_close db (m_now env) (m_match_raises env) (m_write_raises env) pos
      exit_price exit_type (m_now env) hl_pnl in
  let remaining_oid :=
    if String.eqb exit_type "TP" then op_sl_order_id pos else op_tp_order_id pos in
  let t_cancel :=
    match remaining_oid with
    | Some oid => [EvCancel coin oid]
    | None => []
    end in
  (* scan_exchange_fills: the audit table of fills is outside the model *)
  (db', t_pnl ++ t_cancel ++ [EvUserFills wallet_address false]).

(** [check_position]: nothing is done without a client; the answer of
    [check_position_closed] decides the rest.  The single UPDATE that
    marks a position needs_review is taken to execute. *)
Definition check_position (w : World) (env : MonitorEnv) (p : Monitored)
  : World * Trace :=
  match get_exchange (active_exchanges w) (m_decrypt env) p with
  | (cache, None) => ({| db := db w; active_exchanges := cache |}, [])
  | (cache, Some wallet_address) =>
      let pos := position p in
      let coin :=
        match option_nonempty (op_hl_coin pos) with
        | Some c => c
        | None => get_base_symbol (op_symbol pos)
        end in
      let '(t, check_result) :=
        check_position_closed env wallet_address coin
          (op_tp_order_id pos) (op_sl_order_id pos) in
      match check_result with
      | StillOpen _ | Anomaly | CheckError _ =>
          ({| db := db w; active_exchanges := cache |}, t)
      | Closed None _ =>
          ({| db := with_open_positions (db w)
                      (map (set_status (op_id pos) "needs_review" None)
                           (open_positions (db w)));
              active_exchanges := cache |}, t)
      | Closed (Some exit_price) _ =>
          let '(db', t') := close_position (db w) env p wallet_address coin exit_price in
          ({| db := db'; active_exchanges := cache |}, t ++ t')
      end
  end.

(** *** One cycle of the monitor *)

(** [get_exchange] on the three columns it reads. *)
Definition get_exchange_for (cache : list (string * string)) (d : Decrypt)
           (api_key : string) (private_key_encrypted wallet : option string)
  : list (string * string) * option string :=
  match cache_lookup api_key cache with
  | Some w => (cache, Some w)
  | None =>
      match option_nonempty private_key_encrypted, d with
      | Some _, Decrypted account_address =>
          let wallet_address :=
            match option_nonempty wallet with
            | Some w => w
            | None => account_address
            end in
          ((api_key, wallet_address) :: cache, Some wallet_address)
      | _, _ => (cache, None)
      end
  end.

(** A row of [get_active_users]:
    [SELECT ... FROM follower_users WHERE hl_private_key_encrypted IS NOT NULL] *)
Record ActiveUser : Type := {
  au_id : Z;
  au_api_key : string;
  au_hl_private_key_encrypted : option string;
  au_hl_wallet_address : option string
}.

Definition get_active_users (db : Store.t) : list ActiveUser :=
  flat_map (fun u =>
    match u_hl_private_key_encrypted u with
    | Some key =>
        [{| au_id := u_id u; au_api_key := u_api_key u;
            au_hl_private_key_encrypted := Some key;
            au_hl_wallet_address := u_hl_wallet_address u |}]
    | None => []
    end)
    (users db).

(** What one cycle is answered: the two shuffles, the environment of
    each position check, and the decryption and the fills of each scan. *)
Record CycleEnv : Type := {
  shuffle_positions : list Monitored -> list Monitored;
  position_env : Monitored -> MonitorEnv;
  shuffle_users : list ActiveUser -> list ActiveUser;
  scan_decrypt : ActiveUser -> Decrypt;
  scan_fills : ActiveUser -> FillsReply
}.

(** [scan_exchange_fills]: the client of the user, then the fills query;
    what it records goes to the audit table of fills, outside the store
    modelled here. *)
Definition scan_exchange_fills (cache : list (string * string)) (env : CycleEnv)
           (u : ActiveUser) : list (string * string) * Trace :=
  match get_exchange_for cache (scan_decrypt env u) (au_api_key u)
          (au_hl_private_key_encrypted u) (au_hl_wallet_address u) with
  | (cache', None) => (cache', [])
  | (cache', Some wallet_address) =>
      (cache', [EvUserFills wallet_address (fills_raised (scan_fills env u))])
  end.

Definition BATCH_SIZE : nat := 50.
Definition BATCH_DELAY : float := 0.1%float.

(** [asyncio.gather] over a batch of position checks, one after the
    other. *)
Fixpoint gather_checks (w : World) (env : CycleEnv) (batch : list Monitored)
  : World * Trace :=
  match batch with
  | [] => (w, [])
  | p :: batch' =>
      let '(w1, t1) := check_position w (position_env env p) p in
      let '(w2, t2) := gather_checks w1 env batch' in
      (w2, t1 ++ t2)
  end.

Fixpoint check_batches (fuel : nat) (w : World) (env : CycleEnv)
         (positions : list Monitored) : World * Trace :=
  match fuel, positions with
  | O, _ => (w, [])
  | _, [] => (w, [])
  | S fuel', _ =>
      let '(w1, t1) := gather_checks w env (firstn BATCH_SIZE positions) in
      match skipn BATCH_SIZE positions with
      | [] => (w1, t1)
      | rest =>
          let '(w2, t2) := check_batches fuel' w1 env rest in
          (w2, t1 ++ EvSleep BATCH_DELAY :: t2)
      end
  end.

Fixpoint gather_scans (cache : list (string * string)) (env : CycleEnv)
         (batch : list ActiveUser) : list (string * string) * Trace :=
  match batch with
  | [] => (cache, [])
  | u :: batch' =>
      let '(cache1, t1) := scan_exchange_fills cache env u in
      let '(cache2, t2) := gather_scans cache1 env batch' in
      (cache2, t1 ++ t2)
  end.

Fixpoint scan_batches (fuel : nat) (cache : list (string * string)) (env : CycleEnv)
         (users : list ActiveUser) : list (string * string) * Trace :=
  match fuel, users with
  | O, _ => (cache, [])
  | _, [] => (cache, [])
  | S fuel', _ =>
      let '(cache1, t1) := gather_scans cache env (firstn BATCH_SIZE users) in
      match skipn BATCH_SIZE users with
      | [] => (cache1, t1)
      | rest =>
          let '(cache2, t2) := scan_batches fuel' cache1 env rest in
          (cache2, t1 ++ EvSleep BATCH_DELAY :: t2)
      end
  end.

(** [check_all_positions] *)
Definition check_all_positions (w : World) (env : CycleEnv) : World * Trace :=
  let positions := get_open_positions (db w) in
  let '(w1, t1) :=
    match positions with
    | [] => (w, [])
    | _ =>
        let positions_list := shuffle_positions env positions in
        check_batches (List.length positions_list) w env positions_list
    end in
  let users_to_scan := shuffle_users env (get_active_users (db w1)) in
  let '(cache, t2) :=
    scan_batches (List.length users_to_scan) (active_exchanges w1) env users_to_scan in
  ({| db := db w1; active_exchanges := cache |}, t1 ++ t2).

(** [run], for as many cycles as there are environments.  The status
    line of every fifth minute only logs; [check_position] and
    [record_trade_close] catch what their statements raise, and the two
    SELECTs of a cycle are taken to answer, so the handler of the loop is
    not reached. *)
Fixpoint run (w : World) (envs : list CycleEnv) : World * Trace :=
  match envs with
  | [] => (w, [])
  | env :: envs' =>
      let '(w1, t1) := check_all_positions w env in
      let '(w2, t2) := run w1 envs' in
      (w2, t1 ++ EvSleep CHECK_INTERVAL_SECONDS :: t2)
  end.

End position_monitor.

(* ================================================================== *)
(** * Properties *)
(* ================================================================== *)

(** Case analysis on the scrutinee of the first [match] or [if] of the goal. *)
Ltac break_match :=
  match goal with
  | |- context [match ?x with _ => _ end] =>
      lazymatch x with
      | context [match _ with _ => _ end] => fail
      | _ => destruct x eqn:?
      end
  end.

Ltac break_hyp_match H :=
  match type of H with
  | context [match ?x with _ => _ end] =>
      lazymatch x with
      | context [match _ with _ => _ end] => fail
      | _ => destruct x eqn:?
      end
  end.

(** Two floats that differ under [==] are different. *)
Lemma float_neq (a b : float) : PrimFloat.eqb a b = false -> PrimFloat.eqb b b = true -> a <> b.
Proof. intros Hab Hbb Heq. rewrite Heq, Hbb in Hab. discriminate. Qed.

(* ------------------------------------------------------------------ *)
(** ** The retry loops of order_utils.py *)
(* ------------------------------------------------------------------ *)

Section RetryFacts.

Import order_utils.

Definition is_notify (e : Event) : bool :=
  match e with EvNotifyAdmin _ _ _ => true | _ => false end.

(** The line an attempt leaves in [attempts_log]. *)
Definition attempt_line (n : nat) (e : string) : string :=
  ("Attempt " ++ Py.str_of_nat n ++ ": " ++ Py.take 200 e)%string.

(** The placement loop, unrolled: three attempts at most, a sleep of
    [1.0] after the first failure and of [2.0] after the second. *)
Lemma place_loop_unrolled (exchange : nat -> OrderReply) (call : Event)
      (body : OrderReply -> OrderResult + string) :
  place_loop exchange call body MAX_RETRIES 1 INITIAL_BACKOFF [] None =
  match body (exchange 1%nat) with
  | inl r => ([call], {| returned := Some r; attempts_log := []; last_error := None |})
  | inr e1 =>
      match body (exchange 2%nat) with
      | inl r =>
          ([call; EvSleep 1%float; call],
           {| returned := Some r; attempts_log := [attempt_line 1 e1];
              last_error := Some e1 |})
      | inr e2 =>
          match body (exchange 3%nat) with
          | inl r =>
              ([call; EvSleep 1%float; call; EvSleep 2%float; call],
               {| returned := Some r;
                  attempts_log := [attempt_line 1 e1; attempt_line 2 e2];
                  last_error := Some e2 |})
          | inr e3 =>
              ([call; EvSleep 1%float; call; EvSleep 2%float; call],
               {| returned := None;
                  attempts_log := [attempt_line 1 e1; attempt_line 2 e2; attempt_line 3 e3];
                  last_error := Some e3 |})
          end
      end
  end.
Proof.
  unfold MAX_RETRIES, INITIAL_BACKOFF. cbn [place_loop].
  destruct (body (exchange 1%nat)); [reflexivity|].
  cbn [Nat.ltb Nat.leb].
  destruct (body (exchange 2%nat)); [reflexivity|].
  cbn [Nat.ltb Nat.leb].
  destruct (body (exchange 3%nat)); reflexivity.
Qed.

End RetryFacts.

Section RetryBound.

Import order_utils.

(** The calls and sleeps of one operation under the retry policy: one,
    two or three calls, a sleep of one second between the first two and of
    two seconds between the last two, none after the last call. *)
Definition retry_schedule (call : Event) (t : Trace) : Prop :=
  t = [call]
  \/ t = [call; EvSleep 1%float; call]
  \/ t = [call; EvSleep 1%float; call; EvSleep 2%float; call].

(** A placement either returns an order within the schedule, or all three
    attempts failed: the caller gets [None] and a notification of level
    "error" carries the three lines of the attempts log. *)
Definition placement_outcome
  (exchange : nat -> OrderReply) (body : OrderReply -> OrderResult + string)
  (call : Event) (out : Trace * option OrderResult) : Prop :=
  (exists t r, retry_schedule call t /\ out = (t, Some r))
  \/ (exists e1 e2 e3 title details,
        body (exchange 1%nat) = inr e1
        /\ body (exchange 2%nat) = inr e2
        /\ body (exchange 3%nat) = inr e3
        /\ In ("Attempts",
               DText (Py.join Py.newline
                        [attempt_line 1 e1; attempt_line 2 e2; attempt_line 3 e3]))
              details
        /\ out = ([call; EvSleep 1%float; call; EvSleep 2%float; call;
                   EvNotifyAdmin title details "error"], None)).

(** A cancellation either returns [True] within the schedule, or all three
    attempts failed: the caller gets [False], and the notification (when
    asked for) names the last error only. *)
Definition cancel_outcome
  (exchange : nat -> CancelReply) (coin : string) (order_id : Z)
  (user_email : string) (notify_on_failure : bool) (out : Trace * bool) : Prop :=
  (exists t, retry_schedule (EvCancel coin order_id) t /\ out = (t, true))
  \/ (exists e1 e2 e3 title,
        cancel_attempt (exchange 1%nat) = inr e1
        /\ cancel_attempt (exchange 2%nat) = inr e2
        /\ cancel_attempt (exchange 3%nat) = inr e3
        /\ out = ([EvCancel coin order_id; EvSleep 1%float;
                   EvCancel coin order_id; EvSleep 2%float;
                   EvCancel coin order_id]
                  ++ (if notify_on_failure
                      then [EvNotifyAdmin title
                              [("User", DText user_email);
                               ("Order ID", DInt order_id);
                               ("Coin", DText coin);
                               ("Error", DText (Py.take 500 e3))]
                              "warning"]
                      else []),
                  false)).

Lemma placement_outcome_entry exchange coin is_buy quantity limit_price email key :
  placement_outcome exchange entry_attempt
    (EvOrder coin is_buy quantity limit_price LimitIoc false)
    (place_entry_order_with_retry exchange coin is_buy quantity limit_price email key).
Proof.
  unfold place_entry_order_with_retry, placement_outcome, retry_schedule.
  rewrite place_loop_unrolled.
  destruct (entry_attempt (exchange 1%nat)) as [r1|e1]; cbn.
  { left. eauto 6. }
  destruct (entry_attempt (exchange 2%nat)) as [r2|e2]; cbn.
  { left. eauto 6. }
  destruct (entry_attempt (exchange 3%nat)) as [r3|e3]; cbn.
  { left. eauto 7. }
  right. do 5 eexists. repeat split; try reflexivity.
  cbn. do 6 right. left. reflexivity.
Qed.

Lemma placement_outcome_tp exchange coin is_buy quantity tp_price email key :
  placement_outcome exchange (trigger_attempt "TP")
    (EvOrder coin is_buy quantity tp_price (TriggerTp tp_price) true)
    (place_tp_order_with_retry exchange coin is_buy quantity tp_price email key).
Proof.
  unfold place_tp_order_with_retry, placement_outcome, retry_schedule.
  rewrite place_loop_unrolled.
  destruct (trigger_attempt "TP" (exchange 1%nat)) as [r1|e1]; cbn.
  { left. eauto 6. }
  destruct (trigger_attempt "TP" (exchange 2%nat)) as [r2|e2]; cbn.
  { left. eauto 6. }
  destruct (trigger_attempt "TP" (exchange 3%nat)) as [r3|e3]; cbn.
  { left. eauto 7. }
  right. do 5 eexists. repeat split; try reflexivity.
  cbn. do 5 right. left. reflexivity.
Qed.

Lemma placement_outcome_sl exchange coin is_buy quantity sl_price email key :
  placement_outcome exchange (trigger_attempt "SL")
    (EvOrder coin is_buy quantity sl_price (TriggerSl sl_price) true)
    (place_sl_order_with_retry exchange coin is_buy quantity sl_price email key).
Proof.
  unfold place_sl_order_with_retry, placement_outcome, retry_schedule.
  rewrite place_loop_unrolled.
  destruct (trigger_attempt "SL" (exchange 1%nat)) as [r1|e1]; cbn.
  { left. eauto 6. }
  destruct (trigger_attempt "SL" (exchange 2%nat)) as [r2|e2]; cbn.
  { left. eauto 6. }
  destruct (trigger_attempt "SL" (exchange 3%nat)) as [r3|e3]; cbn.
  { left. eauto 7. }
  right. do 5 eexists. repeat split; try reflexivity.
  cbn. do 5 right. left. reflexivity.
Qed.

(** The test of the handler on the text of an exception. *)
Definition gone (e : string) : bool := already_gone (Py.take 200 e).

(** The cancellation loop, unrolled. *)
Lemma cancel_loop_unrolled (exchange : nat -> CancelReply) (coin : string) (oid : Z) :
  cancel_loop exchange coin oid MAX_RETRIES 1 INITIAL_BACKOFF None =
  match cancel_attempt (exchange 1%nat) with
  | inl _ => ([EvCancel coin oid], (Some true, None))
  | inr e1 =>
      if gone e1 then ([EvCancel coin oid], (Some true, Some e1))
      else
        match cancel_attempt (exchange 2%nat) with
        | inl _ =>
            ([EvCancel coin oid; EvSleep 1%float; EvCancel coin oid], (Some true, Some e1))
        | inr e2 =>
            if gone e2 then
              ([EvCancel coin oid; EvSleep 1%float; EvCancel coin oid], (Some true, Some e2))
            else
              match cancel_attempt (exchange 3%nat) with
              | inl _ =>
                  ([EvCancel coin oid; EvSleep 1%float; EvCancel coin oid;
                    EvSleep 2%float; EvCancel coin oid], (Some true, Some e2))
              | inr e3 =>
                  if gone e3
                  then ([EvCancel coin oid; EvSleep 1%float; EvCancel coin oid;
                         EvSleep 2%float; EvCancel coin oid], (Some true, Some e3))
                  else ([EvCancel coin oid; EvSleep 1%float; EvCancel coin oid;
                         EvSleep 2%float; EvCancel coin oid], (None, Some e3))
              end
        end
  end.
Proof.
  unfold MAX_RETRIES, INITIAL_BACKOFF, gone. cbn [cancel_loop].
  destruct (cancel_attempt (exchange 1%nat)) as [u|e1]; [reflexivity|].
  destruct (already_gone (Py.take 200 e1)); [reflexivity|].
  cbn [Nat.ltb Nat.leb].
  destruct (cancel_attempt (exchange 2%nat)) as [u|e2]; [reflexivity|].
  destruct (already_gone (Py.take 200 e2)); [reflexivity|].
  cbn [Nat.ltb Nat.leb].
  destruct (cancel_attempt (exchange 3%nat)) as [u|e3]; [reflexivity|].
  destruct (already_gone (Py.take 200 e3)); reflexivity.
Qed.

Lemma cancel_outcome_holds exchange coin oid desc email key notify :
  cancel_outcome exchange coin oid email notify
    (cancel_order_with_retry exchange coin oid desc email key notify).
Proof.
  unfold cancel_order_with_retry, cancel_outcome, retry_schedule.
  rewrite cancel_loop_unrolled.
  destruct (cancel_attempt (exchange 1%nat)) as [u|e1]; [left; eauto 6|].
  destruct (gone e1); [left; eauto 6|].
  destruct (cancel_attempt (exchange 2%nat)) as [u|e2]; [left; eauto 6|].
  destruct (gone e2); [left; eauto 6|].
  destruct (cancel_attempt (exchange 3%nat)) as [u|e3]; [left; eauto 7|].
  destruct (gone e3); [left; eauto 7|].
  right. exists e1, e2, e3.
  destruct notify.
  - eexists. split. reflexivity. split. reflexivity. split. reflexivity. reflexivity.
  - exists "". split. reflexivity. split. reflexivity. split. reflexivity. reflexivity.
Qed.

(** C5 (amended).  Each placement (entry, take-profit, stop-loss) and each
    cancellation calls the exchange at most three times; it sleeps one
    second after a first failure and two seconds after a second one, never
    after the last attempt (the third value of the doubling schedule, four
    seconds, is never slept).  When all three attempts fail the caller gets
    [None] (a placement) or [False] (a cancellation) and nothing else: the
    log of the three attempts goes to the "error"-level notification of a
    placement, and a cancellation reports its last error only. *)
Theorem retry_bound_and_backoff :
  forall (orders : nat -> OrderReply) (cancels : nat -> CancelReply)
         (coin email key desc : string) (is_buy notify : bool)
         (quantity price : float) (oid : Z),
    placement_outcome orders entry_attempt
      (EvOrder coin is_buy quantity price LimitIoc false)
      (place_entry_order_with_retry orders coin is_buy quantity price email key)
    /\ placement_outcome orders (trigger_attempt "TP")
         (EvOrder coin is_buy quantity price (TriggerTp price) true)
         (place_tp_order_with_retry orders coin is_buy quantity price email key)
    /\ placement_outcome orders (trigger_attempt "SL")
         (EvOrder coin is_buy quantity price (TriggerSl price) true)
         (place_sl_order_with_retry orders coin is_buy quantity price email key)
    /\ cancel_outcome cancels coin oid email notify
         (cancel_order_with_retry cancels coin oid desc email key notify).
Proof.
  intros. repeat split.
  - apply placement_outcome_entry.
  - apply placement_outcome_tp.
  - apply placement_outcome_sl.
  - apply cancel_outcome_holds.
Qed.

(** C5 as stated fails where every attempt fails: the sleeps are one and
    two seconds (no third sleep of four seconds), the caller of a placement
    receives [None], and a cancellation whose three attempts fail with
    three different errors hands back [False] with a notification that
    names the last error only. *)
Lemma retry_as_stated_counterexample :
  let timeout := fun _ : nat => OrderRaised "timeout" in
  let errors := fun n : nat =>
    CancelRaised (match n with 1%nat => "e1" | 2%nat => "e2" | _ => "e3" end) in
  floats_eqb
    (sleeps_of (fst (place_entry_order_with_retry timeout "ADA" true 1000 0.5 "u" "k")))
    [1; 2]%float = true
  /\ floats_eqb
       (sleeps_of (fst (place_entry_order_with_retry timeout "ADA" true 1000 0.5 "u" "k")))
       [1; 2; 4]%float = false
  /\ snd (place_entry_order_with_retry timeout "ADA" true 1000 0.5 "u" "k") = None
  /\ cancel_order_with_retry errors "ADA" 7 "Orphaned TP" "unknown" "unknown" true
     = ([EvCancel "ADA" 7; EvSleep 1%float; EvCancel "ADA" 7; EvSleep 2%float;
         EvCancel "ADA" 7;
         EvNotifyAdmin "⚠️ Failed to Cancel Orphaned TP (HL)"
           [("User", DText "unknown"); ("Order ID", DInt 7);
            ("Coin", DText "ADA"); ("Error", DText "e3")]
           "warning"],
        false).
Proof. cbv zeta. repeat split; vm_compute; reflexivity. Qed.

End RetryBound.

(* ------------------------------------------------------------------ *)
(** ** Idempotent cancellation *)
(* ------------------------------------------------------------------ *)

Section IdempotentCancel.

Import order_utils.

(** The exchange reports the order as not found or already filled or
    cancelled: the attempt fails with a text in which the handler reads
    "not found" or "already" (in any case, within its first 200 characters). *)
Definition reports_gone (reply : CancelReply) : bool :=
  match cancel_attempt reply with
  | inl _ => false
  | inr e => gone e
  end.

Lemma cancel_returns_true_at (exchange : nat -> CancelReply) coin oid desc email key notify :
  forall k, (1 <= k <= 3)%nat -> reports_gone (exchange k) = true ->
  exists t, retry_schedule (EvCancel coin oid) t
            /\ cancel_order_with_retry exchange coin oid desc email key notify = (t, true).
Proof.
  intros k Hk Hgone.
  unfold cancel_order_with_retry, retry_schedule. rewrite cancel_loop_unrolled.
  unfold reports_gone in Hgone.
  destruct (cancel_attempt (exchange 1%nat)) as [u|e1] eqn:H1; [eauto 6|].
  destruct (gone e1) eqn:G1; [eauto 6|].
  destruct (cancel_attempt (exchange 2%nat)) as [u|e2] eqn:H2; [eauto 6|].
  destruct (gone e2) eqn:G2; [eauto 6|].
  destruct (cancel_attempt (exchange 3%nat)) as [u|e3] eqn:H3; [eauto 7|].
  destruct (gone e3) eqn:G3; [eauto 7|].
  exfalso.
  assert (k = 1 \/ k = 2 \/ k = 3)%nat as [-> | [-> | ->]] by lia.
  - rewrite H1, G1 in Hgone. discriminate.
  - rewrite H2, G2 in Hgone. discriminate.
  - rewrite H3, G3 in Hgone. discriminate.
Qed.

(** C7.  A cancellation that the exchange answers, at any of its three
    attempts, with "not found" or "already filled/cancelled" returns
    success and raises no alert; when the first answer says so (as for a
    repeated cancellation of the same order) the call is one request to
    the exchange, without sleep or alert, and returns success. *)
Theorem cancel_is_idempotent :
  forall (exchange : nat -> CancelReply) (coin desc email key : string)
         (oid : Z) (notify : bool),
    (forall k, (1 <= k <= 3)%nat -> reports_gone (exchange k) = true ->
       snd (cancel_order_with_retry exchange coin oid desc email key notify) = true
       /\ filter is_notify
            (fst (cancel_order_with_retry exchange coin oid desc email key notify)) = [])
    /\ (reports_gone (exchange 1%nat) = true ->
        cancel_order_with_retry exchange coin oid desc email key notify
        = ([EvCancel coin oid], true)).
Proof.
  intros. split.
  - intros k Hk Hgone.
    destruct (cancel_returns_true_at exchange coin oid desc email key notify k Hk Hgone)
      as (t & Hs & ->).
    split; [reflexivity|].
    destruct Hs as [-> | [-> | ->]]; reflexivity.
  - intros Hgone. unfold cancel_order_with_retry. rewrite cancel_loop_unrolled.
    unfold reports_gone in Hgone.
    destruct (cancel_attempt (exchange 1%nat)) as [u|e1]; [discriminate|].
    rewrite Hgone. reflexivity.
Qed.

(** An exchange that raises "Order not found" on a first cancellation and
    answers a repeated one with "already canceled". *)
Definition gone_exchange (n : nat) : CancelReply :=
  match n with
  | 1%nat => CancelRaised "Order not found"
  | _ => CancelReplied "err" "Order was never placed, already canceled, or filled."
  end.

Lemma cancel_is_idempotent_witness :
  (snd (cancel_order_with_retry gone_exchange "ADA" 42 "Orphaned TP" "u" "k" true) = true
   /\ filter is_notify
        (fst (cancel_order_with_retry gone_exchange "ADA" 42 "Orphaned TP" "u" "k" true)) = [])
  /\ cancel_order_with_retry gone_exchange "ADA" 42 "Orphaned TP" "u" "k" true
     = ([EvCancel "ADA" 42], true).
Proof.
  pose proof (cancel_is_idempotent gone_exchange "ADA" "Orphaned TP" "u" "k" 42 true)
    as [Hany Hfirst].
  split.
  - apply (Hany 2%nat); [lia | vm_compute; reflexivity].
  - apply Hfirst. vm_compute. reflexivity.
Defined.

End IdempotentCancel.

(* ------------------------------------------------------------------ *)
(** ** The reconciliation loop *)
(* ------------------------------------------------------------------ *)

Section Reconciliation.

Import Store Exchange position_monitor.

(** The position carries no signal id: the column is NULL or zero. *)
Definition unbound (p : OpenPosition) : bool :=
  match op_signal_id p with
  | Some sid => (sid =? 0)%Z
  | None => true
  end.

Lemma mark_trades db id status ts : trades (mark db id status ts) = trades db.
Proof. unfold mark. destruct (id =? 0)%Z; reflexivity. Qed.

Lemma mark_users db id status ts : users (mark db id status ts) = users db.
Proof. unfold mark. destruct (id =? 0)%Z; reflexivity. Qed.

Lemma mark_closed_trades db now raises pos :
  trades (fst (mark_closed db now raises pos)) = trades db.
Proof.
  unfold mark_closed. destruct (op_id pos =? 0)%Z; [reflexivity|].
  destruct (close_raises raises); [reflexivity|]. apply mark_trades.
Qed.

Lemma mark_closed_users db now raises pos :
  users (fst (mark_closed db now raises pos)) = users db.
Proof.
  unfold mark_closed. destruct (op_id pos =? 0)%Z; [reflexivity|].
  destruct (close_raises raises); [reflexivity|]. apply mark_users.
Qed.

(** The recording leaves the ledger as it was, or one row longer. *)
Lemma write_trade_trades db now raises pos tr :
  trades (fst (write_trade db now raises pos tr)) = trades db
  \/ trades (fst (write_trade db now raises pos tr)) = trades db ++ [tr].
Proof.
  unfold write_trade.
  destruct (insert_raises raises); [left; reflexivity|]. right.
  destruct (stats_raises raises); [reflexivity|].
  destruct (opened_of pos) as [ts|].
  - destruct (cycle_raises raises); [reflexivity|]. rewrite mark_closed_trades. reflexivity.
  - rewrite mark_closed_trades. reflexivity.
Qed.


Lemma signal_reference_manual db now mr pos :
  unbound pos = true ->
  find_matching_signal db now mr (op_symbol pos) (normal_side (op_side pos)) = None ->
  signal_reference db now mr pos = None.
Proof.
  unfold unbound, signal_reference. intros Hu Hm.
  destruct (op_signal_id pos) as [sid|]; [rewrite Hu|]; rewrite Hm; reflexivity.
Qed.

(** The unbound position of a closure no signal matches: no trade, no
    profit, and the status "closed_manual". *)
Lemma record_trade_close_manual db now mr raises pos px ty closed pnl :
  unbound pos = true ->
  find_matching_signal db now mr (op_symbol pos) (normal_side (op_side pos)) = None ->
  let r := record_trade_close db now mr raises pos px ty closed pnl in
  trades (fst r) = trades db
  /\ users (fst r) = users db
  /\ snd r = false
  /\ (forall prices, checked_prices pos px = Some prices ->
        fst r = mark db (op_id pos) "closed_manual" (Some now))
  /\ (checked_prices pos px = None -> fst r = db).
Proof.
  intros Hu Hm. cbv zeta. unfold record_trade_close.
  rewrite (signal_reference_manual db now mr pos Hu Hm).
  destruct (checked_prices pos px) as [[entry size]|].
  - cbn [fst snd]. rewrite mark_trades, mark_users.
    repeat split; auto. discriminate.
  - cbn [fst snd]. repeat split; auto. discriminate.
Qed.

Lemma set_status_id id status ts q : op_id (set_status id status ts q) = op_id q.
Proof. unfold set_status. destruct (op_id q =? id)%Z; reflexivity. Qed.

(** The rows [rows'] are the rows [rows], one for one: a row with the
    identifier [id] now has the status [status], and belongs to the
    subscriber it belonged to; every other row is as it was. *)
Definition status_set (id : Z) (status : string) (rows rows' : list OpenPosition)
  : Prop :=
  Forall2 (fun q q' =>
             op_id q' = op_id q /\ op_user_id q' = op_user_id q
             /\ if (op_id q =? id)%Z then op_status q' = status else q' = q)
          rows rows'.

Lemma status_set_map id status ts rows :
  status_set id status rows (map (set_status id status ts) rows).
Proof.
  unfold status_set. induction rows as [|q rows IH]; cbn; constructor; [|exact IH].
  unfold set_status. destruct (op_id q =? id)%Z; cbn; auto.
Qed.

(** The row of a listed position is still listed, and has the status. *)
Lemma status_set_row id status rows rows' q :
  status_set id status rows rows' -> In q rows -> op_id q = id ->
  exists q', In q' rows' /\ op_id q' = id /\ op_user_id q' = op_user_id q
             /\ op_status q' = status.
Proof.
  unfold status_set. induction 1 as [|a b l l' Hab Hl IH]; intros Hin Hid; [destruct Hin|].
  destruct Hin as [-> | Hin].
  - destruct Hab as (H1 & H2 & H3). apply Z.eqb_eq in Hid as E. rewrite E in H3.
    exists b. split; [left; reflexivity|]. split; [congruence|]. split; assumption.
  - destruct (IH Hin Hid) as (q' & Hq' & Hrest). exists q'. split; [right; exact Hq'|].
    exact Hrest.
Qed.

(** The coin [check_position] monitors a position under. *)
Definition monitored_coin (p : Monitored) : string :=
  match option_nonempty (op_hl_coin (position p)) with
  | Some c => c
  | None => get_base_symbol (op_symbol (position p))
  end.

(** The match the specification asks for: a broadcast signal of the same
    base instrument and an equivalent action within the lookback window. *)
Definition same_instrument_signal (now : Timestamp) (symbol side : string) (s : Signal)
  : bool :=
  String.eqb (get_base_symbol (s_symbol s)) (get_base_symbol symbol)
  && String.eqb (Py.upper (s_action s)) (Py.upper (signal_action_of side))
  && (now - hours LOOKBACK_HOURS <=? s_created_at s)%Z.

(** C6 (amended).  When the reconciliation loop processes the exit of a
    position that is bound to no signal id and the signal lookup finds no
    row (no signal whose upper-cased symbol contains the position's base
    symbol, with the equivalent action, created within the last 48 hours;
    or the lookup itself fails), no Trade row is inserted and the
    subscriber's counters are left as they are.  Whenever the closure
    passes the price checks made before the lookup (entry price and size
    present, entry and exit apart by 0.00001 or more), the position is
    marked closed_manual: the row with the id of the position (an id
    other than zero) has the status "closed_manual" in the store that is
    left, and every other row is as it was.  When the closure does not
    pass the price checks the store is left untouched. *)
Theorem manual_trade_exclusion :
  forall (db : Store.t) (env : MonitorEnv) (p : Monitored) (wallet coin : string)
         (exit_price : float),
    unbound (position p) = true ->
    find_matching_signal db (m_now env) (m_match_raises env)
      (op_symbol (position p)) (normal_side (op_side (position p))) = None ->
    let db' := fst (close_position db env p wallet coin exit_price) in
    trades db' = trades db
    /\ users db' = users db
    /\ (forall prices, checked_prices (position p) exit_price = Some prices ->
          db' = mark db (op_id (position p)) "closed_manual" (Some (m_now env)))
    /\ (forall prices, checked_prices (position p) exit_price = Some prices ->
          op_id (position p) <> 0%Z ->
          status_set (op_id (position p)) "closed_manual"
            (open_positions db) (open_positions db')
          /\ (In (position p) (open_positions db) ->
              exists q, In q (open_positions db')
                        /\ op_id q = op_id (position p)
                        /\ op_user_id q = op_user_id (position p)
                        /\ op_status q = "closed_manual"))
    /\ (checked_prices (position p) exit_price = None -> db' = db).
Proof.
  intros db env p wallet coin px Hu Hm. cbv zeta. unfold close_position.
  match goal with
  | |- context [record_trade_close ?a ?b ?c ?r ?d ?e ?f ?g ?h] =>
      pose proof (record_trade_close_manual a b c r d e f g h Hu Hm) as H;
      destruct (record_trade_close a b c r d e f g h) as [db' flag]
  end.
  cbn [fst snd] in *. destruct H as (Ht & Hus & _ & Hmark & Hnone).
  split; [exact Ht|]. split; [exact Hus|]. split; [exact Hmark|].
  split; [|exact Hnone].
  intros prices Hprices Hid.
  assert (status_set (op_id (position p)) "closed_manual"
            (open_positions db) (open_positions db')) as Hset.
  { rewrite (Hmark prices Hprices). unfold mark.
    apply Z.eqb_neq in Hid. rewrite Hid. cbn. apply status_set_map. }
  split; [exact Hset|].
  intros Hin. exact (status_set_row _ _ _ _ _ Hset Hin eq_refl).
Qed.

(** *** Sample data of the reconciliation loop *)

Definition alice : User :=
  {| u_id := 1; u_api_key := "nk_alice"; u_email := "alice@example.org";
     u_hl_private_key_encrypted := Some "gAAAAAB";
     u_hl_wallet_address := Some "0xA11CE";
     u_credentials_set := true; u_agent_active := true; u_access_granted := true;
     u_pending_invoice_id := None; u_invoice_due_date := None;
     u_billing_cycle_start := None;
     u_current_cycle_profit := Some 0%float; u_current_cycle_trades := Some 0%Z;
     u_total_profit := Some 0%float; u_total_trades := Some 0%Z |}.

(** A long ETH position opened by hand: bound to no signal. *)
Definition manual_eth : OpenPosition :=
  {| op_id := 1; op_user_id := 1; op_signal_id := None;
     op_entry_order_id := Some 11%Z; op_tp_order_id := Some 12%Z;
     op_sl_order_id := Some 13%Z;
     op_symbol := "ETH/USDT"; op_hl_coin := Some "ETH"; op_side := "BUY";
     op_quantity := 2%float; op_leverage := 5%float;
     op_entry_fill_price := Some 100%float; op_avg_entry_price := None;
     op_filled_quantity := None; op_fill_count := None;
     op_target_tp := 110%float; op_target_sl := 95%float;
     op_opened_at := Some 0%Z; op_first_fill_at := None; op_last_fill_at := None;
     op_status := "open" |}.

(** A broadcast for another instrument, ETHFI, one hour old. *)
Definition ethfi_signal : Signal :=
  {| s_id := 7; s_signal_id := "sig-ethfi"; s_action := "BUY";
     s_symbol := "ETHFI/USDT"; s_entry_price := 1.5%float; s_stop_loss := 1.4%float;
     s_take_profit := 1.8%float; s_leverage := 5%float; s_risk_pct := None;
     s_created_at := hours 1 |}.

Definition store_without_signals : Store.t :=
  {| users := [alice]; signals := []; signal_deliveries := [];
     open_positions := [manual_eth]; trades := [] |}.

Definition store_with_ethfi : Store.t :=
  {| users := [alice]; signals := [ethfi_signal]; signal_deliveries := [];
     open_positions := [manual_eth]; trades := [] |}.

Definition monitored_eth : Monitored :=
  {| position := manual_eth; user_api_key := "nk_alice";
     hl_private_key_encrypted := Some "gAAAAAB";
     hl_wallet_address := Some "0xA11CE" |}.

Definition flat_account : StateReply :=
  StateReplied (Some {| assetPositions := Some []; accountValue := Some 1000%float |}).

Definition exit_fill (px : float) : Fill :=
  {| fill_coin := Some "ETH"; fill_px := Some px; fill_sz := Some 2%float;
     fill_time := Some 5000%Z; fill_closedPnl := Some 0%float |}.

(** Two hours in: the account is flat, the stop-loss order still rests,
    the last ETH fill is at [px]. *)
Definition monitor_env (px : float) : MonitorEnv :=
  {| m_now := hours 2;
     m_decrypt := Decrypted "0xA11CE";
     m_user_state := flat_account;
     m_open_orders := OrdersReplied [{| oo_coin := Some "ETH"; oo_oid := Some 13%Z |}];
     m_exit_fills := FillsReplied [exit_fill px];
     m_pnl_fills := FillsReplied [exit_fill px];
     m_match_raises := false;
     m_write_raises := no_fault |}.

Lemma manual_trade_exclusion_witness :
  let db' := fst (close_position store_without_signals (monitor_env 110) monitored_eth
                    "0xA11CE" "ETH" 110) in
  trades db' = trades store_without_signals
  /\ users db' = users store_without_signals
  /\ (exists q, In q (open_positions db')
                /\ op_id q = op_id (position monitored_eth)
                /\ op_user_id q = op_user_id (position monitored_eth)
                /\ op_status q = "closed_manual").
Proof.
  destruct (manual_trade_exclusion store_without_signals (monitor_env 110) monitored_eth
              "0xA11CE" "ETH" 110 ltac:(vm_compute; reflexivity)
              ltac:(vm_compute; reflexivity)) as (Ht & Hu & _ & Hmark & _).
  split; [exact Ht|]. split; [exact Hu|].
  refine (proj2 (Hmark (100%float, 2%float) _ _) _).
  - vm_compute. reflexivity.
  - discriminate.
  - left. reflexivity.
Defined.

(** C6 as stated fails twice.  An unbound position whose exit price is the
    entry price, in a store without any signal, is left with the status
    "open" (not closed_manual).  And an unbound ETH position, in a store
    whose only signal is for ETHFI (no signal of the same base instrument),
    is matched to that signal: one Trade row is inserted and the profit is
    added to the subscriber's counters. *)
Lemma manual_trade_as_stated_counterexample :
  (unbound manual_eth = true
   /\ signals store_without_signals = []
   /\ map op_status
        (open_positions
           (db
              (fst (check_position
                      {| db := store_without_signals; active_exchanges := [] |}
                      (monitor_env 100) monitored_eth))))
      = ["open"])
  /\ (existsb (same_instrument_signal (hours 2) "ETH/USDT" "LONG")
        (signals store_with_ethfi) = false
      /\ map (fun tr => (t_symbol tr, t_signal_id tr, t_exit_type tr))
           (trades (fst (close_position store_with_ethfi (monitor_env 110) monitored_eth
                           "0xA11CE" "ETH" 110)))
         = [("ETH/USDT", Some "sig-ethfi", "TP")]
      /\ map u_total_trades
           (users (fst (close_position store_with_ethfi (monitor_env 110) monitored_eth
                          "0xA11CE" "ETH" 110)))
         = [Some 1%Z]).
Proof. repeat split; vm_compute; reflexivity. Qed.

(* ------------------------------------------------------------------ *)
(** *** Anomaly and needs_review *)

(** The exchange answers the position query and reports no live position
    in any instrument. *)
Definition reports_no_position (reply : StateReply) : bool :=
  match reply with
  | StateRaised _ => false
  | StateReplied None => true
  | StateReplied (Some st) =>
      match assetPositions st with
      | Some l => forallb (fun q => negb (is_open q)) l
      | None => true
      end
  end.

Lemma find_none_of_forallb {A} (f g : A -> bool) (l : list A) :
  forallb (fun x => negb (g x)) l = true ->
  (forall x, f x = true -> g x = true) ->
  find f l = None.
Proof.
  intros Hall Himp. induction l as [|x l IH]; [reflexivity|].
  cbn in *. apply andb_prop in Hall as [Hx Hl].
  destruct (f x) eqn:E.
  - apply Himp in E. rewrite E in Hx. discriminate.
  - auto.
Qed.

Lemma no_live_position coin l :
  forallb (fun q => negb (is_open q)) l = true -> live_position coin l = None.
Proof.
  intros H. unfold live_position.
  rewrite (find_none_of_forallb _ is_open l H).
  - apply (find_none_of_forallb _ is_open l H). auto.
  - intros x Hx. apply andb_prop in Hx. tauto.
Qed.

(** What [check_position_closed] answers once no position is live. *)
Lemma check_position_closed_flat env wallet coin tp sl :
  reports_no_position (m_user_state env) = true ->
  check_position_closed env wallet coin tp sl =
  match exit_type_from_orders (m_open_orders env) tp sl with
  | None =>
      ([EvUserState wallet false;
        EvOpenOrders wallet (orders_raised (m_open_orders env))], Anomaly)
  | Some exit_type =>
      ([EvUserState wallet false;
        EvOpenOrders wallet (orders_raised (m_open_orders env));
        EvUserFills wallet (fills_raised (m_exit_fills env))],
       Closed (exit_price_from_fills (m_exit_fills env) coin) exit_type)
  end.
Proof.
  unfold reports_no_position, check_position_closed. intros H.
  destruct (m_user_state env) as [msg|[st|]]; [discriminate| |].
  - destruct (assetPositions st) as [l|].
    + rewrite (no_live_position coin l H).
      destruct (exit_type_from_orders _ _ _); reflexivity.
    + cbn. destruct (exit_type_from_orders _ _ _); reflexivity.
  - cbn. destruct (exit_type_from_orders _ _ _); reflexivity.
Qed.

Lemma get_open_positions_same db1 db2 :
  open_positions db1 = open_positions db2 -> users db1 = users db2 ->
  get_open_positions db1 = get_open_positions db2.
Proof. unfold get_open_positions. intros -> ->. reflexivity. Qed.

(** C8.  When the exchange reports no live position while both the
    take-profit and the stop-loss order of a monitored position still rest
    among the open orders, [check_position] leaves the store as it is (the
    position keeps the status it has, no Trade is recorded, the same rows
    are monitored on the next tick) and cancels no order.  When the
    bracket has resolved (at most one of the two orders still rests) and
    the fills give no exit price, the position is marked needs_review (the
    row with the id of the position has the status "needs_review" in the
    store that is left, every other row is as it was), no Trade is
    recorded, no counter moves and no order is cancelled. *)
Theorem anomaly_and_needs_review :
  forall (w : World) (env : MonitorEnv) (p : Monitored),
    reports_no_position (m_user_state env) = true ->
    (forall orders,
        m_open_orders env = OrdersReplied orders ->
        existsb (oid_is (op_tp_order_id (position p))) orders = true ->
        existsb (oid_is (op_sl_order_id (position p))) orders = true ->
        db (fst (check_position w env p)) = db w
        /\ get_open_positions (db (fst (check_position w env p))) = get_open_positions (db w)
        /\ count_cancels (snd (check_position w env p)) = 0%nat)
    /\ (forall wallet exit_type,
          snd (get_exchange (active_exchanges w) (m_decrypt env) p) = Some wallet ->
          exit_type_from_orders (m_open_orders env) (op_tp_order_id (position p))
            (op_sl_order_id (position p)) = Some exit_type ->
          exit_price_from_fills (m_exit_fills env) (monitored_coin p) = None ->
          open_positions (db (fst (check_position w env p)))
          = map (set_status (op_id (position p)) "needs_review" None)
                (open_positions (db w))
          /\ status_set (op_id (position p)) "needs_review"
               (open_positions (db w))
               (open_positions (db (fst (check_position w env p))))
          /\ (In (position p) (open_positions (db w)) ->
              exists q, In q (open_positions (db (fst (check_position w env p))))
                        /\ op_id q = op_id (position p)
                        /\ op_user_id q = op_user_id (position p)
                        /\ op_status q = "needs_review")
          /\ trades (db (fst (check_position w env p))) = trades (db w)
          /\ users (db (fst (check_position w env p))) = users (db w)
          /\ count_cancels (snd (check_position w env p)) = 0%nat).
Proof.
  intros w env p Hflat. split.
  - intros orders Ho Htp Hsl. unfold check_position.
    destruct (get_exchange (active_exchanges w) (m_decrypt env) p) as [cache [wallet|]].
    + rewrite (check_position_closed_flat env wallet _ _ _ Hflat).
      rewrite Ho. cbn [exit_type_from_orders]. rewrite Htp, Hsl. cbn.
      repeat split; reflexivity.
    + cbn. repeat split; reflexivity.
  - intros wallet ty Hw Hty Hpx. unfold check_position.
    destruct (get_exchange (active_exchanges w) (m_decrypt env) p) as [cache [wallet'|]];
      cbn [snd] in Hw; [|discriminate].
    injection Hw as ->.
    rewrite (check_position_closed_flat env wallet _ _ _ Hflat).
    fold (monitored_coin p). rewrite Hty, Hpx. cbn [fst snd db].
    assert (status_set (op_id (position p)) "needs_review" (open_positions (db w))
              (open_positions
                 (with_open_positions (db w)
                    (map (set_status (op_id (position p)) "needs_review" None)
                         (open_positions (db w)))))) as Hset.
    { cbn. apply status_set_map. }
    split; [reflexivity|]. split; [exact Hset|]. split.
    + intros Hin. exact (status_set_row _ _ _ _ _ Hset Hin eq_refl).
    + split; [reflexivity|]. split; reflexivity.
Qed.

(** Both bracket orders still rest, and no position is live. *)
Definition anomaly_env : MonitorEnv :=
  {| m_now := hours 2;
     m_decrypt := Decrypted "0xA11CE";
     m_user_state := flat_account;
     m_open_orders := OrdersReplied [{| oo_coin := Some "ETH"; oo_oid := Some 12%Z |};
                                     {| oo_coin := Some "ETH"; oo_oid := Some 13%Z |}];
     m_exit_fills := FillsReplied [];
     m_pnl_fills := FillsReplied [];
     m_match_raises := false;
     m_write_raises := no_fault |}.

(** The take-profit order is gone, and the fills show nothing for the coin. *)
Definition no_fill_env : MonitorEnv :=
  {| m_now := hours 2;
     m_decrypt := Decrypted "0xA11CE";
     m_user_state := flat_account;
     m_open_orders := OrdersReplied [{| oo_coin := Some "ETH"; oo_oid := Some 13%Z |}];
     m_exit_fills := FillsReplied [];
     m_pnl_fills := FillsReplied [];
     m_match_raises := false;
     m_write_raises := no_fault |}.

Definition monitor_start : World :=
  {| db := store_without_signals; active_exchanges := [] |}.

Lemma anomaly_and_needs_review_witness :
  (db (fst (check_position monitor_start anomaly_env monitored_eth)) = db monitor_start
   /\ get_open_positions (db (fst (check_position monitor_start anomaly_env monitored_eth)))
      = get_open_positions (db monitor_start)
   /\ count_cancels (snd (check_position monitor_start anomaly_env monitored_eth)) = 0%nat)
  /\ ((exists q,
         In q (open_positions
                 (db (fst (check_position monitor_start no_fill_env monitored_eth))))
         /\ op_id q = op_id (position monitored_eth)
         /\ op_user_id q = op_user_id (position monitored_eth)
         /\ op_status q = "needs_review")
      /\ trades (db (fst (check_position monitor_start no_fill_env monitored_eth)))
         = trades (db monitor_start)
      /\ users (db (fst (check_position monitor_start no_fill_env monitored_eth)))
         = users (db monitor_start)
      /\ count_cancels (snd (check_position monitor_start no_fill_env monitored_eth))
         = 0%nat).
Proof.
  split.
  - destruct (anomaly_and_needs_review monitor_start anomaly_env monitored_eth
                ltac:(vm_compute; reflexivity)) as [H _].
    apply (H [{| oo_coin := Some "ETH"; oo_oid := Some 12%Z |};
              {| oo_coin := Some "ETH"; oo_oid := Some 13%Z |}]);
      vm_compute; reflexivity.
  - destruct (anomaly_and_needs_review monitor_start no_fill_env monitored_eth
                ltac:(vm_compute; reflexivity)) as [_ H].
    destruct (H "0xA11CE" "TP" ltac:(vm_compute; reflexivity)
                ltac:(vm_compute; reflexivity) ltac:(vm_compute; reflexivity))
      as (_ & _ & Hrow & Ht & Hu & Hc).
    split; [|split; [exact Ht|split; [exact Hu|exact Hc]]].
    apply Hrow. left. reflexivity.
Defined.

(* ------------------------------------------------------------------ *)
(** *** The exit type that is recorded *)






End Reconciliation.

(* ------------------------------------------------------------------ *)
(** ** The order bracket executor *)
(* ------------------------------------------------------------------ *)

Section Executor.

Import order_utils Store Exchange hosted_trading_loop.

Variable SLIPPAGE_BPS : Z.
Variable asset_meta : list (string * nat).
Variable round_price : float -> option float.

(** An event asks the exchange for no size but [q]. *)
Definition sized (q : float) (e : Event) : Prop :=
  match e with
  | EvOrder _ _ sz _ _ _ => sz = q
  | _ => True
  end.

Lemma sized_schedule q coin is_buy px ty ro t :
  retry_schedule (EvOrder coin is_buy q px ty ro) t -> Forall (sized q) t.
Proof.
  intros [-> | [-> | ->]]; repeat constructor.
Qed.

Lemma sized_placement q coin is_buy px ty ro exchange body out :
  placement_outcome exchange body (EvOrder coin is_buy q px ty ro) out ->
  Forall (sized q) (fst out).
Proof.
  intros [(t & r & Hs & ->) | (e1 & e2 & e3 & title & details & _ & _ & _ & _ & ->)].
  - exact (sized_schedule _ _ _ _ _ _ _ Hs).
  - repeat constructor.
Qed.

Lemma sized_cancel q exchange coin oid desc email key notify :
  Forall (sized q) (fst (cancel_order_with_retry exchange coin oid desc email key notify)).
Proof.
  destruct (cancel_outcome_holds exchange coin oid desc email key notify)
    as [(t & Hs & ->) | (e1 & e2 & e3 & title & _ & _ & _ & ->)].
  - destruct Hs as [-> | [-> | ->]]; repeat constructor.
  - destruct notify; repeat constructor.
Qed.

Lemma sized_emergency_close env wallet coin is_buy q email key entry reason :
  Forall (sized q)
    (_emergency_close_position round_price env wallet coin is_buy q email key entry reason).
Proof.
  unfold _emergency_close_position, emergency_close_order, close_report.
  repeat break_match; subst;
    repeat (apply Forall_app; split); repeat constructor;
    try (injection Heqp as <- <-; repeat (apply Forall_app; split); repeat constructor).
Qed.

Lemma sized_place_orders env user signal wallet coin q :
  Forall (sized q)
    (fst (place_orders SLIPPAGE_BPS round_price env user signal wallet coin q)).
Proof.
  unfold place_orders, trade_execution_error.
  destruct (Py.int_truediv SLIPPAGE_BPS 10000) as [bps|]; [|repeat constructor].
  destruct (round_price _) as [entry_limit_price|]; [|repeat constructor].
  match goal with
  | |- context [place_entry_order_with_retry ?a ?b ?c ?d ?e ?f ?g] =>
      pose proof (sized_placement _ _ _ _ _ _ _ _ _
                    (placement_outcome_entry a b c d e f g)) as He;
      destruct (place_entry_order_with_retry a b c d e f g) as [t_entry [entry_order|]]
  end; cbn [fst snd] in *;
    [|apply Forall_app; split; [assumption | repeat constructor]].
  destruct (round_price (take_profit signal)) as [tp_price|];
    [|repeat (apply Forall_app; split); auto; repeat constructor].
  match goal with
  | |- context [place_tp_order_with_retry ?a ?b ?c ?d ?e ?f ?g] =>
      pose proof (sized_placement _ _ _ _ _ _ _ _ _
                    (placement_outcome_tp a b c d e f g)) as Ht;
      destruct (place_tp_order_with_retry a b c d e f g) as [t_tp [tp_order|]]
  end; cbn [fst snd] in *;
    [|repeat (apply Forall_app; split); auto using sized_emergency_close;
      repeat constructor].
  destruct (round_price (stop_loss signal)) as [sl_price|];
    [|repeat (apply Forall_app; split); auto; repeat constructor].
  match goal with
  | |- context [place_sl_order_with_retry ?a ?b ?c ?d ?e ?f ?g] =>
      pose proof (sized_placement _ _ _ _ _ _ _ _ _
                    (placement_outcome_sl a b c d e f g)) as Hs;
      destruct (place_sl_order_with_retry a b c d e f g) as [t_sl [sl_order|]]
  end; cbn [fst snd] in *.
  - repeat (apply Forall_app; split); auto; repeat constructor.
  - repeat (apply Forall_app; split); auto using sized_emergency_close;
      try (repeat constructor).
    destruct (id tp_order); [apply sized_cancel | constructor].
Qed.

(** The quantity [execute_trade] sizes the bracket with: the equity at
    risk over the stop distance, floored to the precision of the coin. *)
Definition sized_quantity (env : TradeEnv) (signal : PendingRow) : option float :=
  round_size asset_meta (convert_symbol_to_hl (symbol signal))
    (position_size (get_user_equity (equity_user_state env)) (risk_pct signal)
       (entry_price signal) (stop_loss signal)).

Lemma orders_of_size_and_place env user signal wallet e :
  In e (fst (size_and_place SLIPPAGE_BPS asset_meta round_price env user signal wallet)) ->
  is_order e = true ->
  exists q, sized_quantity env signal = Some q
            /\ PrimFloat.leb q 0%float = false
            /\ sized q e.
Proof.
  unfold size_and_place, sized_quantity, trade_execution_error.
  repeat break_match; cbn [fst]; intros Hin Ho;
    try (repeat (apply in_app_or in Hin as [Hin|Hin]);
         repeat (destruct Hin as [<-|Hin]; [discriminate|]);
         solve [destruct Hin]).
  match goal with
  | H : place_orders _ _ _ _ _ _ ?c ?q = _ |- _ =>
      pose proof (sized_place_orders env user signal wallet c q) as Hs;
      rewrite H in Hs
  end.
  cbn [fst] in Hs.
  exists f. split; [reflexivity|]. split; [assumption|].
  apply in_app_or in Hin as [Hin|Hin].
  { destruct Hin as [<-|[]]. discriminate. }
  apply in_app_or in Hin as [Hin|Hin].
  { unfold set_leverage in Hin. destruct (Py.trunc _); [destruct Hin as [<-|[]]; discriminate | destruct Hin]. }
  rewrite Forall_forall in Hs. apply Hs. exact Hin.
Qed.

(** The same signal with another leverage. *)
Definition with_leverage (s : PendingRow) (l : float) : PendingRow :=
  {| user_id := user_id s; api_key := api_key s; email := email s;
     hl_private_key_encrypted := hl_private_key_encrypted s;
     hl_wallet_address := hl_wallet_address s;
     delivery_id := delivery_id s; signal_id := signal_id s;
     action := action s; symbol := symbol s; entry_price := entry_price s;
     stop_loss := stop_loss s; take_profit := take_profit s;
     leverage := l; risk_pct := risk_pct s;
     signal_created_at := signal_created_at s |}.

Lemma place_orders_any_leverage env user signal wallet coin q l :
  fst (place_orders SLIPPAGE_BPS round_price env user (with_leverage signal l) wallet coin q)
  = fst (place_orders SLIPPAGE_BPS round_price env user signal wallet coin q).
Proof.
  unfold place_orders, trade_execution_error.
  cbn [action entry_price take_profit stop_loss with_leverage].
  repeat break_match; reflexivity.
Qed.

Lemma no_order_in_set_leverage l coin : filter is_order (set_leverage l coin) = [].
Proof. unfold set_leverage. destruct (Py.trunc l); reflexivity. Qed.

Lemma orders_any_leverage env user signal wallet l :
  PrimFloat.eqb (leverage signal) 0%float = false ->
  PrimFloat.eqb l 0%float = false ->
  filter is_order
    (fst (size_and_place SLIPPAGE_BPS asset_meta round_price env user
            (with_leverage signal l) wallet))
  = filter is_order
      (fst (size_and_place SLIPPAGE_BPS asset_meta round_price env user signal wallet)).
Proof.
  intros Hs Hl. unfold size_and_place, trade_execution_error.
  cbn [action symbol signal_id entry_price take_profit stop_loss risk_pct leverage
       with_leverage].
  rewrite Hs, Hl.
  pose proof (place_orders_any_leverage env user signal wallet) as Hp.
  repeat break_match; try reflexivity.
  cbn [fst]. rewrite !filter_app, !no_order_in_set_leverage.
  match goal with
  | H1 : place_orders _ _ _ _ (with_leverage _ _) _ ?c ?q = _,
    H2 : place_orders _ _ _ _ signal _ ?c ?q = _ |- _ =>
      specialize (Hp c q l); rewrite H1, H2 in Hp; cbn [fst] in Hp; rewrite Hp
  end.
  reflexivity.
Qed.

(** C3 (amended).  Every order of an executed signal (entry, take-profit,
    stop-loss and emergency close) is for the quantity
    [floor((equity * risk_pct / abs(entry_price - stop_loss)) * 10^d) / 10^d],
    each step computed in binary64, [d] being the size decimals of the coin;
    that quantity is strictly positive, so a trade whose quantity rounds to
    zero places no order.  The leverage enters none of it: with any other
    non-zero leverage the same orders are placed.  For entry 0.50, stop
    0.48, equity 1000 and risk fraction 0.02 the quantity before rounding
    is 999.9999999999991 (1000 in exact arithmetic: 0.50 - 0.48 is not
    0.02 in binary64), which floors to 999.99 at two decimals and to 999 at
    none. *)
Theorem sizing_without_leverage :
  forall (env : TradeEnv) (user signal : PendingRow) (wallet : string),
    (forall coin is_buy sz px ty ro,
        In (EvOrder coin is_buy sz px ty ro)
           (fst (size_and_place SLIPPAGE_BPS asset_meta round_price env user signal wallet)) ->
        sized_quantity env signal = Some sz /\ PrimFloat.leb sz 0%float = false)
    /\ (forall q,
          sized_quantity env signal = Some q -> PrimFloat.leb q 0%float = true ->
          count_orders
            (fst (size_and_place SLIPPAGE_BPS asset_meta round_price env user signal wallet))
          = 0%nat)
    /\ (forall l,
          PrimFloat.eqb (leverage signal) 0%float = false ->
          PrimFloat.eqb l 0%float = false ->
          filter is_order
            (fst (size_and_place SLIPPAGE_BPS asset_meta round_price env user
                    (with_leverage signal l) wallet))
          = filter is_order
              (fst (size_and_place SLIPPAGE_BPS asset_meta round_price env user signal wallet)))
    /\ position_size 1000 0.02 0.5 0.48 = 999.9999999999991%float
    /\ round_size [] "ADA" (position_size 1000 0.02 0.5 0.48) = Some 999.99%float
    /\ round_size [("ADA", 0%nat)] "ADA" (position_size 1000 0.02 0.5 0.48) = Some 999%float.
Proof.
  intros env user signal wallet. repeat split.
  - destruct (orders_of_size_and_place env user signal wallet _ H eq_refl)
      as (q & Hq & _ & Hs). cbn in Hs. subst. exact Hq.
  - destruct (orders_of_size_and_place env user signal wallet _ H eq_refl)
      as (q & Hq & Hpos & Hs). cbn in Hs. subst. exact Hpos.
  - intros q Hq Hzero. unfold count_orders.
    destruct (filter is_order _) as [|e l] eqn:E; [reflexivity|].
    assert (In e (e :: l)) as Hin by (left; reflexivity).
    rewrite <- E in Hin. apply filter_In in Hin as [Hin Ho].
    destruct (orders_of_size_and_place env user signal wallet e Hin Ho)
      as (q' & Hq' & Hpos & _).
    rewrite Hq in Hq'. injection Hq' as <-. rewrite Hzero in Hpos. discriminate.
  - intros l Hs Hl. apply orders_any_leverage; assumption.
Qed.

(** *** Sample data of the trading loop *)

(** The pending row of the scenario: BUY ADA, entry 0.50, stop 0.48,
    target 0.55, leverage 5, risk fraction 0.02. *)
Definition ada_row : PendingRow :=
  {| user_id := 1; api_key := "nk_alice"; email := "alice@example.org";
     hl_private_key_encrypted := Some "gAAAAAB";
     hl_wallet_address := Some "0xA11CE";
     delivery_id := 10; signal_id := "sig-ada";
     action := "BUY"; symbol := "ADA/USDT";
     entry_price := 0.5%float; stop_loss := 0.48%float; take_profit := 0.55%float;
     leverage := 5%float; risk_pct := 0.02%float;
     signal_created_at := 0%Z |}.

Definition resting (oid : Z) : OrderReply :=
  OrderReplied "ok" "{...}"
    [{| st_filled := None; st_resting := Some {| resting_oid := Some oid |};
        st_error := None |}].

Definition filled (oid : Z) (px sz : float) : OrderReply :=
  OrderReplied "ok" "{...}"
    [{| st_filled := Some {| filled_oid := Some oid; filled_avgPx := Some px;
                             filled_totalSz := Some sz |};
        st_resting := None; st_error := None |}].

Definition rejected : OrderReply := OrderRaised "HTTP 502".

Definition account (equity : float) : StateReply :=
  StateReplied (Some {| assetPositions := Some []; accountValue := Some equity |}).

(** One execution, one minute after the broadcast, on an account worth
    1000: the faults of the store and of the gate's queries, and the
    answers to the take-profit and stop-loss placements, are the
    parameters. *)
Definition sample_env (gate_lookup_raises gate_queries_raise insert_raises : bool)
           (tp sl : nat -> OrderReply) : TradeEnv :=
  {| now := minutes 1;
     db_error := "connection is closed";
     ack_raises := false;
     decrypt := Decrypted "0xA11CE";
     gate_signal_lookup_raises := gate_lookup_raises;
     gate_position_count_raises := false;
     gate_recent_trade_raises := false;
     gate_user_state :=
       if gate_queries_raise then StateRaised "HTTP 429" else account 1000;
     gate_open_orders :=
       if gate_queries_raise then OrdersRaised "HTTP 429" else OrdersReplied [];
     equity_user_state := account 1000;
     entry_exchange := fun _ => filled 101 0.5 999.99;
     tp_exchange := tp;
     sl_exchange := sl;
     cancel_exchange := fun _ => CancelReplied "ok" "{...}";
     close_user_state := account 1000;
     close_all_mids := MidsReplied (Some 0.5%float);
     close_exchange := filled 104 0.49 999.99;
     record_signal_lookup_raises := false;
     record_insert_raises := insert_raises;
     record_billing_raises := false |}.

(** Nothing fails. *)
Definition calm_env : TradeEnv :=
  sample_env false false false (fun _ => resting 102) (fun _ => resting 103).

Definition order_size (e : Event) : option float :=
  match e with
  | EvOrder _ _ sz _ _ _ => Some sz
  | _ => None
  end.

End Executor.

(** The orders of the scenario are for the quantity the theorem gives. *)
Lemma sizing_without_leverage_witness :
  sized_quantity [] calm_env ada_row = Some 999.99%float
  /\ PrimFloat.leb 999.99 0 = false.
Proof.
  destruct (sizing_without_leverage 50 [] (fun p => Some p) calm_env ada_row ada_row
              "0xA11CE") as (Hq & _).
  refine (Hq "ADA" true _ _ LimitIoc false _).
  cbv. right. right. left. reflexivity.
Defined.

(** C3 as stated fails at its own scenario: the quantity before rounding
    is not 1000 but the next double below it, and the three orders of the
    bracket are for 999.99, not for 1000. *)
Lemma sizing_as_stated_counterexample :
  PrimFloat.eqb (hosted_trading_loop.position_size 1000 0.02 0.5 0.48) 1000 = false
  /\ PrimFloat.ltb (hosted_trading_loop.position_size 1000 0.02 0.5 0.48) 1000 = true
  /\ map order_size
       (filter is_order
          (fst (hosted_trading_loop.size_and_place 50 [] (fun p => Some p) calm_env
                  ada_row ada_row "0xA11CE")))
     = [Some 999.99%float; Some 999.99%float; Some 999.99%float].
Proof. repeat split; vm_compute; reflexivity. Qed.

(* ------------------------------------------------------------------ *)
(** ** The safety gate fails open *)
(* ------------------------------------------------------------------ *)

Section SafetyGate.

Import order_utils Store Exchange hosted_trading_loop.

Variable SLIPPAGE_BPS : Z.
Variable asset_meta : list (string * nat).
Variable round_price : float -> option float.

(** A statement of the gate's store lookup raised. *)
Definition db_lookup_raised (t : Trace) : Prop := exists op, In (EvDb op true) t.

(** The position query and the open-orders query both raised. *)
Definition exchange_queries_raised (wallet : string) (t : Trace) : Prop :=
  In (EvUserState wallet true) t /\ In (EvOpenOrders wallet true) t.

Definition quiet_lookup (e : Event) : Prop := exists op, e = EvDb op false.

(** Unless it raises, CHECK 0 leaves only lookups that did not raise. *)
Lemma check_same_signal_quiet db env uid sid :
  (exists e, snd (check_same_signal db env uid sid) = Failed e)
  \/ Forall quiet_lookup (fst (check_same_signal db env uid sid)).
Proof.
  unfold check_same_signal, quiet_lookup.
  repeat break_match; cbn [fst snd];
    first [ left; eexists; reflexivity
          | right; repeat constructor; eexists; reflexivity ].
Qed.

Lemma quiet_not_raised t : Forall quiet_lookup t -> ~ db_lookup_raised t.
Proof.
  intros Hq (op & Hin). rewrite Forall_forall in Hq.
  destruct (Hq _ Hin) as (op' & H). discriminate.
Qed.

Lemma quiet_no_user_state t wallet b : Forall quiet_lookup t -> ~ In (EvUserState wallet b) t.
Proof.
  intros Hq Hin. rewrite Forall_forall in Hq.
  destruct (Hq _ Hin) as (op' & H). discriminate.
Qed.

Lemma quiet_no_open_orders t wallet b : Forall quiet_lookup t -> ~ In (EvOpenOrders wallet b) t.
Proof.
  intros Hq Hin. rewrite Forall_forall in Hq.
  destruct (Hq _ Hin) as (op' & H). discriminate.
Qed.

Lemma gate_fails_open db env wallet user_short uid sid :
  let gate := check_any_open_positions_or_orders db env wallet user_short uid sid in
  db_lookup_raised (fst gate) \/ exchange_queries_raised wallet (fst gate) ->
  snd gate = (false, None).
Proof.
  cbv zeta. unfold check_any_open_positions_or_orders.
  destruct (check_same_signal_quiet db env uid sid) as [(e & He) | Hq];
    destruct (check_same_signal db env uid sid) as [t0 c0]; cbn [fst snd] in *.
  { subst c0. reflexivity. }
  destruct c0 as [reason | | e]; cbn [fst snd]; [ | | reflexivity].
  - (* blocked by the store lookup: nothing raised *)
    intros [Hdb | [Hs _]].
    + exfalso. exact (quiet_not_raised _ Hq Hdb).
    + exfalso. exact (quiet_no_user_state _ _ _ Hq Hs).
  - (* the two exchange queries *)
    intros H.
    assert (state_raised (gate_user_state env) = true
            /\ orders_raised (gate_open_orders env) = true) as [Hs Ho].
    { destruct (open_position_reason (gate_user_state env)) eqn:E1;
        [|destruct (open_orders_reason (gate_open_orders env)) eqn:E2];
        cbn [fst snd] in H; destruct H as [(op & Hdb) | [Hs Ho]];
        repeat (apply in_app_or in Hdb as [Hdb | Hdb]);
        try (exfalso; exact (quiet_not_raised _ Hq (ex_intro _ op Hdb)));
        try (destruct Hdb as [Hdb | []]; discriminate);
        repeat (apply in_app_or in Hs as [Hs | Hs]);
        repeat (apply in_app_or in Ho as [Ho | Ho]);
        try (exfalso; exact (quiet_no_user_state _ _ _ Hq Hs));
        try (exfalso; exact (quiet_no_open_orders _ _ _ Hq Ho));
        try (destruct Hs as [Hs | []]; discriminate);
        try (destruct Ho as [Ho | []]; discriminate);
        destruct Hs as [Hs | []]; destruct Ho as [Ho | []];
        injection Hs as Hs; injection Ho as Ho; auto. }
    destruct (gate_user_state env); [|discriminate].
    destruct (gate_open_orders env); [|discriminate].
    reflexivity.
Qed.

Definition raised_in_gate (wallet : string) (t : Trace) : Prop :=
  db_lookup_raised t \/ exchange_queries_raised wallet t.

(** The first request of the entry placement is always sent. *)
Lemma entry_order_sent exchange coin is_buy q px email key :
  In (EvOrder coin is_buy q px LimitIoc false)
     (fst (place_entry_order_with_retry exchange coin is_buy q px email key)).
Proof.
  destruct (placement_outcome_entry exchange coin is_buy q px email key)
    as [(t & r & Hs & ->) | (e1 & e2 & e3 & title & details & _ & _ & _ & _ & ->)];
    cbn [fst].
  - destruct Hs as [-> | [-> | ->]]; left; reflexivity.
  - left. reflexivity.
Qed.

Lemma place_orders_entry env user signal wallet coin q bps px :
  Py.int_truediv SLIPPAGE_BPS 10000 = Some bps ->
  round_price (entry_price signal
               * (if String.eqb (Py.upper (action signal)) "BUY"
                  then 1 + bps else 1 - bps))%float = Some px ->
  In (EvOrder coin (String.eqb (Py.upper (action signal)) "BUY") q px LimitIoc false)
     (fst (place_orders SLIPPAGE_BPS round_price env user signal wallet coin q)).
Proof.
  intros Hbps Hpx. unfold place_orders. rewrite Hbps, Hpx.
  pose proof (entry_order_sent (entry_exchange env) coin
                (String.eqb (Py.upper (action signal)) "BUY") q px
                (email user) (api_key user)) as Hin.
  destruct (place_entry_order_with_retry _ _ _ _ _ _ _) as [t_entry entry_order].
  cbn [fst] in Hin.
  repeat break_match; cbn [fst]; rewrite ?in_app_iff; tauto.
Qed.

(** The checks between the gate and the entry order all pass, and size
    the bracket at [q]: the equity is not <= 0, the stop loss and the take
    profit are present and not <= 0, the stop distance is not <= 0, the
    sized quantity is [q], not <= 0, and the leverage is not zero. *)
Definition sizing_accepts (env : TradeEnv) (signal : PendingRow) (q : float) : Prop :=
  PrimFloat.leb (get_user_equity (equity_user_state env)) 0%float = false
  /\ Py.truthy (stop_loss signal) = true
  /\ Py.truthy (take_profit signal) = true
  /\ PrimFloat.leb (stop_loss signal) 0%float = false
  /\ PrimFloat.leb (take_profit signal) 0%float = false
  /\ PrimFloat.leb (PrimFloat.abs (entry_price signal - stop_loss signal)) 0%float
     = false
  /\ sized_quantity asset_meta env signal = Some q
  /\ PrimFloat.leb q 0%float = false
  /\ PrimFloat.eqb (leverage signal) 0%float = false.

Lemma size_and_place_entry env user signal wallet q bps px :
  sizing_accepts env signal q ->
  Py.int_truediv SLIPPAGE_BPS 10000 = Some bps ->
  round_price (entry_price signal
               * (if String.eqb (Py.upper (action signal)) "BUY"
                  then 1 + bps else 1 - bps))%float = Some px ->
  In (EvOrder (convert_symbol_to_hl (symbol signal))
        (String.eqb (Py.upper (action signal)) "BUY") q px LimitIoc false)
     (fst (size_and_place SLIPPAGE_BPS asset_meta round_price env user signal wallet)).
Proof.
  intros (Heq & Hsl & Htp & Hsl0 & Htp0 & Hrisk & Hq & Hq0 & Hlev) Hbps Hpx.
  unfold sized_quantity in Hq. unfold size_and_place.
  rewrite Heq, Hsl, Htp, Hsl0, Htp0, Hrisk, Hq, Hq0, Hlev. cbn [negb orb].
  pose proof (place_orders_entry env user signal wallet
                (convert_symbol_to_hl (symbol signal)) q bps px Hbps Hpx) as Hin.
  destruct (place_orders _ _ _ _ _ _ _ q) as [t b]. cbn [fst] in *.
  rewrite !in_app_iff. tauto.
Qed.

(** The gate asks for no order. *)
Lemma gate_sends_no_order db env wallet user_short uid sid :
  Forall (fun e => is_order e = false)
    (fst (check_any_open_positions_or_orders db env wallet user_short uid sid)).
Proof.
  unfold check_any_open_positions_or_orders, check_same_signal.
  repeat break_match; cbn [fst];
    repeat match goal with
           | H : (_, _) = (_, _) |- _ => injection H as <- <-
           end;
    repeat (apply Forall_app; split); repeat constructor.
Qed.

(** C9 (amended).  Whenever a statement of the gate's store lookup raises,
    or the position query and the open-orders query of the exchange both
    raise, [check_any_open_positions_or_orders] answers [(False, None)];
    and [execute_trade] then goes on as after a gate that found nothing:
    every step of the equity query, the sizing and the bracket is in its
    trace.  The entry order is sent when the checks that follow the gate
    pass (a positive equity is read, the signal is valid, the sized
    quantity is positive) and the limit price can be computed.  When the
    equity query raises as well, the equity is read as 0 and the
    subscriber is skipped: [execute_trade] returns [False] without any
    order. *)
Theorem safety_gate_fails_open :
  (forall (db : Store.t) (env : TradeEnv) (wallet user_short : string) (uid : Z)
          (sid : string),
      raised_in_gate wallet
        (fst (check_any_open_positions_or_orders db env wallet user_short uid sid)) ->
      snd (check_any_open_positions_or_orders db env wallet user_short uid sid)
      = (false, None))
  /\ (forall (w : World) (env : TradeEnv) (user signal : PendingRow)
             (cache : list (string * string)) (wallet : string),
        ack_raises env = false ->
        get_or_create_exchange (active_exchanges w) (decrypt env) user
        = (cache, ExchangeOk wallet) ->
        raised_in_gate wallet
          (fst (check_any_open_positions_or_orders
                  (fst (fst (early_acknowledgment (db w) env signal))) env wallet
                  (Py.take 15 (api_key user) ++ "...")%string
                  (user_id user) (signal_id signal))) ->
        (forall e,
            In e (fst (size_and_place SLIPPAGE_BPS asset_meta round_price env user signal
                         wallet)) ->
            In e (snd (fst (execute_trade SLIPPAGE_BPS asset_meta round_price w env
                              user signal))))
        /\ (forall q bps px : float,
              sizing_accepts env signal q ->
              Py.int_truediv SLIPPAGE_BPS 10000 = Some bps ->
              round_price (entry_price signal
                           * (if String.eqb (Py.upper (action signal)) "BUY"
                              then 1 + bps else 1 - bps))%float = Some px ->
              In (EvOrder (convert_symbol_to_hl (symbol signal))
                    (String.eqb (Py.upper (action signal)) "BUY") q px LimitIoc false)
                 (snd (fst (execute_trade SLIPPAGE_BPS asset_meta round_price w env
                              user signal))))
        /\ (forall msg : string,
              equity_user_state env = StateRaised msg ->
              snd (execute_trade SLIPPAGE_BPS asset_meta round_price w env user signal)
              = Returned false
              /\ Forall (fun e => is_order e = false)
                   (snd (fst (execute_trade SLIPPAGE_BPS asset_meta round_price w env
                                user signal))))).
Proof.
  split.
  - intros. apply gate_fails_open. assumption.
  - intros w env user signal cache wallet Hack Hex Hraised.
    pose proof (gate_fails_open _ _ _ _ _ _ Hraised) as Hgate.
    assert (forall e,
               In e (fst (size_and_place SLIPPAGE_BPS asset_meta round_price env user
                            signal wallet)) ->
               In e (snd (fst (execute_trade SLIPPAGE_BPS asset_meta round_price w env
                                 user signal)))) as Hgoes.
    { intros e Hin. unfold execute_trade, safety_check.
      destruct (early_acknowledgment (db w) env signal)
        as [[db1 t_ack] ack_raised] eqn:Ea.
      assert (ack_raised = false) as ->.
      { unfold early_acknowledgment in Ea. rewrite Hack in Ea.
        destruct (delivery_id signal =? 0)%Z; injection Ea as _ _ <-; reflexivity. }
      cbn [fst snd db active_exchanges] in *. rewrite Hex.
      destruct (check_any_open_positions_or_orders db1 env wallet _ _ _)
        as [t_gate [has_open reason]].
      cbn [snd] in Hgate. injection Hgate as -> ->.
      destruct (size_and_place _ _ _ env user signal wallet) as [t_place [b|]];
        cbn [fst snd] in *.
      + destruct (record_open_position db1 env user signal b) as [db2 t_rec].
        cbn [fst snd]. apply in_or_app. right. apply in_or_app. right.
        apply in_or_app. left. exact Hin.
      + apply in_or_app. right. apply in_or_app. right. exact Hin. }
    split; [exact Hgoes|]. split.
    + intros q bps px Hacc Hbps Hpx. apply Hgoes.
      apply (size_and_place_entry env user signal wallet q bps px); assumption.
    + intros msg Hequity. unfold execute_trade, safety_check.
      pose proof (gate_sends_no_order
                    (fst (fst (early_acknowledgment (db w) env signal))) env wallet
                    (Py.take 15 (api_key user) ++ "...")%string
                    (user_id user) (signal_id signal)) as Hquiet.
      destruct (early_acknowledgment (db w) env signal)
        as [[db1 t_ack] ack_raised] eqn:Ea.
      assert (ack_raised = false /\ Forall (fun e => is_order e = false) t_ack)
        as [-> Hack_quiet].
      { unfold early_acknowledgment in Ea. rewrite Hack in Ea.
        destruct (delivery_id signal =? 0)%Z; injection Ea as _ <- <-;
          split; repeat constructor. }
      cbn [fst snd db active_exchanges] in *. rewrite Hex.
      destruct (check_any_open_positions_or_orders db1 env wallet _ _ _)
        as [t_gate [has_open reason]].
      cbn [fst snd] in *. injection Hgate as -> ->.
      unfold size_and_place. rewrite Hequity. cbn [get_user_equity].
      replace (PrimFloat.leb 0 0) with true by reflexivity.
      cbn [fst snd]. split; [reflexivity|].
      apply Forall_app; split; [exact Hack_quiet|].
      apply Forall_app; split; [exact Hquiet|]. repeat constructor.
Qed.

End SafetyGate.

(** *** A store with one subscriber, one signal and its delivery *)

Definition ada_signal : Store.Signal :=
  {| Store.s_id := 3; Store.s_signal_id := "sig-ada"; Store.s_action := "BUY";
     Store.s_symbol := "ADA/USDT"; Store.s_entry_price := 0.5%float;
     Store.s_stop_loss := 0.48%float; Store.s_take_profit := 0.55%float;
     Store.s_leverage := 5%float; Store.s_risk_pct := Some 0.02%float;
     Store.s_created_at := 0%Z |}.

Definition ada_delivery (acknowledged failed : bool) : Store.Delivery :=
  {| Store.sd_id := 10; Store.sd_signal_id := 3; Store.sd_user_id := 1;
     Store.sd_acknowledged := acknowledged; Store.sd_acknowledged_at := None;
     Store.sd_executed := acknowledged; Store.sd_executed_at := None;
     Store.sd_failed := failed |}.

Definition trading_store (acknowledged failed : bool) : Store.t :=
  {| Store.users := [alice]; Store.signals := [ada_signal];
     Store.signal_deliveries := [ada_delivery acknowledged failed];
     Store.open_positions := []; Store.trades := [] |}.

Definition trading_world : hosted_trading_loop.World :=
  {| hosted_trading_loop.db := trading_store false false;
     hosted_trading_loop.active_exchanges := [] |}.

(** The entry order is placed when the gate's store lookup raises, and
    when both of its exchange queries raise, on an account whose equity
    query answers 1000. *)
Lemma safety_gate_fails_open_witness :
  In (EvOrder "ADA" true 999.99 0.5025 LimitIoc false)
     (snd (fst (hosted_trading_loop.execute_trade 50 [] (fun p => Some p) trading_world
                  (sample_env true false false (fun _ => resting 102)
                     (fun _ => resting 103))
                  ada_row ada_row)))
  /\ In (EvOrder "ADA" true 999.99 0.5025 LimitIoc false)
       (snd (fst (hosted_trading_loop.execute_trade 50 [] (fun p => Some p) trading_world
                    (sample_env false true false (fun _ => resting 102)
                       (fun _ => resting 103))
                    ada_row ada_row))).
Proof.
  split.
  - refine (proj1 (proj2 (proj2 (safety_gate_fails_open 50 [] (fun p => Some p))
                            trading_world _ ada_row ada_row [("nk_alice", "0xA11CE")]
                            "0xA11CE" _ _ _))
              999.99%float 0.005%float 0.5025%float _ _ _).
    + reflexivity.
    + reflexivity.
    + left. eexists. cbv. left. reflexivity.
    + repeat split; vm_compute; reflexivity.
    + vm_compute. reflexivity.
    + vm_compute. reflexivity.
  - refine (proj1 (proj2 (proj2 (safety_gate_fails_open 50 [] (fun p => Some p))
                            trading_world _ ada_row ada_row [("nk_alice", "0xA11CE")]
                            "0xA11CE" _ _ _))
              999.99%float 0.005%float 0.5025%float _ _ _).
    + reflexivity.
    + reflexivity.
    + right. split; cbv; auto 8.
    + repeat split; vm_compute; reflexivity.
    + vm_compute. reflexivity.
    + vm_compute. reflexivity.
Defined.

(** The exchange is unreachable for the reads: the two queries of the
    gate raise, and so does the equity query that follows. *)
Definition outage_env : hosted_trading_loop.TradeEnv :=
  {| hosted_trading_loop.now := minutes 1;
     hosted_trading_loop.db_error := "connection is closed";
     hosted_trading_loop.ack_raises := false;
     hosted_trading_loop.decrypt := Exchange.Decrypted "0xA11CE";
     hosted_trading_loop.gate_signal_lookup_raises := false;
     hosted_trading_loop.gate_position_count_raises := false;
     hosted_trading_loop.gate_recent_trade_raises := false;
     hosted_trading_loop.gate_user_state := Exchange.StateRaised "HTTP 429";
     hosted_trading_loop.gate_open_orders := Exchange.OrdersRaised "HTTP 429";
     hosted_trading_loop.equity_user_state := Exchange.StateRaised "HTTP 429";
     hosted_trading_loop.entry_exchange := fun _ => filled 101 0.5 999.99;
     hosted_trading_loop.tp_exchange := fun _ => resting 102;
     hosted_trading_loop.sl_exchange := fun _ => resting 103;
     hosted_trading_loop.cancel_exchange := fun _ => order_utils.CancelReplied "ok" "{...}";
     hosted_trading_loop.close_user_state := account 1000;
     hosted_trading_loop.close_all_mids := Exchange.MidsReplied (Some 0.5%float);
     hosted_trading_loop.close_exchange := filled 104 0.49 999.99;
     hosted_trading_loop.record_signal_lookup_raises := false;
     hosted_trading_loop.record_insert_raises := false;
     hosted_trading_loop.record_billing_raises := false |}.

(** C9 as stated fails when the exchange cannot be read at all.  The
    position query and the open-orders query of the gate both raise, so
    the gate answers [(False, None)]; the equity query raises too, the
    equity is read as 0, and the executor does not place the entry order:
    it returns [False], the subscriber is skipped, and the delivery stays
    acknowledged. *)
Lemma safety_gate_as_stated_counterexample :
  let gate :=
    hosted_trading_loop.check_any_open_positions_or_orders
      (hosted_trading_loop.acknowledge_signal (trading_store false false) (minutes 1) 10)
      outage_env "0xA11CE" "nk_alice..." 1 "sig-ada" in
  let out :=
    hosted_trading_loop.execute_trade 50 [] (fun p => Some p) trading_world outage_env
      ada_row ada_row in
  (In (EvUserState "0xA11CE" true) (fst gate)
   /\ In (EvOpenOrders "0xA11CE" true) (fst gate)
   /\ snd gate = (false, None))
  /\ snd out = hosted_trading_loop.Returned false
  /\ filter is_order (snd (fst out)) = []
  /\ map Store.sd_acknowledged
       (Store.signal_deliveries (hosted_trading_loop.db (fst (fst out)))) = [true].
Proof.
  cbv zeta. split; [split; [|split]|split; [|split]]; vm_compute; auto 8.
Qed.

(* ------------------------------------------------------------------ *)
(** ** The batched fetch *)
(* ------------------------------------------------------------------ *)

Section Fetch.

Import Store hosted_trading_loop.

(** The predicate of the specification: subscriber active, credentials
    configured, access granted with no unresolved billing block, delivery
    not yet acknowledged, delivery not marked failed, signal younger than
    the expiry window of 15 minutes. *)
Definition pending_eligible (now : Timestamp) (r : User * Delivery * Signal) : bool :=
  let '(u, sd, s) := r in
  u_agent_active u
  && u_credentials_set u
  && (u_access_granted u && invoice_not_overdue now u)
  && negb (sd_acknowledged sd)
  && negb (sd_failed sd)
  && (now - s_created_at s <? minutes 15)%Z.

Lemma joined_spec db u sd s :
  In (u, sd, s) (joined db) <->
  In u (users db) /\ In sd (signal_deliveries db) /\ In s (signals db)
  /\ sd_user_id sd = u_id u /\ sd_signal_id sd = s_id s.
Proof.
  unfold joined. rewrite in_flat_map. split.
  - intros (u' & Hu & H). apply in_flat_map in H as (sd' & Hsd & H).
    destruct (sd_user_id sd' =? u_id u')%Z eqn:E1; [|destruct H].
    apply in_flat_map in H as (s' & Hs & H).
    destruct (sd_signal_id sd' =? s_id s')%Z eqn:E2; [|destruct H].
    destruct H as [H|[]]. injection H as -> -> ->.
    apply Z.eqb_eq in E1, E2. auto.
  - intros (Hu & Hsd & Hs & E1 & E2). exists u. split; [assumption|].
    apply in_flat_map. exists sd. split; [assumption|].
    apply Z.eqb_eq in E1. rewrite E1.
    apply in_flat_map. exists s. split; [assumption|].
    apply Z.eqb_eq in E2. rewrite E2. left. reflexivity.
Qed.

Lemma insert_desc_in r x l : In x (insert_desc r l) <-> x = r \/ In x l.
Proof.
  induction l as [|y l IH]; cbn.
  - intuition.
  - destruct (signal_created_at y <? signal_created_at r)%Z; cbn.
    + intuition.
    + rewrite IH. intuition.
Qed.

Lemma order_by_created_desc_in x l : In x (order_by_created_desc l) <-> In x l.
Proof.
  unfold order_by_created_desc. induction l as [|y l IH]; cbn.
  - tauto.
  - rewrite insert_desc_in, IH. intuition.
Qed.

(** The fetch returns exactly the joined rows that pass its WHERE clause. *)
Lemma fetch_spec db now r :
  In r (get_pending_signals_batched db now) <->
  exists u sd s,
    In (u, sd, s) (joined db) /\ pending_where now (u, sd, s) = true
    /\ r = select_row (u, sd, s).
Proof.
  unfold get_pending_signals_batched.
  rewrite order_by_created_desc_in, in_map_iff. split.
  - intros ([[u sd] s] & <- & H). apply filter_In in H as [Hj Hw]. eauto 6.
  - intros (u & sd & s & Hj & Hw & ->). exists (u, sd, s). split; [reflexivity|].
    apply filter_In. auto.
Qed.

(** The WHERE clause is the predicate of the specification without its
    test of the failed flag. *)
Lemma pending_where_ignores_failed now u sd s :
  pending_eligible now (u, sd, s) = pending_where now (u, sd, s) && negb (sd_failed sd).
Proof.
  unfold pending_eligible, pending_where.
  replace (now - s_created_at s <? minutes 15)%Z
    with (now - minutes 15 <? s_created_at s)%Z.
  - destruct (u_agent_active u), (u_credentials_set u), (u_access_granted u),
      (invoice_not_overdue now u), (sd_acknowledged sd), (sd_failed sd),
      (now - minutes 15 <? s_created_at s)%Z; reflexivity.
  - destruct (now - minutes 15 <? s_created_at s)%Z eqn:E1;
      destruct (now - s_created_at s <? minutes 15)%Z eqn:E2; try reflexivity;
      rewrite ?Z.ltb_lt, ?Z.ltb_ge in *; lia.
Qed.

End Fetch.

(** One poll, one minute after the broadcast, with nothing failing. *)
Definition calm_tick : hosted_trading_loop.TickEnv :=
  {| hosted_trading_loop.tick_now := minutes 1;
     hosted_trading_loop.fetch_raises := None;
     hosted_trading_loop.shuffle := fun l => l;
     hosted_trading_loop.trade_env := fun _ => calm_env |}.

(** C4, at the failing input: the delivery is marked failed and not
    acknowledged (as /api/mark-signal-failed leaves it).  It is outside
    the predicate of the specification, and yet the fetch returns it and
    the poll hands it to the executor, which acknowledges it and places
    the three orders of the bracket. *)
Theorem failed_delivery_is_fetched :
  pending_eligible (minutes 1) (alice, ada_delivery false true, ada_signal) = false
  /\ hosted_trading_loop.get_pending_signals_batched (trading_store false true) (minutes 1)
     = [ada_row]
  /\ filter (fun e => negb (is_order e))
       (firstn 1
          (snd (fst (hosted_trading_loop.poll_and_execute 50 [] (fun p => Some p)
                       {| hosted_trading_loop.db := trading_store false true;
                          hosted_trading_loop.active_exchanges := [] |}
                       calm_tick))))
     = [EvDb (DbAcknowledge 10) false]
  /\ count_orders
       (snd (fst (hosted_trading_loop.poll_and_execute 50 [] (fun p => Some p)
                    {| hosted_trading_loop.db := trading_store false true;
                       hosted_trading_loop.active_exchanges := [] |}
                    calm_tick)))
     = 3%nat.
Proof. repeat split; vm_compute; reflexivity. Qed.

(* ------------------------------------------------------------------ *)
(** ** Bracket atomicity *)
(* ------------------------------------------------------------------ *)

Section Bracket.

Import order_utils Store Exchange hosted_trading_loop.

Variable SLIPPAGE_BPS : Z.
Variable asset_meta : list (string * nat).
Variable round_price : float -> option float.

(** An order is confirmed placed when one of the three attempts at it
    returns: the result of the first attempt that does. *)
Definition confirmed (body : OrderReply -> OrderResult + string)
           (exchange : nat -> OrderReply) : option OrderResult :=
  match body (exchange 1%nat) with
  | inl r => Some r
  | inr _ =>
      match body (exchange 2%nat) with
      | inl r => Some r
      | inr _ =>
          match body (exchange 3%nat) with
          | inl r => Some r
          | inr _ => None
          end
      end
  end.

Lemma place_entry_confirmed exchange coin is_buy q px email key :
  snd (place_entry_order_with_retry exchange coin is_buy q px email key)
  = confirmed entry_attempt exchange.
Proof.
  unfold place_entry_order_with_retry, confirmed. rewrite place_loop_unrolled.
  destruct (entry_attempt (exchange 1%nat)); [reflexivity|].
  destruct (entry_attempt (exchange 2%nat)); [reflexivity|].
  destruct (entry_attempt (exchange 3%nat)); reflexivity.
Qed.

Lemma place_tp_confirmed exchange coin is_buy q px email key :
  snd (place_tp_order_with_retry exchange coin is_buy q px email key)
  = confirmed (trigger_attempt "TP") exchange.
Proof.
  unfold place_tp_order_with_retry, confirmed. rewrite place_loop_unrolled.
  destruct (trigger_attempt "TP" (exchange 1%nat)); [reflexivity|].
  destruct (trigger_attempt "TP" (exchange 2%nat)); [reflexivity|].
  destruct (trigger_attempt "TP" (exchange 3%nat)); reflexivity.
Qed.

Lemma place_sl_confirmed exchange coin is_buy q px email key :
  snd (place_sl_order_with_retry exchange coin is_buy q px email key)
  = confirmed (trigger_attempt "SL") exchange.
Proof.
  unfold place_sl_order_with_retry, confirmed. rewrite place_loop_unrolled.
  destruct (trigger_attempt "SL" (exchange 1%nat)); [reflexivity|].
  destruct (trigger_attempt "SL" (exchange 2%nat)); [reflexivity|].
  destruct (trigger_attempt "SL" (exchange 3%nat)); reflexivity.
Qed.

(** The three legs of a bracket, as the exchange answered them. *)
Definition legs_confirmed (env : TradeEnv) (b : Bracket) : Prop :=
  confirmed entry_attempt (entry_exchange env) = Some (b_entry_order b)
  /\ confirmed (trigger_attempt "TP") (tp_exchange env) = Some (b_tp_order b)
  /\ confirmed (trigger_attempt "SL") (sl_exchange env) = Some (b_sl_order b).

(** [place_orders], one leg after the other.  The three placements are
    named by what they return. *)
Lemma place_orders_cases env user signal wallet coin q :
  let is_buy := String.eqb (Py.upper (action signal)) "BUY" in
  forall bps entry_limit_price,
    Py.int_truediv SLIPPAGE_BPS 10000 = Some bps ->
    round_price (entry_price signal * (if is_buy then 1 + bps else 1 - bps))%float
    = Some entry_limit_price ->
    let t_entry := fst (place_entry_order_with_retry (entry_exchange env) coin is_buy q
                          entry_limit_price (email user) (api_key user)) in
    match confirmed entry_attempt (entry_exchange env) with
    | None =>
        place_orders SLIPPAGE_BPS round_price env user signal wallet coin q
        = (t_entry ++ [log_error_to_db (api_key user) "ENTRY_ORDER_FAILED"
                         "Entry failed after all retries"], None)
    | Some entry_order =>
        match round_price (take_profit signal) with
        | None =>
            snd (place_orders SLIPPAGE_BPS round_price env user signal wallet coin q) = None
        | Some tp_price =>
            let t_tp := fst (place_tp_order_with_retry (tp_exchange env) coin (negb is_buy)
                               q tp_price (email user) (api_key user)) in
            match confirmed (trigger_attempt "TP") (tp_exchange env) with
            | None =>
                place_orders SLIPPAGE_BPS round_price env user signal wallet coin q
                = ((t_entry ++ [EvSleep 2%float]) ++ t_tp
                   ++ _emergency_close_position round_price env wallet coin (negb is_buy) q
                        (email user) (api_key user) (id entry_order)
                        "TP order failed after all retries", None)
            | Some tp_order =>
                match round_price (stop_loss signal) with
                | None =>
                    snd (place_orders SLIPPAGE_BPS round_price env user signal wallet coin q)
                    = None
                | Some sl_price =>
                    let t_sl := fst (place_sl_order_with_retry (sl_exchange env) coin
                                       (negb is_buy) q sl_price (email user) (api_key user)) in
                    match confirmed (trigger_attempt "SL") (sl_exchange env) with
                    | None =>
                        place_orders SLIPPAGE_BPS round_price env user signal wallet coin q
                        = (((t_entry ++ [EvSleep 2%float]) ++ t_tp) ++ t_sl
                           ++ match id tp_order with
                              | Some oid =>
                                  fst (cancel_order_with_retry (cancel_exchange env) coin oid
                                         "Orphaned TP" "unknown" "unknown" true)
                              | None => []
                              end
                           ++ _emergency_close_position round_price env wallet coin
                                (negb is_buy) q (email user) (api_key user)
                                (id entry_order) "SL order failed after all retries", None)
                    | Some sl_order =>
                        exists b,
                          place_orders SLIPPAGE_BPS round_price env user signal wallet coin q
                          = (((t_entry ++ [EvSleep 2%float]) ++ t_tp) ++ t_sl, Some b)
                          /\ b_entry_order b = entry_order
                          /\ b_tp_order b = tp_order
                          /\ b_sl_order b = sl_order
                    end
                end
            end
        end
    end.
Proof.
  cbv zeta. intros bps entry_limit_price Hbps Hpx.
  unfold place_orders. rewrite Hbps, Hpx.
  rewrite <- (place_entry_confirmed (entry_exchange env) coin
                (String.eqb (Py.upper (action signal)) "BUY") q entry_limit_price
                (email user) (api_key user)).
  destruct (place_entry_order_with_retry _ _ _ _ _ _ _) as [t_entry [entry_order|]];
    cbn [fst snd]; [|reflexivity].
  destruct (round_price (take_profit signal)) as [tp_price|]; [|reflexivity].
  rewrite <- (place_tp_confirmed (tp_exchange env) coin
                (negb (String.eqb (Py.upper (action signal)) "BUY")) q tp_price
                (email user) (api_key user)).
  destruct (place_tp_order_with_retry _ _ _ _ _ _ _) as [t_tp [tp_order|]];
    cbn [fst snd]; [|reflexivity].
  destruct (round_price (stop_loss signal)) as [sl_price|]; [|reflexivity].
  rewrite <- (place_sl_confirmed (sl_exchange env) coin
                (negb (String.eqb (Py.upper (action signal)) "BUY")) q sl_price
                (email user) (api_key user)).
  destruct (place_sl_order_with_retry _ _ _ _ _ _ _) as [t_sl [sl_order|]];
    cbn [fst snd]; [|reflexivity].
  eexists. split; [reflexivity|]. cbn. auto.
Qed.

Lemma place_orders_some env user signal wallet coin q b :
  snd (place_orders SLIPPAGE_BPS round_price env user signal wallet coin q) = Some b ->
  legs_confirmed env b.
Proof.
  intros H.
  destruct (Py.int_truediv SLIPPAGE_BPS 10000) as [bps|] eqn:Hbps;
    [|unfold place_orders in H; rewrite Hbps in H; discriminate].
  destruct (round_price (entry_price signal
                         * (if String.eqb (Py.upper (action signal)) "BUY"
                            then 1 + bps else 1 - bps))%float)
    as [px|] eqn:Hpx;
    [|unfold place_orders in H; rewrite Hbps, Hpx in H; discriminate].
  pose proof (place_orders_cases env user signal wallet coin q bps px Hbps Hpx) as C.
  cbv zeta in C. unfold legs_confirmed.
  destruct (confirmed entry_attempt (entry_exchange env)) as [e|];
    [|rewrite C in H; discriminate].
  destruct (round_price (take_profit signal)) as [tp_price|];
    [|rewrite C in H; discriminate].
  destruct (confirmed (trigger_attempt "TP") (tp_exchange env)) as [tp|];
    [|rewrite C in H; discriminate].
  destruct (round_price (stop_loss signal)) as [sl_price|];
    [|rewrite C in H; discriminate].
  destruct (confirmed (trigger_attempt "SL") (sl_exchange env)) as [sl|];
    [|rewrite C in H; discriminate].
  destruct C as (b' & C & <- & <- & <-). rewrite C in H. injection H as ->. auto.
Qed.

Lemma size_and_place_some env user signal wallet b :
  snd (size_and_place SLIPPAGE_BPS asset_meta round_price env user signal wallet) = Some b ->
  legs_confirmed env b.
Proof.
  unfold size_and_place, trade_execution_error.
  repeat break_match; cbn [snd]; try discriminate.
  intros [= ->].
  match goal with
  | H : place_orders _ _ _ _ _ _ ?c ?q = _ |- _ =>
      apply (place_orders_some env user signal wallet c q); rewrite H; reflexivity
  end.
Qed.

Lemma early_acknowledgment_rows db env signal :
  open_positions (fst (fst (early_acknowledgment db env signal))) = open_positions db.
Proof.
  unfold early_acknowledgment.
  destruct (delivery_id signal =? 0)%Z; [reflexivity|].
  destruct (ack_raises env); reflexivity.
Qed.

(** The record appends one row, unless its lookup or its INSERT raises. *)
Lemma record_open_position_rows db env user signal b :
  (record_signal_lookup_raises env = false
   /\ record_insert_raises env = false
   /\ open_positions (fst (record_open_position db env user signal b))
      = open_positions db ++ [new_position db env user signal b])
  \/ ((record_signal_lookup_raises env = true \/ record_insert_raises env = true)
      /\ open_positions (fst (record_open_position db env user signal b))
         = open_positions db).
Proof.
  unfold record_open_position.
  destruct (record_signal_lookup_raises env); [right; auto|].
  destruct (record_insert_raises env); [right; auto|].
  left. destruct (record_billing_raises env); auto.
Qed.

Lemma app_one_neq {A} (l : list A) (x : A) : l ++ [x] <> l.
Proof.
  intros H. apply (f_equal (@List.length A)) in H.
  rewrite length_app in H. cbn in H. lia.
Qed.

(** A row appears only for a bracket whose three legs were confirmed, and
    only when the store took the INSERT. *)
Lemma execute_trade_rows w env user signal :
  let out := execute_trade SLIPPAGE_BPS asset_meta round_price w env user signal in
  open_positions (db (fst (fst out))) = open_positions (db w)
  \/ (exists row b,
        open_positions (db (fst (fst out))) = open_positions (db w) ++ [row]
        /\ legs_confirmed env b
        /\ op_entry_order_id row = id (b_entry_order b)
        /\ op_tp_order_id row = id (b_tp_order b)
        /\ op_sl_order_id row = id (b_sl_order b)
        /\ op_status row = "open"
        /\ record_signal_lookup_raises env = false
        /\ record_insert_raises env = false
        /\ snd out = Returned true).
Proof.
  cbv zeta. unfold execute_trade.
  pose proof (early_acknowledgment_rows (db w) env signal) as Hack.
  destruct (early_acknowledgment (db w) env signal) as [[db1 t_ack] ack_raised].
  cbn [fst snd] in Hack.
  destruct ack_raised; [left; exact Hack|].
  destruct (safety_check _ env user signal) as [[cache t_gate] [wallet|]];
    [|left; exact Hack].
  destruct (size_and_place _ _ _ env user signal wallet) as [t_place [b|]] eqn:Ep;
    [|left; exact Hack].
  pose proof (size_and_place_some env user signal wallet b) as Hlegs.
  rewrite Ep in Hlegs. specialize (Hlegs eq_refl).
  pose proof (record_open_position_rows db1 env user signal b) as Hrec.
  destruct (record_open_position db1 env user signal b) as [db2 t_rec].
  cbn [fst snd db] in *.
  destruct Hrec as [(H1 & H2 & Hrows) | (_ & Hrows)].
  - right. exists (new_position db1 env user signal b), b.
    rewrite Hrows, Hack. repeat split; auto; apply Hlegs.
  - left. rewrite Hrows. exact Hack.
Qed.

(** C2 (amended).  (1) [execute_trade] adds at most one Open Position
    row, with status "open" and the three order ids of the bracket, and
    only when the entry, the take-profit and the stop-loss order were all
    confirmed placed and neither the signal lookup nor the INSERT of the
    record raised.  (2) So a leg that fails all its attempts leaves no
    row.  (3) When the three orders are placed the trade is reported
    executed; the row is there if the store takes the INSERT, and is
    missing if the lookup or the INSERT raises.  (4) When the take-profit
    leg fails after a confirmed entry, the emergency close runs next; when
    the stop-loss leg fails, the orphaned take-profit order is cancelled
    first (if its id is known), then the emergency close runs.  (5) The
    emergency close ends with an alert of level "error" (subject prefix
    CRITICAL) whose text reports the close as SUCCESSFUL or FAILED.
    (6) The emergency close sends exactly one order, a reduce-only IOC
    order for the quantity on the closing side at the rounded price 2%
    beyond the mid, when the account state is answered, the mid price is
    answered and positive, and the limit price can be rounded; it sends no
    order when the state query raises, when the mid query raises, or when
    the mid of the coin is missing or not positive. *)
Theorem bracket_atomicity :
  (forall (w : World) (env : TradeEnv) (user signal : PendingRow),
      let out := execute_trade SLIPPAGE_BPS asset_meta round_price w env user signal in
      open_positions (db (fst (fst out))) = open_positions (db w)
      \/ (exists row b,
            open_positions (db (fst (fst out))) = open_positions (db w) ++ [row]
            /\ legs_confirmed env b
            /\ op_entry_order_id row = id (b_entry_order b)
            /\ op_tp_order_id row = id (b_tp_order b)
            /\ op_sl_order_id row = id (b_sl_order b)
            /\ op_status row = "open"
            /\ record_signal_lookup_raises env = false
            /\ record_insert_raises env = false
            /\ snd out = Returned true))
  /\ (forall (w : World) (env : TradeEnv) (user signal : PendingRow),
        confirmed entry_attempt (entry_exchange env) = None
        \/ confirmed (trigger_attempt "TP") (tp_exchange env) = None
        \/ confirmed (trigger_attempt "SL") (sl_exchange env) = None ->
        open_positions
          (db (fst (fst (execute_trade SLIPPAGE_BPS asset_meta round_price w env
                           user signal))))
        = open_positions (db w))
  /\ (forall (w : World) (env : TradeEnv) (user signal : PendingRow)
             (cache : list (string * string)) (t_gate : Trace) (wallet : string)
             (b : Bracket),
        let out := execute_trade SLIPPAGE_BPS asset_meta round_price w env user signal in
        ack_raises env = false ->
        safety_check
          {| db := fst (fst (early_acknowledgment (db w) env signal));
             active_exchanges := active_exchanges w |} env user signal
        = (cache, t_gate, Some wallet) ->
        snd (size_and_place SLIPPAGE_BPS asset_meta round_price env user signal wallet)
        = Some b ->
        snd out = Returned true
        /\ (record_signal_lookup_raises env = false ->
            record_insert_raises env = false ->
            exists row,
              open_positions (db (fst (fst out))) = open_positions (db w) ++ [row])
        /\ (record_signal_lookup_raises env = true \/ record_insert_raises env = true ->
            open_positions (db (fst (fst out))) = open_positions (db w)))
  /\ (forall (env : TradeEnv) (user signal : PendingRow) (wallet coin : string)
             (q bps px tp_price : float) (e : OrderResult),
        let is_buy := String.eqb (Py.upper (action signal)) "BUY" in
        let t_entry := fst (place_entry_order_with_retry (entry_exchange env) coin is_buy q
                              px (email user) (api_key user)) in
        let t_tp := fst (place_tp_order_with_retry (tp_exchange env) coin (negb is_buy)
                           q tp_price (email user) (api_key user)) in
        Py.int_truediv SLIPPAGE_BPS 10000 = Some bps ->
        round_price (entry_price signal * (if is_buy then 1 + bps else 1 - bps))%float
        = Some px ->
        confirmed entry_attempt (entry_exchange env) = Some e ->
        round_price (take_profit signal) = Some tp_price ->
        (confirmed (trigger_attempt "TP") (tp_exchange env) = None ->
         place_orders SLIPPAGE_BPS round_price env user signal wallet coin q
         = ((t_entry ++ [EvSleep 2%float]) ++ t_tp
            ++ _emergency_close_position round_price env wallet coin (negb is_buy) q
                 (email user) (api_key user) (id e)
                 "TP order failed after all retries", None))
        /\ (forall (tp : OrderResult) (sl_price : float),
              confirmed (trigger_attempt "TP") (tp_exchange env) = Some tp ->
              round_price (stop_loss signal) = Some sl_price ->
              confirmed (trigger_attempt "SL") (sl_exchange env) = None ->
              place_orders SLIPPAGE_BPS round_price env user signal wallet coin q
              = (((t_entry ++ [EvSleep 2%float]) ++ t_tp)
                 ++ fst (place_sl_order_with_retry (sl_exchange env) coin (negb is_buy) q
                           sl_price (email user) (api_key user))
                 ++ match id tp with
                    | Some oid =>
                        fst (cancel_order_with_retry (cancel_exchange env) coin oid
                               "Orphaned TP" "unknown" "unknown" true)
                    | None => []
                    end
                 ++ _emergency_close_position round_price env wallet coin (negb is_buy) q
                      (email user) (api_key user) (id e)
                      "SL order failed after all retries", None)))
  /\ (forall (env : TradeEnv) (wallet coin email key reason : string)
             (is_buy_to_close : bool) (q : float) (entry : option Z),
        exists (t : Trace) (ok : bool) (details : list (string * Detail)),
          _emergency_close_position round_price env wallet coin is_buy_to_close q
            email key entry reason
          = t ++ [EvNotifyAdmin "🚨 DANGER: Bracket Order Incomplete (HL)" details "error";
                  log_error_to_db key "EMERGENCY_CLOSE"
                    (reason ++ ". Close: " ++ (if ok then "OK" else "FAILED"))%string]
          /\ emergency_close_order round_price env wallet coin is_buy_to_close q = (t, ok)
          /\ In ("Error",
                 DText (Py.take 500
                          (reason ++ " - Emergency close "
                           ++ (if ok then "SUCCESSFUL" else "FAILED"))%string))
                details
          /\ subject_prefix "error" = "🚨 CRITICAL")
  /\ (forall (env : TradeEnv) (wallet coin email key reason : string)
             (is_buy_to_close : bool) (q : float) (entry : option Z),
        let sent :=
          filter is_order
            (_emergency_close_position round_price env wallet coin is_buy_to_close q
               email key entry reason) in
        (forall (state : option UserState) (m px : float),
            close_user_state env = StateReplied state ->
            close_all_mids env = MidsReplied (Some m) ->
            PrimFloat.ltb 0%float m = true ->
            round_price (if is_buy_to_close then m * (1 + 0.02) else m * (1 - 0.02))%float
            = Some px ->
            sent = [EvOrder coin is_buy_to_close q px LimitIoc true])
        /\ (forall msg, close_user_state env = StateRaised msg -> sent = [])
        /\ (forall msg, close_all_mids env = MidsRaised msg -> sent = [])
        /\ (forall mid,
              close_all_mids env = MidsReplied mid ->
              PrimFloat.ltb 0%float (match mid with Some m => m | None => 0%float end)
              = false ->
              sent = [])).
Proof.
  split; [exact execute_trade_rows|].
  split.
  { intros w env user signal Hfail.
    destruct (execute_trade_rows w env user signal)
      as [H | (row & b & _ & (He & Ht & Hs) & _)]; [exact H|].
    exfalso. destruct Hfail as [H | [H | H]]; congruence. }
  split.
  { intros w env user signal cache t_gate wallet b. cbv zeta.
    intros Hack Hgate Hplace. unfold execute_trade.
    pose proof (early_acknowledgment_rows (db w) env signal) as Hrows0.
    destruct (early_acknowledgment (db w) env signal) as [[db1 t_ack] ack_raised] eqn:Ea.
    assert (ack_raised = false) as ->.
    { unfold early_acknowledgment in Ea. rewrite Hack in Ea.
      destruct (delivery_id signal =? 0)%Z; injection Ea as _ _ <-; reflexivity. }
    cbn [fst snd] in *. rewrite Hgate.
    destruct (size_and_place _ _ _ env user signal wallet) as [t_place bracket].
    cbn [snd] in Hplace. subst bracket.
    pose proof (record_open_position_rows db1 env user signal b) as Hrec.
    destruct (record_open_position db1 env user signal b) as [db2 t_rec].
    cbn [fst snd db] in *. split; [reflexivity|]. split.
    - intros H1 H2. destruct Hrec as [(_ & _ & Hrows) | ([H | H] & _)]; try congruence.
      eexists. rewrite Hrows, Hrows0. reflexivity.
    - intros Hraise. destruct Hrec as [(H1 & H2 & _) | (_ & Hrows)].
      + destruct Hraise; congruence.
      + rewrite Hrows. exact Hrows0. }
  split.
  { intros env user signal wallet coin q bps px tp_price e. cbv zeta.
    intros Hbps Hpx He Htp.
    pose proof (place_orders_cases env user signal wallet coin q bps px Hbps Hpx) as C.
    cbv zeta in C. rewrite He, Htp in C. split.
    - intros Hfail. rewrite Hfail in C. exact C.
    - intros tp sl_price Hok Hsl Hfail. rewrite Hok, Hsl, Hfail in C. exact C. }
  split.
  { intros env wallet coin email key reason is_buy_to_close q entry.
    unfold _emergency_close_position.
    destruct (emergency_close_order round_price env wallet coin is_buy_to_close q)
      as [t ok].
    exists t, ok. eexists. split; [reflexivity|]. split; [reflexivity|].
    split; [|reflexivity].
    cbn. do 7 right. left. reflexivity. }
  intros env wallet coin email key reason is_buy_to_close q entry. cbv zeta.
  unfold _emergency_close_position, emergency_close_order, close_report.
  split; [|split; [|split]].
  - intros state m px Hstate Hmids Hm Hpx. rewrite Hstate, Hmids, Hm. cbv zeta.
    rewrite Hpx. destruct (close_exchange env); reflexivity.
  - intros msg Hstate. rewrite Hstate. reflexivity.
  - intros msg Hmids. rewrite Hmids. destruct (close_user_state env); reflexivity.
  - intros mid Hmids Hm. rewrite Hmids, Hm.
    destruct (close_user_state env); reflexivity.
Qed.

End Bracket.

(** A bracket whose three orders rest while the store refuses the INSERT
    of the record, and one whose take-profit order is refused three times. *)
Definition insert_fails_env : hosted_trading_loop.TradeEnv :=
  sample_env false false true (fun _ => resting 102) (fun _ => resting 103).

Definition tp_fails_env : hosted_trading_loop.TradeEnv :=
  sample_env false false false (fun _ => rejected) (fun _ => resting 103).

Lemma bracket_atomicity_witness :
  (exists row,
      Store.open_positions
        (hosted_trading_loop.db
           (fst (fst (hosted_trading_loop.execute_trade 50 [] (fun p => Some p)
                        trading_world calm_env ada_row ada_row))))
      = Store.open_positions (hosted_trading_loop.db trading_world) ++ [row])
  /\ Store.open_positions
       (hosted_trading_loop.db
          (fst (fst (hosted_trading_loop.execute_trade 50 [] (fun p => Some p)
                       trading_world tp_fails_env ada_row ada_row))))
     = Store.open_positions (hosted_trading_loop.db trading_world)
  /\ filter is_order
       (hosted_trading_loop._emergency_close_position (fun p => Some p) tp_fails_env
          "0xA11CE" "ADA" false 999.99 "alice@example.org" "nk_alice" (Some 101%Z)
          "TP order failed after all retries")
     = [EvOrder "ADA" false 999.99 (0.5 * (1 - 0.02)) LimitIoc true].
Proof.
  destruct (bracket_atomicity 50 [] (fun p => Some p))
    as (_ & Hfail & Hdone & _ & _ & Hclose).
  split; [|split;
           [|refine (proj1 (Hclose tp_fails_env "0xA11CE" "ADA" "alice@example.org"
                              "nk_alice" "TP order failed after all retries" false
                              999.99%float (Some 101%Z))
                       (Some {| Exchange.assetPositions := Some [];
                                Exchange.accountValue := Some 1000%float |})
                       0.5%float (0.5 * (1 - 0.02))%float _ _ _ _);
             reflexivity]].
  - destruct (Hdone trading_world calm_env ada_row ada_row
                [("nk_alice", "0xA11CE")]
                (fst (hosted_trading_loop.check_any_open_positions_or_orders
                        (hosted_trading_loop.acknowledge_signal
                           (trading_store false false) (minutes 1) 10)
                        calm_env "0xA11CE" "nk_alice..." 1 "sig-ada"))
                "0xA11CE"
                (match snd (hosted_trading_loop.size_and_place 50 [] (fun p => Some p)
                              calm_env ada_row ada_row "0xA11CE") with
                 | Some b => b
                 | None =>
                     {| hosted_trading_loop.b_coin := "";
                        hosted_trading_loop.b_side := "";
                        hosted_trading_loop.b_quantity := 0;
                        hosted_trading_loop.b_leverage := 0;
                        hosted_trading_loop.b_entry_order :=
                          {| order_utils.id := None; order_utils.avgPx := None;
                             order_utils.totalSz := None;
                             order_utils.raw := rejected |};
                        hosted_trading_loop.b_tp_order :=
                          {| order_utils.id := None; order_utils.avgPx := None;
                             order_utils.totalSz := None;
                             order_utils.raw := rejected |};
                        hosted_trading_loop.b_sl_order :=
                          {| order_utils.id := None; order_utils.avgPx := None;
                             order_utils.totalSz := None;
                             order_utils.raw := rejected |};
                        hosted_trading_loop.b_tp_price := 0;
                        hosted_trading_loop.b_sl_price := 0 |}
                 end)
                eq_refl eq_refl eq_refl) as (_ & Hrow & _).
    exact (Hrow eq_refl eq_refl).
  - apply (Hfail trading_world tp_fails_env ada_row ada_row).
    right. left. reflexivity.
Defined.

(** C2 as stated fails when the store refuses the INSERT: the entry, the
    take-profit and the stop-loss order are all confirmed placed, the
    trade is reported executed, and no Open Position row is recorded. *)
Lemma bracket_as_stated_counterexample :
  confirmed order_utils.entry_attempt
    (hosted_trading_loop.entry_exchange insert_fails_env) <> None
  /\ confirmed (order_utils.trigger_attempt "TP")
       (hosted_trading_loop.tp_exchange insert_fails_env) <> None
  /\ confirmed (order_utils.trigger_attempt "SL")
       (hosted_trading_loop.sl_exchange insert_fails_env) <> None
  /\ count_orders
       (snd (fst (hosted_trading_loop.execute_trade 50 [] (fun p => Some p)
                    trading_world insert_fails_env ada_row ada_row))) = 3%nat
  /\ snd (hosted_trading_loop.execute_trade 50 [] (fun p => Some p)
            trading_world insert_fails_env ada_row ada_row)
     = hosted_trading_loop.Returned true
  /\ Store.open_positions
       (hosted_trading_loop.db
          (fst (fst (hosted_trading_loop.execute_trade 50 [] (fun p => Some p)
                       trading_world insert_fails_env ada_row ada_row))))
     = [].
Proof. repeat split; try discriminate; vm_compute; reflexivity. Qed.

(* ------------------------------------------------------------------ *)
(** ** At-most-once execution *)
(* ------------------------------------------------------------------ *)

Section AtMostOnce.

Import order_utils Store Exchange hosted_trading_loop.

Variable SLIPPAGE_BPS : Z.
Variable asset_meta : list (string * nat).
Variable round_price : float -> option float.

(** The primary keys and the unique column of follower_models.py; a
    serial key starts at 1. *)
Definition keys_unique (db : Store.t) : Prop :=
  NoDup (map u_id (users db))
  /\ NoDup (map s_id (signals db))
  /\ NoDup (map s_signal_id (signals db))
  /\ NoDup (map sd_id (signal_deliveries db))
  /\ ~ In 0%Z (map sd_id (signal_deliveries db)).

(** What the loop never touches: the signals and the keys of the
    subscribers and of the deliveries. *)
Definition same_keys (db db' : Store.t) : Prop :=
  signals db' = signals db
  /\ map u_id (users db') = map u_id (users db)
  /\ map sd_id (signal_deliveries db') = map sd_id (signal_deliveries db).

(** A delivery of signal [s] to subscriber [u] that is not acknowledged. *)
Definition awaits (u s : Z) (sd : Delivery) : bool :=
  (sd_user_id sd =? u)%Z && (sd_signal_id sd =? s)%Z && negb (sd_acknowledged sd).

Definition unacknowledged (db : Store.t) (u s : Z) : nat :=
  List.length (filter (awaits u s) (signal_deliveries db)).

(** The Open Position rows of a pair, plus the deliveries of the pair that
    may still be executed. *)
Definition budget (db : Store.t) (u s : Z) : nat :=
  (count_positions db u s + unacknowledged db u s)%nat.

(** A fetched row whose delivery is still unacknowledged in the store. *)
Definition owed (db : Store.t) (item : PendingRow) : Prop :=
  delivery_id item <> 0%Z
  /\ exists sd,
      In sd (signal_deliveries db) /\ sd_id sd = delivery_id item
      /\ sd_acknowledged sd = false /\ sd_user_id sd = user_id item
      /\ signal_int_id db (signal_id item) = Some (sd_signal_id sd).

Lemma same_keys_refl db : same_keys db db.
Proof. repeat split. Qed.

Lemma same_keys_trans db1 db2 db3 :
  same_keys db1 db2 -> same_keys db2 db3 -> same_keys db1 db3.
Proof.
  intros (A1 & A2 & A3) (B1 & B2 & B3). repeat split; congruence.
Qed.

Lemma keys_unique_same db db' : keys_unique db -> same_keys db db' -> keys_unique db'.
Proof.
  intros (K1 & K2 & K3 & K4 & K5) (A1 & A2 & A3).
  unfold keys_unique. rewrite A1, A2, A3. auto.
Qed.

Lemma acknowledge_id now d sd : sd_id (acknowledge now d sd) = sd_id sd.
Proof. unfold acknowledge. destruct (sd_id sd =? d)%Z; reflexivity. Qed.

Lemma acknowledge_other now d sd : sd_id sd <> d -> acknowledge now d sd = sd.
Proof.
  intros H. unfold acknowledge. apply Z.eqb_neq in H. rewrite H. reflexivity.
Qed.

Lemma acknowledge_ids now d l : map sd_id (map (acknowledge now d) l) = map sd_id l.
Proof.
  rewrite map_map. apply map_ext. intros sd. apply acknowledge_id.
Qed.

Lemma awaits_acknowledge now d u s sd :
  awaits u s (acknowledge now d sd)
  = if (sd_id sd =? d)%Z then false else awaits u s sd.
Proof.
  unfold acknowledge, awaits. destruct (sd_id sd =? d)%Z; [|reflexivity].
  cbn. apply andb_false_r.
Qed.

(** The UPDATE takes deliveries out of the unacknowledged ones, and
    never puts one in. *)
Lemma acknowledge_awaits_le now d u s l :
  (List.length (filter (awaits u s) (map (acknowledge now d) l))
   <= List.length (filter (awaits u s) l))%nat.
Proof.
  induction l as [|sd l IH]; cbn; [lia|].
  rewrite awaits_acknowledge.
  destruct (sd_id sd =? d)%Z, (awaits u s sd); cbn; lia.
Qed.

Lemma acknowledge_awaits_lt now d u s l sd :
  In sd l -> sd_id sd = d -> awaits u s sd = true ->
  (S (List.length (filter (awaits u s) (map (acknowledge now d) l)))
   <= List.length (filter (awaits u s) l))%nat.
Proof.
  intros Hin Hid Haw. induction l as [|x l IH]; [destruct Hin|].
  cbn. rewrite awaits_acknowledge. destruct Hin as [-> | Hin].
  - apply Z.eqb_eq in Hid. rewrite Hid, Haw. cbn.
    pose proof (acknowledge_awaits_le now d u s l). lia.
  - specialize (IH Hin).
    destruct (sd_id x =? d)%Z, (awaits u s x); cbn; lia.
Qed.

Definition row_of (u s : Z) (p : OpenPosition) : bool :=
  (op_user_id p =? u)%Z
  && match op_signal_id p with
     | Some x => (x =? s)%Z
     | None => false
     end.

Lemma count_positions_same db db' u s :
  open_positions db' = open_positions db ->
  count_positions db' u s = count_positions db u s.
Proof. unfold count_positions. intros ->. reflexivity. Qed.

Lemma count_positions_app db db' row u s :
  open_positions db' = open_positions db ++ [row] ->
  count_positions db' u s
  = (count_positions db u s + if row_of u s row then 1 else 0)%nat.
Proof.
  unfold count_positions. intros ->. rewrite filter_app, length_app. cbn.
  fold (row_of u s row). destruct (row_of u s row); reflexivity.
Qed.

Lemma start_billing_cycle_id uid at_ u : u_id (start_billing_cycle uid at_ u) = u_id u.
Proof.
  unfold start_billing_cycle. destruct (u_id u =? uid)%Z; [|reflexivity].
  destruct (u_billing_cycle_start u); reflexivity.
Qed.

Lemma record_open_position_store db env user signal b :
  let db' := fst (record_open_position db env user signal b) in
  same_keys db db'
  /\ signal_deliveries db' = signal_deliveries db
  /\ (open_positions db' = open_positions db
      \/ open_positions db' = open_positions db ++ [new_position db env user signal b]).
Proof.
  unfold record_open_position.
  destruct (record_signal_lookup_raises env);
    [cbn; auto using same_keys_refl|].
  destruct (record_insert_raises env); [cbn; auto using same_keys_refl|].
  destruct (record_billing_raises env); cbn.
  - repeat split; auto.
  - repeat split; auto. cbn. rewrite map_map. apply map_ext.
    intros u. apply start_billing_cycle_id.
Qed.

Lemma signal_int_id_same db db' sid :
  signals db' = signals db -> signal_int_id db' sid = signal_int_id db sid.
Proof. unfold signal_int_id. intros ->. reflexivity. Qed.

(** What one [execute_trade] does to the store: nothing, or the
    acknowledgment alone, or the acknowledgment and one row for the
    subscriber and the signal of the fetched row. *)
Lemma execute_trade_store w env user signal :
  delivery_id signal <> 0%Z ->
  let db' := db (fst (fst (execute_trade SLIPPAGE_BPS asset_meta round_price w env
                             user signal))) in
  same_keys (db w) db'
  /\ ((signal_deliveries db' = signal_deliveries (db w)
       /\ open_positions db' = open_positions (db w))
      \/ (signal_deliveries db'
          = map (acknowledge (now env) (delivery_id signal)) (signal_deliveries (db w))
          /\ (open_positions db' = open_positions (db w)
              \/ exists row,
                  open_positions db' = open_positions (db w) ++ [row]
                  /\ op_user_id row = user_id user
                  /\ op_signal_id row = signal_int_id (db w) (signal_id signal)))).
Proof.
  intros Hd. unfold execute_trade, early_acknowledgment.
  apply Z.eqb_neq in Hd. rewrite Hd.
  destruct (ack_raises env); cbn [fst snd db].
  { split; [apply same_keys_refl|]. left. auto. }
  set (db1 := acknowledge_signal (db w) (now env) (delivery_id signal)).
  assert (same_keys (db w) db1) as Hk.
  { repeat split. cbn. apply acknowledge_ids. }
  destruct (safety_check _ env user signal) as [[cache t_gate] [wallet|]];
    cbn [fst snd db]; [|split; [exact Hk|right; split; [reflexivity|left; reflexivity]]].
  destruct (size_and_place _ _ _ env user signal wallet) as [t_place [b|]];
    cbn [fst snd db]; [|split; [exact Hk|right; split; [reflexivity|left; reflexivity]]].
  pose proof (record_open_position_store db1 env user signal b) as (Hk2 & Hsd & Hrows).
  destruct (record_open_position db1 env user signal b) as [db2 t_rec].
  cbn [fst snd db] in *. split; [eapply same_keys_trans; eassumption|].
  right. split; [rewrite Hsd; reflexivity|].
  destruct Hrows as [Hrows | Hrows]; [left; rewrite Hrows; reflexivity|].
  right. eexists. split; [rewrite Hrows; reflexivity|].
  split; [reflexivity|]. reflexivity.
Qed.

(** One execution of an owed row never raises the budget of a pair. *)
Lemma execute_trade_budget w env item u s :
  owed (db w) item ->
  (budget (db (fst (fst (execute_trade SLIPPAGE_BPS asset_meta round_price w env
                           item item)))) u s
   <= budget (db w) u s)%nat.
Proof.
  intros (Hd & sd & Hin & Hid & Hack & Hu & Hs).
  pose proof (execute_trade_store w env item item Hd) as (Hk & Hcases).
  cbv zeta in Hcases.
  set (db' := db (fst (fst (execute_trade SLIPPAGE_BPS asset_meta round_price w env
                              item item)))) in *.
  unfold budget, unacknowledged.
  destruct Hcases as [(Hsd & Hrows) | (Hsd & Hrows)].
  - rewrite Hsd, (count_positions_same _ _ u s Hrows). lia.
  - rewrite Hsd.
    pose proof (acknowledge_awaits_le (now env) (delivery_id item) u s
                  (signal_deliveries (db w))) as Hle.
    destruct Hrows as [Hrows | (row & Hrows & Hru & Hrs)].
    + rewrite (count_positions_same _ _ u s Hrows). lia.
    + rewrite (count_positions_app _ _ row u s Hrows).
      destruct (row_of u s row) eqn:Hrow; [|lia].
      unfold row_of in Hrow. rewrite Hru, Hrs, Hs in Hrow.
      apply andb_true_iff in Hrow as [E1 E2].
      apply Z.eqb_eq in E1, E2.
      assert (awaits u s sd = true) as Haw.
      { unfold awaits. rewrite Hu, E1, E2, Hack, !Z.eqb_refl. reflexivity. }
      pose proof (acknowledge_awaits_lt (now env) (delivery_id item) u s
                    (signal_deliveries (db w)) sd Hin Hid Haw).
      lia.
Qed.

(** Another owed row, with another delivery, is still owed afterwards. *)
Lemma execute_trade_owed w env item other :
  delivery_id item <> 0%Z ->
  delivery_id other <> delivery_id item ->
  owed (db w) other ->
  owed (db (fst (fst (execute_trade SLIPPAGE_BPS asset_meta round_price w env
                        item item)))) other.
Proof.
  intros Hd Hneq (Hd' & sd & Hin & Hid & Hack & Hu & Hs).
  pose proof (execute_trade_store w env item item Hd) as ((Hsig & _) & Hcases).
  cbv zeta in Hcases.
  set (db' := db (fst (fst (execute_trade SLIPPAGE_BPS asset_meta round_price w env
                              item item)))) in *.
  split; [exact Hd'|]. exists sd.
  rewrite (signal_int_id_same _ _ _ Hsig).
  repeat split; auto.
  destruct Hcases as [(Hsd & _) | (Hsd & _)]; rewrite Hsd; [exact Hin|].
  apply in_map_iff. exists sd. split; [|exact Hin].
  apply acknowledge_other. congruence.
Qed.

Lemma execute_signal_db w env item :
  db (fst (_execute_signal_for_user SLIPPAGE_BPS asset_meta round_price w env item))
  = db (fst (fst (execute_trade SLIPPAGE_BPS asset_meta round_price w env item item))).
Proof.
  unfold _execute_signal_for_user.
  destruct (execute_trade _ _ _ w env item item) as [[w' t] [r|e]]; reflexivity.
Qed.

(** A batch of owed rows with distinct deliveries: the rows not yet run
    stay owed, and no budget grows. *)
Lemma gather_budget env : forall l1 l2 w,
  NoDup (map delivery_id (l1 ++ l2)) ->
  Forall (owed (db w)) (l1 ++ l2) ->
  let w' := fst (gather SLIPPAGE_BPS asset_meta round_price w env l1) in
  Forall (owed (db w')) l2
  /\ (forall u s, (budget (db w') u s <= budget (db w) u s)%nat)
  /\ same_keys (db w) (db w').
Proof.
  induction l1 as [|item l1 IH]; intros l2 w Hnd Hall; cbn.
  - repeat split; auto using same_keys_refl.
  - cbn in Hnd, Hall. apply NoDup_cons_iff in Hnd as [Hnot Hnd].
    apply Forall_cons_iff in Hall as [Hitem Hall].
    pose proof (execute_signal_db w (trade_env env item) item) as Hdb.
    destruct (_execute_signal_for_user _ _ _ w (trade_env env item) item)
      as [w1 t1]. cbn [fst] in Hdb.
    assert (Forall (owed (db w1)) (l1 ++ l2)) as Hall1.
    { apply Forall_forall. intros other Hin. rewrite Hdb.
      apply execute_trade_owed.
      - apply Hitem.
      - intros Heq. apply Hnot. rewrite <- Heq. apply in_map. exact Hin.
      - eapply Forall_forall in Hall; eassumption. }
    specialize (IH l2 w1 Hnd Hall1). cbv zeta in IH.
    destruct (gather _ _ _ w1 env l1) as [w2 t2]. cbn [fst] in *.
    destruct IH as (Hrest & Hb & Hk). split; [exact Hrest|]. split.
    + intros u s. specialize (Hb u s).
      pose proof (execute_trade_budget w (trade_env env item) item u s Hitem) as H1.
      rewrite <- Hdb in H1. lia.
    + eapply same_keys_trans; [|exact Hk]. rewrite Hdb.
      apply execute_trade_store. apply Hitem.
Qed.

Lemma run_batches_step fuel w env x l :
  run_batches SLIPPAGE_BPS asset_meta round_price (S fuel) w env (x :: l)
  = let '(w1, t1) := gather SLIPPAGE_BPS asset_meta round_price w env
                       (firstn BATCH_SIZE (x :: l)) in
    match skipn BATCH_SIZE (x :: l) with
    | [] => (w1, t1)
    | y :: rest =>
        let '(w2, t2) := run_batches SLIPPAGE_BPS asset_meta round_price fuel w1 env
                           (y :: rest) in
        (w2, t1 ++ EvSleep BATCH_DELAY :: t2)
    end.
Proof. reflexivity. Qed.

Lemma run_batches_budget env : forall fuel l w,
  NoDup (map delivery_id l) ->
  Forall (owed (db w)) l ->
  let w' := fst (run_batches SLIPPAGE_BPS asset_meta round_price fuel w env l) in
  (forall u s, (budget (db w') u s <= budget (db w) u s)%nat)
  /\ same_keys (db w) (db w').
Proof.
  induction fuel as [|fuel IH]; intros l w Hnd Hall.
  - cbn. split; auto using same_keys_refl.
  - destruct l as [|x l']; [cbn; split; auto using same_keys_refl|].
    rewrite run_batches_step.
    remember (x :: l') as l eqn:El. clear El.
    rewrite <- (firstn_skipn BATCH_SIZE l) in Hnd, Hall.
    pose proof (gather_budget env _ _ w Hnd Hall) as (Hrest & Hb & Hk).
    cbv zeta in Hrest, Hb, Hk.
    destruct (gather _ _ _ w env (firstn BATCH_SIZE l)) as [w1 t1].
    cbn [fst] in *.
    destruct (skipn BATCH_SIZE l) as [|y rest] eqn:Es; [cbn [fst]; auto|].
    rewrite map_app in Hnd. apply NoDup_app_remove_l in Hnd.
    specialize (IH (y :: rest) w1 Hnd Hrest). cbv zeta in IH.
    destruct (run_batches _ _ _ fuel w1 env (y :: rest)) as [w2 t2].
    cbn [fst] in *. destruct IH as (Hb2 & Hk2). split.
    + intros u s. specialize (Hb u s). specialize (Hb2 u s). lia.
    + eapply same_keys_trans; eassumption.
Qed.

Lemma nodup_map_inj {A B} (f : A -> B) (l : list A) (a b : A) :
  NoDup (map f l) -> In a l -> In b l -> f a = f b -> a = b.
Proof.
  induction l as [|x l IH]; cbn; intros Hnd Ha Hb Hf; [destruct Ha|].
  apply NoDup_cons_iff in Hnd as [Hnot Hnd].
  destruct Ha as [-> | Ha], Hb as [-> | Hb]; auto.
  - exfalso. apply Hnot. rewrite Hf. apply in_map. exact Hb.
  - exfalso. apply Hnot. rewrite <- Hf. apply in_map. exact Ha.
Qed.

Lemma nodup_map_filter {K R : Type} (key : R -> K) (keep : R -> bool) :
  forall rows : list R,
    NoDup (map key rows) -> NoDup (map key (filter keep rows)).
Proof.
  intros rows. induction rows as [|x rows IH]; cbn; intros Hnd; [constructor|].
  apply NoDup_cons_iff in Hnd as [Hnot Hnd].
  destruct (keep x); cbn; auto.
  constructor; auto. intros Hin. apply Hnot.
  apply in_map_iff in Hin as (y & Hy & Hin). apply filter_In in Hin as [Hin _].
  rewrite <- Hy. apply in_map. exact Hin.
Qed.

(** Keys stay distinct through a join, when each row of the outer table
    brings rows with distinct keys and no key comes from two outer rows. *)
Lemma nodup_map_flat_map {A B K} (k : B -> K) (f : A -> list B) (xs : list A) :
  NoDup xs ->
  (forall x, In x xs -> NoDup (map k (f x))) ->
  (forall x x' b b',
      In x xs -> In x' xs -> In b (f x) -> In b' (f x') -> k b = k b' -> x = x') ->
  NoDup (map k (flat_map f xs)).
Proof.
  induction xs as [|x xs IH]; cbn; intros Hnd Hin Hcross; [constructor|].
  apply NoDup_cons_iff in Hnd as [Hnot Hnd].
  rewrite map_app. apply NoDup_app.
  - apply Hin. left. reflexivity.
  - apply IH; auto. intros; eapply Hcross; eauto.
  - intros a Ha Ha'.
    apply in_map_iff in Ha as (b & Hb & Ha).
    apply in_map_iff in Ha' as (b' & Hb' & Ha').
    apply in_flat_map in Ha' as (x' & Hx' & Ha').
    apply Hnot.
    rewrite (Hcross x x' b b'); auto. congruence.
Qed.

Lemma insert_desc_perm r l : Permutation (insert_desc r l) (r :: l).
Proof.
  induction l as [|x l IH]; cbn; [reflexivity|].
  destruct (signal_created_at x <? signal_created_at r)%Z; [reflexivity|].
  rewrite IH. apply perm_swap.
Qed.

Lemma order_by_created_desc_perm l : Permutation (order_by_created_desc l) l.
Proof.
  unfold order_by_created_desc. induction l as [|x l IH]; cbn; [reflexivity|].
  rewrite insert_desc_perm. constructor. exact IH.
Qed.

Lemma signal_int_id_unique db s :
  NoDup (map s_signal_id (signals db)) -> In s (signals db) ->
  signal_int_id db (s_signal_id s) = Some (s_id s).
Proof.
  intros Hnd Hin. unfold signal_int_id.
  destruct (find _ (signals db)) as [s'|] eqn:Ef.
  - apply find_some in Ef as [Hin' Heq]. apply String.eqb_eq in Heq.
    rewrite (nodup_map_inj s_signal_id (signals db) s' s Hnd Hin' Hin Heq).
    reflexivity.
  - exfalso. eapply find_none in Ef; [|exact Hin]. cbn in Ef.
    rewrite String.eqb_refl in Ef. discriminate.
Qed.

(** A delivery joins one subscriber and one signal at most. *)
Lemma joined_nodup db :
  keys_unique db -> NoDup (map (fun r => sd_id (snd (fst r))) (joined db)).
Proof.
  intros (Ku & Ks & _ & Kd & _). unfold joined.
  apply nodup_map_flat_map.
  - eapply NoDup_map_inv. exact Ku.
  - intros u Hu. apply nodup_map_flat_map.
    + eapply NoDup_map_inv. exact Kd.
    + intros sd Hsd. destruct (sd_user_id sd =? u_id u)%Z; [|constructor].
      apply nodup_map_flat_map.
      * eapply NoDup_map_inv. exact Ks.
      * intros s Hs. destruct (sd_signal_id sd =? s_id s)%Z; cbn.
        -- constructor; [intros []|constructor].
        -- constructor.
      * intros s s' b b' Hs Hs' Hb Hb' _.
        destruct (sd_signal_id sd =? s_id s)%Z eqn:E; [|destruct Hb].
        destruct (sd_signal_id sd =? s_id s')%Z eqn:E'; [|destruct Hb'].
        apply Z.eqb_eq in E, E'.
        apply (nodup_map_inj s_id (signals db)); auto. congruence.
    + intros sd sd' b b' Hsd Hsd' Hb Hb' Hk.
      destruct (sd_user_id sd =? u_id u)%Z; [|destruct Hb].
      destruct (sd_user_id sd' =? u_id u)%Z; [|destruct Hb'].
      apply in_flat_map in Hb as (s & _ & Hb).
      apply in_flat_map in Hb' as (s' & _ & Hb').
      destruct (sd_signal_id sd =? s_id s)%Z; [|destruct Hb].
      destruct (sd_signal_id sd' =? s_id s')%Z; [|destruct Hb'].
      destruct Hb as [<- | []]. destruct Hb' as [<- | []]. cbn in Hk.
      apply (nodup_map_inj sd_id (signal_deliveries db)); auto.
  - intros u u' b b' Hu Hu' Hb Hb' Hk.
    apply in_flat_map in Hb as (sd & Hsd & Hb).
    apply in_flat_map in Hb' as (sd' & Hsd' & Hb').
    destruct (sd_user_id sd =? u_id u)%Z eqn:E; [|destruct Hb].
    destruct (sd_user_id sd' =? u_id u')%Z eqn:E'; [|destruct Hb'].
    apply in_flat_map in Hb as (s & _ & Hb).
    apply in_flat_map in Hb' as (s' & _ & Hb').
    destruct (sd_signal_id sd =? s_id s)%Z; [|destruct Hb].
    destruct (sd_signal_id sd' =? s_id s')%Z; [|destruct Hb'].
    destruct Hb as [<- | []]. destruct Hb' as [<- | []]. cbn in Hk.
    apply Z.eqb_eq in E, E'.
    assert (sd = sd') as <-
        by (apply (nodup_map_inj sd_id (signal_deliveries db)); auto).
    apply (nodup_map_inj u_id (users db)); auto. congruence.
Qed.

(** The rows of one fetch are owed, and no delivery comes twice. *)
Lemma fetch_owed db now :
  keys_unique db ->
  NoDup (map delivery_id (get_pending_signals_batched db now))
  /\ Forall (owed db) (get_pending_signals_batched db now).
Proof.
  intros K. split.
  - unfold get_pending_signals_batched.
    eapply Permutation_NoDup.
    + apply Permutation_map. symmetry. apply order_by_created_desc_perm.
    + rewrite map_map.
      rewrite (map_ext _ (fun r => sd_id (snd (fst r))))
        by (intros [[u sd] s]; reflexivity).
      apply nodup_map_filter. apply joined_nodup. exact K.
  - apply Forall_forall. intros r Hr.
    apply fetch_spec in Hr as (u & sd & s & Hj & Hw & ->).
    apply joined_spec in Hj as (Hu & Hsd & Hs & E1 & E2).
    destruct K as (_ & _ & Kss & _ & K0).
    split; cbn.
    + intros H0. apply K0. rewrite <- H0. apply in_map. exact Hsd.
    + exists sd. repeat split; auto.
      * unfold pending_where in Hw.
        destruct (sd_acknowledged sd); [|reflexivity].
        rewrite !andb_false_r in Hw. cbn in Hw. rewrite ?andb_false_r in Hw.
        discriminate.
      * rewrite E2. apply signal_int_id_unique; auto.
Qed.

(** One poll of the loop, then any number of polls. *)
Lemma poll_budget w env :
  keys_unique (db w) ->
  (forall l, Permutation l (shuffle env l)) ->
  let w' := fst (fst (poll_and_execute SLIPPAGE_BPS asset_meta round_price w env)) in
  (forall u s, (budget (db w') u s <= budget (db w) u s)%nat)
  /\ same_keys (db w) (db w').
Proof.
  intros K Hperm. unfold poll_and_execute.
  destruct (fetch_raises env); [cbn; split; auto using same_keys_refl|].
  pose proof (fetch_owed (db w) (tick_now env) K) as (Hnd & Hall).
  destruct (get_pending_signals_batched (db w) (tick_now env)) as [|x l] eqn:Ef;
    [cbn; split; auto using same_keys_refl|].
  remember (x :: l) as pending eqn:Ep. clear Ep.
  pose proof (run_batches_budget env (List.length (shuffle env pending))
                (shuffle env pending) w) as H.
  cbv zeta in H.
  destruct (run_batches _ _ _ _ w env (shuffle env pending)) as [w' t].
  cbn [fst] in *. apply H.
  - eapply Permutation_NoDup; [|exact Hnd]. apply Permutation_map. apply Hperm.
  - eapply Permutation_Forall; [|exact Hall]. apply Hperm.
Qed.

Lemma run_budget : forall envs w,
  keys_unique (db w) ->
  (forall env, In env envs -> forall l, Permutation l (shuffle env l)) ->
  let w' := fst (run SLIPPAGE_BPS asset_meta round_price w envs) in
  (forall u s, (budget (db w') u s <= budget (db w) u s)%nat)
  /\ same_keys (db w) (db w').
Proof.
  induction envs as [|env envs IH]; intros w K Hperm; cbn.
  - split; auto using same_keys_refl.
  - pose proof (poll_budget w env K (Hperm env (or_introl eq_refl))) as (Hb & Hk).
    cbv zeta in Hb, Hk.
    destruct (poll_and_execute _ _ _ w env) as [[w1 t1] raised]. cbn [fst] in *.
    specialize (IH w1 (keys_unique_same _ _ K Hk)
                  (fun e He => Hperm e (or_intror He))).
    cbv zeta in IH.
    destruct (run _ _ _ w1 envs) as [w2 t2]. cbn [fst] in *.
    destruct IH as (Hb2 & Hk2). split.
    + intros u s. specialize (Hb u s). specialize (Hb2 u s). lia.
    + eapply same_keys_trans; eassumption.
Qed.

Lemma execute_trade_deliveries w env user signal :
  delivery_id signal <> 0%Z -> ack_raises env = false ->
  signal_deliveries
    (db (fst (fst (execute_trade SLIPPAGE_BPS asset_meta round_price w env user signal))))
  = map (acknowledge (now env) (delivery_id signal)) (signal_deliveries (db w)).
Proof.
  intros Hd Hack. unfold execute_trade, early_acknowledgment.
  apply Z.eqb_neq in Hd. rewrite Hd, Hack. cbn [fst snd db].
  destruct (safety_check _ env user signal) as [[cache t_gate] [wallet|]];
    cbn [fst snd db]; [|reflexivity].
  destruct (size_and_place _ _ _ env user signal wallet) as [t_place [b|]];
    cbn [fst snd db]; [|reflexivity].
  pose proof (record_open_position_store
                (acknowledge_signal (db w) (now env) (delivery_id signal))
                env user signal b) as (_ & Hsd & _).
  destruct (record_open_position _ env user signal b) as [db2 t_rec].
  cbn [fst snd db] in *. exact Hsd.
Qed.

Lemma execute_trade_starts w env user signal :
  delivery_id signal <> 0%Z ->
  exists rest,
    snd (fst (execute_trade SLIPPAGE_BPS asset_meta round_price w env user signal))
    = EvDb (DbAcknowledge (delivery_id signal)) (ack_raises env) :: rest
    /\ (ack_raises env = true ->
        rest = []
        /\ execute_trade SLIPPAGE_BPS asset_meta round_price w env user signal
           = (w, [EvDb (DbAcknowledge (delivery_id signal)) true],
              Raised (db_error env))).
Proof.
  intros Hd. unfold execute_trade, early_acknowledgment.
  apply Z.eqb_neq in Hd. rewrite Hd.
  destruct (ack_raises env); cbn [fst snd].
  - exists []. split; [reflexivity|]. intros _. split; [reflexivity|].
    destruct w; reflexivity.
  - destruct (safety_check _ env user signal) as [[cache t_gate] [wallet|]];
      cbn [fst snd]; [|eexists; split; [reflexivity|discriminate]].
    destruct (size_and_place _ _ _ env user signal wallet) as [t_place [b|]];
      cbn [fst snd]; [|eexists; split; [reflexivity|discriminate]].
    destruct (record_open_position _ env user signal b) as [db2 t_rec].
    cbn [fst snd]. eexists; split; [reflexivity|discriminate].
Qed.

(** *** Two invocations on one store *)

(** [execute_trade] between two of its awaits: the acknowledgment, the
    gate, the sizing with the bracket, the record. *)
Inductive Stage : Type :=
| Fetched
| Acknowledged
| Cleared (wallet_address : string)
| Placed (b : Bracket)
| Finished (r : ExecResult).

Definition advance (w : World) (env : TradeEnv) (item : PendingRow) (st : Stage)
  : World * Trace * Stage :=
  match st with
  | Fetched =>
      let '(db1, t, ack_raised) := early_acknowledgment (db w) env item in
      ({| db := db1; active_exchanges := active_exchanges w |}, t,
       if ack_raised then Finished (Raised (db_error env)) else Acknowledged)
  | Acknowledged =>
      let '(cache, t, wallet) := safety_check w env item item in
      ({| db := db w; active_exchanges := cache |}, t,
       match wallet with
       | Some wallet_address => Cleared wallet_address
       | None => Finished (Returned false)
       end)
  | Cleared wallet_address =>
      let '(t, bracket) :=
        size_and_place SLIPPAGE_BPS asset_meta round_price env item item
          wallet_address in
      (w, t,
       match bracket with
       | Some b => Placed b
       | None => Finished (Returned false)
       end)
  | Placed b =>
      let '(db2, t) := record_open_position (db w) env item item b in
      ({| db := db2; active_exchanges := active_exchanges w |}, t,
       Finished (Returned true))
  | Finished _ => (w, [], st)
  end.

Fixpoint advance_all (n : nat) (w : World) (env : TradeEnv) (item : PendingRow)
         (st : Stage) : World * Trace * Stage :=
  match n with
  | O => (w, [], st)
  | S n' =>
      let '(w1, t1, st1) := advance w env item st in
      let '(w2, t2, st2) := advance_all n' w1 env item st1 in
      (w2, t1 ++ t2, st2)
  end.

(** An invocation of the loop that holds a fetched row. *)
Record Task : Type := {
  task_env : TradeEnv;
  task_row : PendingRow;
  task_stage : Stage
}.

(** Two tasks on one store; [turns] tells which one runs its next
    stretch ([true] for the first). *)
Fixpoint interleave (w : World) (a b : Task) (turns : list bool)
  : World * Trace * (Task * Task) :=
  match turns with
  | [] => (w, [], (a, b))
  | first :: turns' =>
      let task := if first then a else b in
      let '(w1, t1, st) :=
        advance w (task_env task) (task_row task) (task_stage task) in
      let task' := {| task_env := task_env task; task_row := task_row task;
                      task_stage := st |} in
      let '(w2, t2, tasks) :=
        interleave w1 (if first then task' else a) (if first then b else task')
          turns' in
      (w2, t1 ++ t2, tasks)
  end.

(** The four stretches, run without interruption, are [execute_trade]. *)
Lemma advance_alone w env item :
  advance_all 4 w env item Fetched
  = (fst (fst (execute_trade SLIPPAGE_BPS asset_meta round_price w env item item)),
     snd (fst (execute_trade SLIPPAGE_BPS asset_meta round_price w env item item)),
     Finished (snd (execute_trade SLIPPAGE_BPS asset_meta round_price w env item item))).
Proof.
  unfold execute_trade. cbn [advance_all advance].
  destruct (early_acknowledgment (db w) env item) as [[db1 t_ack] [|]];
    cbn [advance_all advance fst snd db active_exchanges app];
    [rewrite app_nil_r; reflexivity|].
  destruct (safety_check _ env item item) as [[cache t_gate] [wallet|]];
    cbn [advance_all advance fst snd db active_exchanges app];
    [|rewrite !app_nil_r; reflexivity].
  destruct (size_and_place _ _ _ env item item wallet) as [t_place [b|]];
    cbn [advance_all advance fst snd db active_exchanges app];
    [|rewrite !app_nil_r; reflexivity].
  destruct (record_open_position db1 env item item b) as [db2 t_rec].
  cbn [advance_all advance fst snd db active_exchanges app].
  rewrite !app_nil_r. reflexivity.
Qed.

(** C1 (amended).  (1) For a delivery with a non-zero id, the UPDATE that
    sets acknowledged and executed is the first thing [execute_trade]
    does; if it raises, nothing else is attempted and the store is as
    before.  (2) If it does not raise, every delivery with that id is
    acknowledged and executed in the store [execute_trade] leaves,
    whatever the executor returns.  (3) An acknowledged delivery is not
    in the rows of a later fetch.  (4) For one instance of the loop that
    runs poll after poll on a store with unique keys, the Open Position
    rows of a (subscriber, signal) pair plus its unacknowledged deliveries
    never grow: at most one row is created per unacknowledged delivery
    of the pair, and none for a delivery acknowledged before a crash. *)
Theorem at_most_once_execution :
  (forall (w : World) (env : TradeEnv) (user signal : PendingRow),
      delivery_id signal <> 0%Z ->
      exists rest,
        snd (fst (execute_trade SLIPPAGE_BPS asset_meta round_price w env user signal))
        = EvDb (DbAcknowledge (delivery_id signal)) (ack_raises env) :: rest
        /\ (ack_raises env = true ->
            rest = []
            /\ execute_trade SLIPPAGE_BPS asset_meta round_price w env user signal
               = (w, [EvDb (DbAcknowledge (delivery_id signal)) true],
                  Raised (db_error env))))
  /\ (forall (w : World) (env : TradeEnv) (user signal : PendingRow) (sd : Delivery),
        delivery_id signal <> 0%Z ->
        ack_raises env = false ->
        In sd (signal_deliveries
                 (db (fst (fst (execute_trade SLIPPAGE_BPS asset_meta round_price w env
                                  user signal))))) ->
        sd_id sd = delivery_id signal ->
        sd_acknowledged sd = true /\ sd_executed sd = true)
  /\ (forall (db : Store.t) (now : Timestamp) (sd : Delivery),
        NoDup (map sd_id (signal_deliveries db)) ->
        In sd (signal_deliveries db) ->
        sd_acknowledged sd = true ->
        ~ In (sd_id sd) (map delivery_id (get_pending_signals_batched db now)))
  /\ (forall (w : World) (envs : list TickEnv) (u s : Z),
        keys_unique (db w) ->
        (forall env, In env envs -> forall l, Permutation l (shuffle env l)) ->
        (count_positions
           (db (fst (run SLIPPAGE_BPS asset_meta round_price w envs))) u s
         + unacknowledged
             (db (fst (run SLIPPAGE_BPS asset_meta round_price w envs))) u s
         <= count_positions (db w) u s + unacknowledged (db w) u s)%nat).
Proof.
  split; [exact execute_trade_starts|]. split; [|split].
  - intros w env user signal sd Hd Hack Hin Hid.
    rewrite (execute_trade_deliveries w env user signal Hd Hack) in Hin.
    apply in_map_iff in Hin as (sd0 & <- & _).
    rewrite acknowledge_id in Hid. unfold acknowledge.
    apply Z.eqb_eq in Hid. rewrite Hid. split; reflexivity.
  - intros db now sd Hnd Hin Hack Hfetched.
    apply in_map_iff in Hfetched as (r & Hid & Hr).
    apply fetch_spec in Hr as (u & sd' & s & Hj & Hw & ->).
    apply joined_spec in Hj as (_ & Hsd' & _). cbn in Hid.
    rewrite (nodup_map_inj sd_id _ sd' sd Hnd Hsd' Hin Hid) in Hw.
    unfold pending_where in Hw. rewrite Hack in Hw.
    rewrite !andb_false_r in Hw. cbn in Hw. rewrite ?andb_false_r in Hw.
    discriminate.
  - intros w envs u s K Hperm.
    apply (proj1 (run_budget envs w K Hperm) u s).
Qed.

End AtMostOnce.

Lemma trading_store_keys : keys_unique (hosted_trading_loop.db trading_world).
Proof.
  unfold keys_unique. cbn.
  split; [|split; [|split; [|split]]].
  - constructor; [intros []|constructor].
  - constructor; [intros []|constructor].
  - constructor; [intros []|constructor].
  - constructor; [intros []|constructor].
  - intros [H0 | []]. discriminate H0.
Defined.

(** Two polls of one instance on the sample store: one Open Position for
    the pair, no delivery left. *)
Lemma at_most_once_execution_witness :
  (hosted_trading_loop.count_positions
     (hosted_trading_loop.db
        (fst (hosted_trading_loop.run 50 [] (fun p => Some p) trading_world
                [calm_tick; calm_tick]))) 1 3
   + unacknowledged
       (hosted_trading_loop.db
          (fst (hosted_trading_loop.run 50 [] (fun p => Some p) trading_world
                  [calm_tick; calm_tick]))) 1 3
   <= hosted_trading_loop.count_positions (hosted_trading_loop.db trading_world) 1 3
      + unacknowledged (hosted_trading_loop.db trading_world) 1 3)%nat.
Proof.
  apply (proj2 (proj2 (proj2 (at_most_once_execution 50 [] (fun p => Some p))))).
  - exact trading_store_keys.
  - intros env [<- | [<- | []]] l; apply Permutation_refl.
Defined.

(** Two invocations of the loop that both fetched the delivery before
    either acknowledged it, taking turns. *)
Definition racing_task : Task :=
  {| task_env := calm_env; task_row := ada_row; task_stage := Fetched |}.

Definition race : hosted_trading_loop.World * Trace * (Task * Task) :=
  interleave 50 [] (fun p => Some p) trading_world racing_task racing_task
    [true; false; true; false; true; false; true; false].

(** C1 as stated fails under concurrent invocation: the delivery is the
    only one of its pair and both invocations hold it; each sets the
    flags, passes the gate, places its bracket and records its Open
    Position, so the pair ends with two rows. *)
Lemma at_most_once_as_stated_counterexample :
  hosted_trading_loop.get_pending_signals_batched
    (hosted_trading_loop.db trading_world) (minutes 1) = [ada_row]
  /\ unacknowledged (hosted_trading_loop.db trading_world) 1 3 = 1%nat
  /\ task_stage (fst (snd race))
     = Finished (hosted_trading_loop.Returned true)
  /\ task_stage (snd (snd race))
     = Finished (hosted_trading_loop.Returned true)
  /\ firstn 2 (snd (fst race))
     = [EvDb (DbAcknowledge 10) false; EvDb (DbAcknowledge 10) false]
  /\ count_orders (snd (fst race)) = 6%nat
  /\ hosted_trading_loop.count_positions (hosted_trading_loop.db (fst (fst race))) 1 3
     = 2%nat.
Proof. repeat split; vm_compute; reflexivity. Qed.

(* ------------------------------------------------------------------ *)
(** ** What the executor asks of the exchange *)
(* ------------------------------------------------------------------ *)

Section ExecutorEvents.

Import order_utils Store Exchange hosted_trading_loop.

Variable SLIPPAGE_BPS : Z.
Variable asset_meta : list (string * nat).
Variable round_price : float -> option float.

(** An order that is not reduce-only: it can open or enlarge a position. *)
Definition opens_exposure (e : Event) : bool :=
  match e with
  | EvOrder _ _ _ _ _ reduce_only => negb reduce_only
  | _ => false
  end.

(** What follows the entry in a bracket: reduce-only orders on the other
    side, cancellations on the coin, sleeps, alerts, error-log rows and
    the queries of the emergency close. *)
Definition after_entry (coin : string) (is_buy : bool) (q : float) (e : Event) : Prop :=
  match e with
  | EvOrder c side sz _ _ ro => c = coin /\ side = negb is_buy /\ sz = q /\ ro = true
  | EvCancel c _ => c = coin
  | EvDb (DbErrorLog _ _ _) raised => raised = false
  | EvDb _ _ => False
  | EvSleep _ | EvNotifyAdmin _ _ _ | EvUserState _ _ | EvAllMids _ => True
  | EvUpdateLeverage _ _ | EvOpenOrders _ _ | EvUserFills _ _ => False
  end.

(** The requests of the entry: one and the same order, at most three
    times, with sleeps and at most an alert. *)
Definition is_pause (e : Event) : bool :=
  match e with
  | EvSleep _ | EvNotifyAdmin _ _ _ => true
  | _ => false
  end.

Definition entry_requests (call : Event) (t : Trace) : Prop :=
  Forall (fun e => e = call \/ is_pause e = true) t
  /\ (List.length (filter opens_exposure t) <= 3)%nat.

Lemma entry_requests_of_outcome exchange coin is_buy q px out :
  placement_outcome exchange entry_attempt (EvOrder coin is_buy q px LimitIoc false) out ->
  entry_requests (EvOrder coin is_buy q px LimitIoc false) (fst out).
Proof.
  intros [(t & r & Hs & ->) | (e1 & e2 & e3 & title & details & _ & _ & _ & _ & ->)];
    cbn [fst].
  - destruct Hs as [-> | [-> | ->]]; (split; [|cbn; lia]);
      repeat (constructor;
              [first [left; reflexivity | right; reflexivity]|]);
      constructor.
  - split; [|cbn; lia].
    repeat (constructor;
            [first [left; reflexivity | right; reflexivity]|]);
      constructor.
Qed.

Lemma after_entry_schedule coin is_buy q px ty t :
  retry_schedule (EvOrder coin (negb is_buy) q px ty true) t ->
  Forall (after_entry coin is_buy q) t.
Proof.
  intros [-> | [-> | ->]]; repeat constructor.
Qed.

Lemma after_entry_placement coin is_buy q px ty exchange body out :
  placement_outcome exchange body (EvOrder coin (negb is_buy) q px ty true) out ->
  Forall (after_entry coin is_buy q) (fst out).
Proof.
  intros [(t & r & Hs & ->) | (e1 & e2 & e3 & title & details & _ & _ & _ & _ & ->)].
  - exact (after_entry_schedule _ _ _ _ _ _ Hs).
  - repeat constructor.
Qed.

Lemma after_entry_cancel coin is_buy q exchange oid desc email key notify :
  Forall (after_entry coin is_buy q)
    (fst (cancel_order_with_retry exchange coin oid desc email key notify)).
Proof.
  destruct (cancel_outcome_holds exchange coin oid desc email key notify)
    as [(t & Hs & ->) | (e1 & e2 & e3 & title & _ & _ & _ & ->)].
  - destruct Hs as [-> | [-> | ->]]; repeat constructor.
  - destruct notify; repeat constructor.
Qed.

Lemma emergency_close_events env wallet coin side q email key entry reason :
  Forall (after_entry coin (negb side) q)
    (_emergency_close_position round_price env wallet coin side q email key
       entry reason).
Proof.
  unfold _emergency_close_position, emergency_close_order, close_report.
  destruct side; repeat break_match; subst;
    repeat (apply Forall_app; split); repeat constructor;
    try (injection Heqp as <- <-; repeat (apply Forall_app; split); repeat constructor).
Qed.

Lemma after_entry_emergency_close env wallet coin is_buy q email key entry reason :
  Forall (after_entry coin is_buy q)
    (_emergency_close_position round_price env wallet coin (negb is_buy) q email key
       entry reason).
Proof.
  pose proof (emergency_close_events env wallet coin (negb is_buy) q email key entry
                reason) as H.
  rewrite negb_involutive in H. exact H.
Qed.

(** The trace of the bracket: the requests of the entry, then what
    follows the entry. *)
Lemma place_orders_split env user signal wallet coin q :
  let is_buy := String.eqb (Py.upper (action signal)) "BUY" in
  exists t_entry rest,
    fst (place_orders SLIPPAGE_BPS round_price env user signal wallet coin q)
    = t_entry ++ rest
    /\ (t_entry = []
        \/ exists px, entry_requests (EvOrder coin is_buy q px LimitIoc false) t_entry)
    /\ Forall (after_entry coin is_buy q) rest.
Proof.
  cbv zeta. unfold place_orders, trade_execution_error.
  destruct (Py.int_truediv SLIPPAGE_BPS 10000) as [bps|];
    [|exists []; eexists; split; [reflexivity|]; split; [auto|repeat constructor]].
  destruct (round_price _) as [entry_limit_price|];
    [|exists []; eexists; split; [reflexivity|]; split; [auto|repeat constructor]].
  match goal with
  | |- context [place_entry_order_with_retry ?a ?b ?c ?d ?e ?f ?g] =>
      pose proof (entry_requests_of_outcome _ _ _ _ _ _
                    (placement_outcome_entry a b c d e f g)) as He;
      destruct (place_entry_order_with_retry a b c d e f g) as [t_entry [entry_order|]]
  end; cbn [fst snd] in *;
    [|exists t_entry; eexists; split; [reflexivity|]; split; [eauto|repeat constructor]].
  exists t_entry.
  destruct (round_price (take_profit signal)) as [tp_price|];
    [|eexists; split; [rewrite <- app_assoc; reflexivity|];
      split; [eauto|repeat constructor]].
  match goal with
  | |- context [place_tp_order_with_retry ?a ?b ?c ?d ?e ?f ?g] =>
      pose proof (after_entry_placement _ _ _ _ _ _ _ _
                    (placement_outcome_tp a b c d e f g)) as Ht;
      destruct (place_tp_order_with_retry a b c d e f g) as [t_tp [tp_order|]]
  end; cbn [fst snd] in *;
    [|eexists; split; [rewrite <- app_assoc; reflexivity|];
      split; [eauto|];
      constructor; [exact I|];
      apply Forall_app; split; [exact Ht|apply after_entry_emergency_close]].
  destruct (round_price (stop_loss signal)) as [sl_price|];
    [|eexists; split; [rewrite <- !app_assoc; reflexivity|];
      split; [eauto|];
      constructor; [exact I|];
      apply Forall_app; split; [exact Ht|repeat constructor]].
  match goal with
  | |- context [place_sl_order_with_retry ?a ?b ?c ?d ?e ?f ?g] =>
      pose proof (after_entry_placement _ _ _ _ _ _ _ _
                    (placement_outcome_sl a b c d e f g)) as Hs;
      destruct (place_sl_order_with_retry a b c d e f g) as [t_sl [sl_order|]]
  end; cbn [fst snd] in *.
  - eexists; split; [rewrite <- !app_assoc; reflexivity|].
    split; [eauto|]. constructor; [exact I|].
    apply Forall_app; split; [exact Ht|exact Hs].
  - eexists; split; [rewrite <- !app_assoc; reflexivity|].
    split; [eauto|]. constructor; [exact I|].
    apply Forall_app; split; [exact Ht|].
    apply Forall_app; split; [exact Hs|].
    apply Forall_app; split; [|apply after_entry_emergency_close].
    destruct (id tp_order); [apply after_entry_cancel|constructor].
Qed.

(** What precedes the entry: the equity query, the alert of a rejected
    signal, an error-log row, the leverage of the coin. *)
Definition before_entry (coin : string) (e : Event) : Prop :=
  match e with
  | EvUserState _ _ | EvNotifyAdmin _ _ _ => True
  | EvDb (DbErrorLog _ _ _) raised => raised = false
  | EvUpdateLeverage _ c => c = coin
  | _ => False
  end.

Lemma size_and_place_split env user signal wallet :
  exists pre t_entry rest q,
    fst (size_and_place SLIPPAGE_BPS asset_meta round_price env user signal wallet)
    = pre ++ t_entry ++ rest
    /\ Forall (before_entry (convert_symbol_to_hl (symbol signal))) pre
    /\ (t_entry = []
        \/ exists px,
             entry_requests
               (EvOrder (convert_symbol_to_hl (symbol signal))
                  (String.eqb (Py.upper (action signal)) "BUY") q px LimitIoc false)
               t_entry)
    /\ Forall (after_entry (convert_symbol_to_hl (symbol signal))
                 (String.eqb (Py.upper (action signal)) "BUY") q) rest.
Proof.
  unfold size_and_place, trade_execution_error.
  repeat break_match; cbn [fst];
    try (eexists; exists [], [], 0%float; split; [rewrite !app_nil_r; reflexivity|];
         split; [repeat (apply Forall_app; split); repeat constructor|];
         split; [left; reflexivity|constructor]).
  match goal with
  | H : place_orders _ _ _ _ _ _ ?c ?q = _ |- _ =>
      pose proof (place_orders_split env user signal wallet c q) as Hs;
      rewrite H in Hs
  end.
  cbv zeta in Hs. cbn [fst] in Hs. destruct Hs as (t_entry & rest & -> & He & Hr).
  eexists; exists t_entry, rest, f. split; [rewrite app_assoc; reflexivity|].
  split; [|split; assumption].
  apply Forall_app; split; [repeat constructor|].
  unfold set_leverage. destruct (Py.trunc _); repeat constructor.
Qed.

Lemma before_entry_quiet coin t :
  Forall (before_entry coin) t ->
  forall e, In e t -> is_order e = false /\ is_cancel e = false.
Proof.
  intros H e Hin. rewrite Forall_forall in H. specialize (H e Hin).
  destruct e; cbn in *; try tauto; auto.
Qed.

Lemma filter_nil_of_forall {A} (f : A -> bool) (l : list A) :
  (forall x, In x l -> f x = false) -> filter f l = [].
Proof.
  induction l as [|x l IH]; cbn; intros H; [reflexivity|].
  rewrite (H x (or_introl eq_refl)). apply IH. intros y Hy. apply H. right. exact Hy.
Qed.

(** X1.  Exposure is taken through the entry order alone.  Every order of
    [size_and_place] is on the coin of the signal; an order that is not
    reduce-only is the IOC entry on the side of the signal (BUY when the
    upper-cased action is "BUY", SELL for any other action), a reduce-only
    order is on the other side; at most three requests are not
    reduce-only; every cancellation is on the coin. *)
Theorem exposure_only_through_entry :
  forall (env : TradeEnv) (user signal : PendingRow) (wallet : string),
    (forall c side sz px ty ro,
        In (EvOrder c side sz px ty ro)
           (fst (size_and_place SLIPPAGE_BPS asset_meta round_price env user signal
                   wallet)) ->
        c = convert_symbol_to_hl (symbol signal)
        /\ (if ro
            then side = negb (String.eqb (Py.upper (action signal)) "BUY")
            else side = String.eqb (Py.upper (action signal)) "BUY" /\ ty = LimitIoc))
    /\ (List.length
          (filter opens_exposure
             (fst (size_and_place SLIPPAGE_BPS asset_meta round_price env user signal
                     wallet))) <= 3)%nat
    /\ (forall c oid,
          In (EvCancel c oid)
             (fst (size_and_place SLIPPAGE_BPS asset_meta round_price env user signal
                     wallet)) ->
          c = convert_symbol_to_hl (symbol signal)).
Proof.
  intros env user signal wallet.
  destruct (size_and_place_split env user signal wallet)
    as (pre & t_entry & rest & q & -> & Hpre & Hentry & Hrest).
  pose proof (before_entry_quiet _ _ Hpre) as Hquiet.
  rewrite Forall_forall in Hrest.
  split; [|split].
  - intros c side sz px ty ro Hin.
    apply in_app_or in Hin as [Hin | Hin].
    { apply Hquiet in Hin as [Ho _]. discriminate. }
    apply in_app_or in Hin as [Hin | Hin].
    + destruct Hentry as [-> | (px0 & Hall & _)]; [destruct Hin|].
      rewrite Forall_forall in Hall.
      destruct (Hall _ Hin) as [Heq | Ho]; [|discriminate].
      injection Heq as -> -> -> -> -> ->. auto.
    + specialize (Hrest _ Hin). cbn in Hrest.
      destruct Hrest as (-> & -> & _ & ->). auto.
  - rewrite !filter_app, !length_app.
    rewrite (filter_nil_of_forall opens_exposure pre).
    2:{ intros e Hin. apply Hquiet in Hin as [Ho _].
        destruct e; try reflexivity. discriminate. }
    rewrite (filter_nil_of_forall opens_exposure rest).
    2:{ intros e Hin. specialize (Hrest _ Hin).
        destruct e; try reflexivity. cbn in Hrest.
        destruct Hrest as (_ & _ & _ & ->). reflexivity. }
    cbn. rewrite Nat.add_0_r.
    destruct Hentry as [-> | (px0 & _ & Hlen)]; [cbn; lia | exact Hlen].
  - intros c oid Hin.
    apply in_app_or in Hin as [Hin | Hin].
    { apply Hquiet in Hin as [_ Hc]. discriminate. }
    apply in_app_or in Hin as [Hin | Hin].
    + destruct Hentry as [-> | (px0 & Hall & _)]; [destruct Hin|].
      rewrite Forall_forall in Hall.
      destruct (Hall _ Hin) as [Heq | Ho]; discriminate.
    + specialize (Hrest _ Hin). exact Hrest.
Qed.

(** A request that changes something on the exchange. *)
Definition acts_on_exchange (e : Event) : bool :=
  match e with
  | EvOrder _ _ _ _ _ _ | EvCancel _ _ | EvUpdateLeverage _ _ => true
  | _ => false
  end.

(** X2.  Validation comes before any request.  When [size_and_place] sends
    an order, a cancellation or a leverage update, the signal passed every
    check of the executor: not (equity <= 0), stop loss and take profit
    present, not (stop_loss <= 0), not (take_profit <= 0), not
    (abs(entry_price - stop_loss) <= 0), and a leverage other than zero. *)
Theorem requests_only_for_checked_signals :
  forall (env : TradeEnv) (user signal : PendingRow) (wallet : string) (e : Event),
    In e (fst (size_and_place SLIPPAGE_BPS asset_meta round_price env user signal
                 wallet)) ->
    acts_on_exchange e = true ->
    PrimFloat.leb (get_user_equity (equity_user_state env)) 0%float = false
    /\ Py.truthy (stop_loss signal) = true
    /\ Py.truthy (take_profit signal) = true
    /\ PrimFloat.leb (stop_loss signal) 0%float = false
    /\ PrimFloat.leb (take_profit signal) 0%float = false
    /\ PrimFloat.leb (PrimFloat.abs (entry_price signal - stop_loss signal)) 0%float
       = false
    /\ PrimFloat.eqb (leverage signal) 0%float = false.
Proof.
  intros env user signal wallet e. unfold size_and_place, trade_execution_error.
  destruct (PrimFloat.leb (get_user_equity _) 0%float) eqn:E1.
  { cbn. intros [<- | []]. discriminate. }
  destruct (Py.truthy (stop_loss signal)) eqn:E2; cbn [negb orb].
  2:{ cbn. intros [<- | [<- | []]]; discriminate. }
  destruct (Py.truthy (take_profit signal)) eqn:E3; cbn [negb orb].
  2:{ cbn. intros [<- | [<- | []]]; discriminate. }
  destruct (PrimFloat.leb (stop_loss signal) 0%float) eqn:E4; cbn [orb].
  { cbn. intros [<- | [<- | []]]; discriminate. }
  destruct (PrimFloat.leb (take_profit signal) 0%float) eqn:E5.
  { cbn. intros [<- | [<- | []]]; discriminate. }
  destruct (PrimFloat.leb (PrimFloat.abs _) 0%float) eqn:E6.
  { cbn. intros [<- | [<- | []]]; discriminate. }
  destruct (round_size _ _ _) as [quantity|].
  2:{ cbn. intros [<- | [<- | []]]; discriminate. }
  destruct (PrimFloat.leb quantity 0%float).
  { cbn. intros [<- | []]. discriminate. }
  destruct (PrimFloat.eqb (leverage signal) 0%float) eqn:E7.
  { cbn. intros [<- | [<- | []]]; discriminate. }
  intros _ _. repeat split; assumption.
Qed.

End ExecutorEvents.

(** The entry order of the calm sample: the signal passed every check. *)
Lemma requests_only_for_checked_signals_witness :
  PrimFloat.leb
    (hosted_trading_loop.get_user_equity
       (hosted_trading_loop.equity_user_state calm_env)) 0%float = false
  /\ Py.truthy (hosted_trading_loop.stop_loss ada_row) = true
  /\ Py.truthy (hosted_trading_loop.take_profit ada_row) = true
  /\ PrimFloat.leb (hosted_trading_loop.stop_loss ada_row) 0%float = false
  /\ PrimFloat.leb (hosted_trading_loop.take_profit ada_row) 0%float = false
  /\ PrimFloat.leb
       (PrimFloat.abs (hosted_trading_loop.entry_price ada_row
                       - hosted_trading_loop.stop_loss ada_row)) 0%float = false
  /\ PrimFloat.eqb (hosted_trading_loop.leverage ada_row) 0%float = false.
Proof.
  apply (requests_only_for_checked_signals 50 [] (fun p => Some p) calm_env ada_row
           ada_row "0xA11CE" (EvOrder "ADA" true 999.99 0.5025 LimitIoc false)).
  - cbv. right. right. left. reflexivity.
  - reflexivity.
Defined.

(** The three requests of the calm sample: the entry buys, the two exits
    are reduce-only sells. *)
Lemma exposure_only_through_entry_witness :
  "ADA" = hosted_trading_loop.convert_symbol_to_hl (hosted_trading_loop.symbol ada_row)
  /\ false = negb (String.eqb (Py.upper (hosted_trading_loop.action ada_row)) "BUY").
Proof.
  apply (proj1 (exposure_only_through_entry 50 [] (fun p => Some p) calm_env ada_row
                  ada_row "0xA11CE")
           "ADA" false 999.99%float 0.55%float (TriggerTp 0.55) true).
  cbv. do 4 right. left. reflexivity.
Defined.

(* ------------------------------------------------------------------ *)
(** ** A placement that succeeds *)
(* ------------------------------------------------------------------ *)

Section FirstSuccess.

Import order_utils.

(** Attempt [k] is the first one the exchange answered with a
    placement. *)
Definition first_success (body : OrderReply -> OrderResult + string)
           (exchange : nat -> OrderReply) (k : nat) (r : OrderResult) : Prop :=
  (1 <= k <= 3)%nat
  /\ body (exchange k) = inl r
  /\ forall j, (1 <= j < k)%nat -> exists e, body (exchange j) = inr e.

(** What a placement that returned an order asked for: as many requests
    as attempts, the sleeps between them, no alert. *)
Definition stopped_at (k : nat) (t : Trace) : Prop :=
  count_orders t = k
  /\ sleeps_of t = firstn (k - 1) [1%float; 2%float]
  /\ filter is_notify t = []
  /\ List.length t = (2 * k - 1)%nat.

Lemma place_loop_first_success exchange coin is_buy q px ty ro body r :
  returned (snd (place_loop exchange (EvOrder coin is_buy q px ty ro) body
                   MAX_RETRIES 1 INITIAL_BACKOFF [] None)) = Some r ->
  exists k,
    first_success body exchange k r
    /\ stopped_at k (fst (place_loop exchange (EvOrder coin is_buy q px ty ro) body
                            MAX_RETRIES 1 INITIAL_BACKOFF [] None)).
Proof.
  rewrite place_loop_unrolled. unfold first_success, stopped_at.
  destruct (body (exchange 1%nat)) as [r1|e1] eqn:E1; cbn.
  { intros [= <-]. exists 1%nat. repeat split; auto; try lia. }
  destruct (body (exchange 2%nat)) as [r2|e2] eqn:E2; cbn.
  { intros [= <-]. exists 2%nat. repeat split; auto; try lia.
    intros j Hj. assert (j = 1%nat) as -> by lia. eauto. }
  destruct (body (exchange 3%nat)) as [r3|e3] eqn:E3; cbn.
  { intros [= <-]. exists 3%nat. repeat split; auto; try lia.
    intros j Hj. assert (j = 1 \/ j = 2)%nat as [-> | ->] by lia; eauto. }
  discriminate.
Qed.

(** X3.  A placement returns the answer to its first successful attempt and
    stops there.  When [place_entry_order_with_retry],
    [place_tp_order_with_retry] or [place_sl_order_with_retry] returns an
    order, it is the one read off the answer to attempt [k], the first of
    the three attempts that did not fail; exactly [k] requests were sent,
    with the sleeps of one and two seconds between them, and no alert. *)
Theorem placement_stops_at_first_success :
  forall (exchange : nat -> OrderReply) (coin email key : string) (is_buy : bool)
         (q px : float) (r : OrderResult),
    (snd (place_entry_order_with_retry exchange coin is_buy q px email key) = Some r ->
     exists k,
       first_success entry_attempt exchange k r
       /\ stopped_at k (fst (place_entry_order_with_retry exchange coin is_buy q px
                              email key)))
    /\ (snd (place_tp_order_with_retry exchange coin is_buy q px email key) = Some r ->
        exists k,
          first_success (trigger_attempt "TP") exchange k r
          /\ stopped_at k (fst (place_tp_order_with_retry exchange coin is_buy q px
                                 email key)))
    /\ (snd (place_sl_order_with_retry exchange coin is_buy q px email key) = Some r ->
        exists k,
          first_success (trigger_attempt "SL") exchange k r
          /\ stopped_at k (fst (place_sl_order_with_retry exchange coin is_buy q px
                                 email key))).
Proof.
  intros exchange coin email key is_buy q px r.
  split; [|split].
  - unfold place_entry_order_with_retry.
    pose proof (place_loop_first_success exchange coin is_buy q px LimitIoc false
                  entry_attempt r) as H.
    destruct (place_loop _ _ _ _ _ _ _ _) as [t res]. cbn [fst snd] in *.
    destruct (returned res) as [r'|]; cbn [fst snd]; [|discriminate].
    intros [= ->]. apply H. reflexivity.
  - unfold place_tp_order_with_retry.
    pose proof (place_loop_first_success exchange coin is_buy q px (TriggerTp px) true
                  (trigger_attempt "TP") r) as H.
    destruct (place_loop _ _ _ _ _ _ _ _) as [t res]. cbn [fst snd] in *.
    destruct (returned res) as [r'|]; cbn [fst snd]; [|discriminate].
    intros [= ->]. apply H. reflexivity.
  - unfold place_sl_order_with_retry.
    pose proof (place_loop_first_success exchange coin is_buy q px (TriggerSl px) true
                  (trigger_attempt "SL") r) as H.
    destruct (place_loop _ _ _ _ _ _ _ _) as [t res]. cbn [fst snd] in *.
    destruct (returned res) as [r'|]; cbn [fst snd]; [|discriminate].
    intros [= ->]. apply H. reflexivity.
Qed.

End FirstSuccess.

(** The exchange refuses the first request and fills the second. *)
Definition fills_at_second (k : nat) : order_utils.OrderReply :=
  match k with
  | 2%nat => filled 101 0.5 10
  | _ => rejected
  end.

Lemma placement_stops_at_first_success_witness :
  exists k,
    first_success order_utils.entry_attempt fills_at_second k
      {| order_utils.id := Some 101%Z; order_utils.avgPx := Some 0.5%float;
         order_utils.totalSz := Some 10%float;
         order_utils.raw := filled 101 0.5 10 |}
    /\ stopped_at k
         (fst (order_utils.place_entry_order_with_retry fills_at_second "ADA" true 10
                 0.5 "alice@example.org" "nk_alice")).
Proof.
  apply (proj1 (placement_stops_at_first_success fills_at_second "ADA"
                  "alice@example.org" "nk_alice" true 10 0.5 _)).
  reflexivity.
Defined.

(* ------------------------------------------------------------------ *)
(** ** The session cache of exchange clients *)
(* ------------------------------------------------------------------ *)

Section ExchangeCache.

Import Exchange.

(** X4.  The cache of exchange clients.  Once [get_or_create_exchange] (the
    trading loop) or [get_exchange] (the monitor) has resolved a wallet for
    an API key, every later call for that key answers the same wallet from
    the cache and leaves the cache as it is, whatever the credentials of
    the row and whatever the decryption would now give; a call that fails
    caches nothing. *)
Theorem exchange_cache_round_trip :
  (forall (cache cache' : list (string * string)) (d : Decrypt)
          (user : hosted_trading_loop.PendingRow) (wallet : string),
      hosted_trading_loop.get_or_create_exchange cache d user
      = (cache', hosted_trading_loop.ExchangeOk wallet) ->
      forall (d' : Decrypt) (user' : hosted_trading_loop.PendingRow),
        hosted_trading_loop.api_key user' = hosted_trading_loop.api_key user ->
        hosted_trading_loop.get_or_create_exchange cache' d' user'
        = (cache', hosted_trading_loop.ExchangeOk wallet))
  /\ (forall (cache cache' : list (string * string)) (d : Decrypt)
             (user : hosted_trading_loop.PendingRow)
             (r : hosted_trading_loop.ExchangeResult),
        hosted_trading_loop.get_or_create_exchange cache d user = (cache', r) ->
        (forall wallet, r <> hosted_trading_loop.ExchangeOk wallet) ->
        cache' = cache)
  /\ (forall (cache cache' : list (string * string)) (d : Decrypt)
             (p : position_monitor.Monitored) (wallet : string),
        position_monitor.get_exchange cache d p = (cache', Some wallet) ->
        forall (d' : Decrypt) (p' : position_monitor.Monitored),
          position_monitor.user_api_key p' = position_monitor.user_api_key p ->
          position_monitor.get_exchange cache' d' p' = (cache', Some wallet))
  /\ (forall (cache cache' : list (string * string)) (d : Decrypt)
             (p : position_monitor.Monitored),
        position_monitor.get_exchange cache d p = (cache', None) -> cache' = cache).
Proof.
  split; [|split; [|split]].
  - intros cache cache' d user wallet H d' user' Hkey.
    unfold hosted_trading_loop.get_or_create_exchange in *. rewrite Hkey.
    destruct (hosted_trading_loop.cache_lookup _ cache) as [w0|] eqn:Ec.
    { injection H as <- <-. rewrite Ec. reflexivity. }
    destruct (hosted_trading_loop.option_nonempty
                (hosted_trading_loop.hl_private_key_encrypted user));
      [|discriminate].
    destruct d; try discriminate.
    injection H as <- <-. cbn. rewrite String.eqb_refl. reflexivity.
  - intros cache cache' d user r H Hr.
    unfold hosted_trading_loop.get_or_create_exchange in H.
    destruct (hosted_trading_loop.cache_lookup _ cache) as [w0|].
    { injection H as <- <-. reflexivity. }
    destruct (hosted_trading_loop.option_nonempty _).
    + destruct d; injection H as <- <-; try reflexivity.
      exfalso. eapply Hr. reflexivity.
    + injection H as <- <-. reflexivity.
  - intros cache cache' d p wallet H d' p' Hkey.
    unfold position_monitor.get_exchange in *. rewrite Hkey.
    destruct (position_monitor.cache_lookup _ cache) as [w0|] eqn:Ec.
    { injection H as <- <-. rewrite Ec. reflexivity. }
    destruct (position_monitor.option_nonempty
                (position_monitor.hl_private_key_encrypted p));
      [|discriminate].
    destruct d; try discriminate.
    injection H as <- <-. cbn. rewrite String.eqb_refl. reflexivity.
  - intros cache cache' d p H.
    unfold position_monitor.get_exchange in H.
    destruct (position_monitor.cache_lookup _ cache) as [w0|]; [discriminate|].
    destruct (position_monitor.option_nonempty _).
    + destruct d; try discriminate; injection H as <-; reflexivity.
    + injection H as <-. reflexivity.
Qed.

End ExchangeCache.

(** The first call decrypts and caches; the second finds the wallet
    although the decryption now raises. *)
Lemma exchange_cache_round_trip_witness :
  hosted_trading_loop.get_or_create_exchange [("nk_alice", "0xA11CE")]
    (Exchange.DecryptRaised "InvalidToken") ada_row
  = ([("nk_alice", "0xA11CE")], hosted_trading_loop.ExchangeOk "0xA11CE").
Proof.
  apply (proj1 exchange_cache_round_trip [] [("nk_alice", "0xA11CE")]
           (Exchange.Decrypted "0xA11CE") ada_row "0xA11CE").
  - reflexivity.
  - reflexivity.
Defined.

(* ------------------------------------------------------------------ *)
(** ** A gate that blocks *)
(* ------------------------------------------------------------------ *)

Section GateBlocks.

Import order_utils Store Exchange hosted_trading_loop.

Variable SLIPPAGE_BPS : Z.
Variable asset_meta : list (string * nat).
Variable round_price : float -> option float.

Lemma gate_is_read_only db env wallet user_short uid sid :
  Forall (fun e => acts_on_exchange e = false)
    (fst (check_any_open_positions_or_orders db env wallet user_short uid sid)).
Proof.
  unfold check_any_open_positions_or_orders, check_same_signal.
  repeat break_match; cbn [fst];
    repeat match goal with
           | H : (_, _) = (_, _) |- _ => injection H as <- <-
           end;
    repeat (apply Forall_app; split); repeat constructor.
Qed.

Lemma acknowledge_signal_rows db now d :
  open_positions (acknowledge_signal db now d) = open_positions db.
Proof. reflexivity. Qed.

(** X5.  The duplicate guard of the safety gate.  When the store holds an
    Open Position row (of any status) for the subscriber and the signal,
    and the gate's two store queries do not raise, the gate answers
    "Position already exists for this signal" without asking the exchange
    anything; and whenever the gate answers that something is open,
    [execute_trade] returns [False] having sent no order, no cancellation
    and no leverage update, and records no Open Position. *)
Theorem gate_blocks_the_trade :
  (forall (db : Store.t) (env : TradeEnv) (wallet user_short : string) (uid : Z)
          (sid : string) (int_id : Z),
      uid <> 0%Z -> Py.nonempty sid = true ->
      gate_signal_lookup_raises env = false ->
      gate_position_count_raises env = false ->
      signal_int_id db sid = Some int_id -> int_id <> 0%Z ->
      (0 < count_positions db uid int_id)%nat ->
      check_any_open_positions_or_orders db env wallet user_short uid sid
      = ([EvDb (DbGateSignalLookup sid) false;
          EvDb (DbGatePositionCount uid int_id) false],
         (true, Some "Position already exists for this signal")))
  /\ (forall (w : World) (env : TradeEnv) (user signal : PendingRow)
             (cache : list (string * string)) (wallet : string)
             (reason : option string),
        ack_raises env = false ->
        get_or_create_exchange (active_exchanges w) (decrypt env) user
        = (cache, ExchangeOk wallet) ->
        snd (check_any_open_positions_or_orders
               (fst (fst (early_acknowledgment (db w) env signal))) env wallet
               (Py.take 15 (api_key user) ++ "...")%string
               (user_id user) (signal_id signal))
        = (true, reason) ->
        snd (execute_trade SLIPPAGE_BPS asset_meta round_price w env user signal)
        = Returned false
        /\ Forall (fun e => acts_on_exchange e = false)
             (snd (fst (execute_trade SLIPPAGE_BPS asset_meta round_price w env
                          user signal)))
        /\ open_positions
             (db (fst (fst (execute_trade SLIPPAGE_BPS asset_meta round_price w env
                              user signal))))
           = open_positions (db w)).
Proof.
  split.
  - intros db env wallet user_short uid sid int_id Hu Hs Hl Hc Hid Hn Hrows.
    unfold check_any_open_positions_or_orders, check_same_signal.
    apply Z.eqb_neq in Hu, Hn. apply Nat.ltb_lt in Hrows.
    rewrite Hu, Hs, Hl, Hid, Hn, Hc, Hrows. reflexivity.
  - intros w env user signal cache wallet reason Hack Hex Hgate.
    pose proof (gate_is_read_only
                  (fst (fst (early_acknowledgment (db w) env signal))) env wallet
                  (Py.take 15 (api_key user) ++ "...")%string
                  (user_id user) (signal_id signal)) as Hquiet.
    pose proof (early_acknowledgment_rows (db w) env signal) as Hrows.
    unfold execute_trade, safety_check.
    destruct (early_acknowledgment (db w) env signal) as [[db1 t_ack] ack_raised] eqn:Ea.
    assert (ack_raised = false /\ Forall (fun e => acts_on_exchange e = false) t_ack)
      as [-> Hquiet0].
    { unfold early_acknowledgment in Ea. rewrite Hack in Ea.
      destruct (delivery_id signal =? 0)%Z; injection Ea as _ <- <-;
        split; repeat constructor. }
    cbn [fst snd db active_exchanges] in *. rewrite Hex.
    destruct (check_any_open_positions_or_orders db1 env wallet _ _ _)
      as [t_gate [has_open reason']].
    cbn [fst snd] in *. injection Hgate as -> ->. cbn [fst snd db].
    split; [reflexivity|]. split; [|exact Hrows].
    apply Forall_app. split; assumption.
Qed.

End GateBlocks.

(** The sample store with a position of alice on the ADA signal, closed
    long ago. *)
Definition old_ada_position : Store.OpenPosition :=
  {| Store.op_id := 7; Store.op_user_id := 1; Store.op_signal_id := Some 3%Z;
     Store.op_entry_order_id := Some 91%Z; Store.op_tp_order_id := Some 92%Z;
     Store.op_sl_order_id := Some 93%Z;
     Store.op_symbol := "ADA/USDT"; Store.op_hl_coin := Some "ADA";
     Store.op_side := "BUY";
     Store.op_quantity := 999.99%float; Store.op_leverage := 5%float;
     Store.op_entry_fill_price := Some 0.5%float; Store.op_avg_entry_price := None;
     Store.op_filled_quantity := None; Store.op_fill_count := None;
     Store.op_target_tp := 0.55%float; Store.op_target_sl := 0.48%float;
     Store.op_opened_at := Some 0%Z; Store.op_first_fill_at := None;
     Store.op_last_fill_at := None; Store.op_status := "closed" |}.

Definition traded_world : hosted_trading_loop.World :=
  {| hosted_trading_loop.db :=
       Store.with_open_positions (trading_store false false) [old_ada_position];
     hosted_trading_loop.active_exchanges := [] |}.

Lemma gate_blocks_the_trade_witness :
  snd (hosted_trading_loop.execute_trade 50 [] (fun p => Some p) traded_world calm_env
         ada_row ada_row)
  = hosted_trading_loop.Returned false
  /\ Forall (fun e => acts_on_exchange e = false)
       (snd (fst (hosted_trading_loop.execute_trade 50 [] (fun p => Some p)
                    traded_world calm_env ada_row ada_row)))
  /\ Store.open_positions
       (hosted_trading_loop.db
          (fst (fst (hosted_trading_loop.execute_trade 50 [] (fun p => Some p)
                       traded_world calm_env ada_row ada_row))))
     = [old_ada_position].
Proof.
  refine (proj2 (gate_blocks_the_trade 50 [] (fun p => Some p)) traded_world calm_env
            ada_row ada_row [("nk_alice", "0xA11CE")] "0xA11CE"
            (Some "Position already exists for this signal") _ _ _).
  - reflexivity.
  - reflexivity.
  - rewrite (proj1 (gate_blocks_the_trade 50 [] (fun p => Some p)) _ calm_env
               "0xA11CE" _ 1%Z "sig-ada" 3%Z); try reflexivity; try discriminate.
    cbn. lia.
Defined.

(* ------------------------------------------------------------------ *)
(** ** A poll hands every fetched delivery to the executor *)
(* ------------------------------------------------------------------ *)

Section PollCompleteness.

Import order_utils Store Exchange hosted_trading_loop.

Variable SLIPPAGE_BPS : Z.
Variable asset_meta : list (string * nat).
Variable round_price : float -> option float.

(** The columns of a subscriber the fetch reads. *)
Definition eligibility (u : User)
  : Z * bool * bool * bool * option string * option Timestamp :=
  (u_id u, u_agent_active u, u_credentials_set u, u_access_granted u,
   u_pending_invoice_id u, u_invoice_due_date u).

(** A delivery after some executions: the same row, acknowledged if it
    was. *)
Definition delivery_kept (sd sd' : Delivery) : Prop :=
  sd_id sd' = sd_id sd /\ sd_user_id sd' = sd_user_id sd
  /\ sd_signal_id sd' = sd_signal_id sd
  /\ (sd_acknowledged sd = true -> sd_acknowledged sd' = true).

Definition store_kept (db db' : Store.t) : Prop :=
  signals db' = signals db
  /\ map eligibility (users db') = map eligibility (users db)
  /\ Forall2 delivery_kept (signal_deliveries db) (signal_deliveries db').

Lemma deliveries_kept_refl l : Forall2 delivery_kept l l.
Proof. induction l; constructor; auto. repeat split; auto. Qed.

Lemma deliveries_kept_trans l1 : forall l2 l3,
  Forall2 delivery_kept l1 l2 -> Forall2 delivery_kept l2 l3 ->
  Forall2 delivery_kept l1 l3.
Proof.
  induction l1 as [|a l1 IH]; intros l2 l3 H12 H23.
  - inversion H12; subst. inversion H23; subst. constructor.
  - inversion H12 as [|? b ? l2' Hab H12']; subst.
    inversion H23 as [|? c ? l3' Hbc H23']; subst.
    constructor; [|eapply IH; eassumption].
    destruct Hab as (A1 & A2 & A3 & A4), Hbc as (B1 & B2 & B3 & B4).
    repeat split; try congruence. auto.
Qed.

Lemma deliveries_kept_acknowledge now d l :
  Forall2 delivery_kept l (map (acknowledge now d) l).
Proof.
  induction l as [|sd l IH]; cbn; constructor; [|exact IH].
  unfold acknowledge. destruct (sd_id sd =? d)%Z; repeat split; auto.
Qed.

Lemma store_kept_refl db : store_kept db db.
Proof. repeat split. apply deliveries_kept_refl. Qed.

Lemma store_kept_trans db1 db2 db3 :
  store_kept db1 db2 -> store_kept db2 db3 -> store_kept db1 db3.
Proof.
  intros (A1 & A2 & A3) (B1 & B2 & B3). repeat split; try congruence.
  eapply deliveries_kept_trans; eassumption.
Qed.

Lemma forall2_in_r {A B} (R : A -> B -> Prop) l l' y :
  Forall2 R l l' -> In y l' -> exists x, In x l /\ R x y.
Proof.
  induction 1 as [|a b l l' Hab H IH]; cbn; [intros []|].
  intros [<- | Hin]; [eauto|].
  destruct (IH Hin) as (x & Hx & Hr). eauto.
Qed.

Lemma start_billing_cycle_eligibility uid at_ u :
  eligibility (start_billing_cycle uid at_ u) = eligibility u.
Proof.
  unfold start_billing_cycle. destruct (u_id u =? uid)%Z; [|reflexivity].
  destruct (u_billing_cycle_start u); reflexivity.
Qed.

Lemma record_open_position_kept db env user signal b :
  store_kept db (fst (record_open_position db env user signal b)).
Proof.
  unfold record_open_position.
  destruct (record_signal_lookup_raises env); [apply store_kept_refl|].
  destruct (record_insert_raises env); [apply store_kept_refl|].
  destruct (record_billing_raises env); cbn.
  - repeat split. apply deliveries_kept_refl.
  - repeat split; cbn; [|apply deliveries_kept_refl].
    rewrite map_map. apply map_ext. intros u. apply start_billing_cycle_eligibility.
Qed.

Lemma execute_trade_kept w env user signal :
  store_kept (db w)
    (db (fst (fst (execute_trade SLIPPAGE_BPS asset_meta round_price w env user signal)))).
Proof.
  unfold execute_trade.
  assert (store_kept (db w) (fst (fst (early_acknowledgment (db w) env signal)))) as Hk.
  { unfold early_acknowledgment.
    destruct (delivery_id signal =? 0)%Z; [apply store_kept_refl|].
    destruct (ack_raises env); [apply store_kept_refl|].
    repeat split. cbn. apply deliveries_kept_acknowledge. }
  destruct (early_acknowledgment (db w) env signal) as [[db1 t_ack] [|]];
    cbn [fst snd db] in *; [exact Hk|].
  destruct (safety_check _ env user signal) as [[cache t_gate] [wallet|]];
    cbn [fst snd db]; [|exact Hk].
  destruct (size_and_place _ _ _ env user signal wallet) as [t_place [b|]];
    cbn [fst snd db]; [|exact Hk].
  pose proof (record_open_position_kept db1 env user signal b) as Hr.
  destruct (record_open_position db1 env user signal b) as [db2 t_rec].
  cbn [fst snd db] in *. eapply store_kept_trans; eassumption.
Qed.

(** Every delivery with this id is acknowledged; and it stays so. *)
Definition settled (db : Store.t) (d : Z) : Prop :=
  forall sd, In sd (signal_deliveries db) -> sd_id sd = d -> sd_acknowledged sd = true.

Lemma settled_later db db' d : store_kept db db' -> settled db d -> settled db' d.
Proof.
  intros (_ & _ & H) Hack sd' Hin Hid.
  destruct (forall2_in_r _ _ _ _ H Hin) as (sd & Hsd & (E1 & _ & _ & Hmono)).
  apply Hmono. apply (Hack sd Hsd). congruence.
Qed.

Lemma execute_trade_settles w env item :
  delivery_id item <> 0%Z -> ack_raises env = false ->
  settled (db (fst (fst (execute_trade SLIPPAGE_BPS asset_meta round_price w env
                           item item)))) (delivery_id item).
Proof.
  intros Hd Hack sd Hin Hid.
  rewrite (execute_trade_deliveries SLIPPAGE_BPS asset_meta round_price w env item item
             Hd Hack) in Hin.
  apply in_map_iff in Hin as (sd0 & <- & _).
  rewrite acknowledge_id in Hid. unfold acknowledge.
  apply Z.eqb_eq in Hid. rewrite Hid. reflexivity.
Qed.

(** The rows a batch is run on all end acknowledged. *)
Definition runnable (env : TickEnv) (item : PendingRow) : Prop :=
  delivery_id item <> 0%Z /\ ack_raises (trade_env env item) = false.

Lemma gather_settles env : forall l w,
  Forall (runnable env) l ->
  store_kept (db w) (db (fst (gather SLIPPAGE_BPS asset_meta round_price w env l)))
  /\ forall r, In r l ->
       settled (db (fst (gather SLIPPAGE_BPS asset_meta round_price w env l)))
         (delivery_id r).
Proof.
  induction l as [|item l IH]; intros w Hall; cbn.
  - split; [apply store_kept_refl|intros r []].
  - apply Forall_cons_iff in Hall as [[Hd Hack] Hall].
    pose proof (execute_signal_db SLIPPAGE_BPS asset_meta round_price w
                  (trade_env env item) item) as Hdb.
    pose proof (execute_trade_kept w (trade_env env item) item item) as Hk1.
    pose proof (execute_trade_settles w (trade_env env item) item Hd Hack) as Hs1.
    rewrite <- Hdb in Hk1, Hs1.
    destruct (_execute_signal_for_user _ _ _ w (trade_env env item) item) as [w1 t1].
    cbn [fst] in *.
    destruct (IH w1 Hall) as (Hk2 & Hs2).
    destruct (gather _ _ _ w1 env l) as [w2 t2]. cbn [fst] in *.
    split; [eapply store_kept_trans; eassumption|].
    intros r [<- | Hin]; [|apply Hs2; exact Hin].
    eapply settled_later; eassumption.
Qed.

Lemma run_batches_settles env : forall fuel l w,
  (List.length l <= fuel)%nat ->
  Forall (runnable env) l ->
  store_kept (db w)
    (db (fst (run_batches SLIPPAGE_BPS asset_meta round_price fuel w env l)))
  /\ forall r, In r l ->
       settled (db (fst (run_batches SLIPPAGE_BPS asset_meta round_price fuel w env l)))
         (delivery_id r).
Proof.
  induction fuel as [|fuel IH]; intros l w Hlen Hall.
  - destruct l; [|cbn in Hlen; lia]. cbn. split; [apply store_kept_refl|intros r []].
  - destruct l as [|x l']; [cbn; split; [apply store_kept_refl|intros r []]|].
    rewrite run_batches_step.
    remember (x :: l') as l eqn:El.
    assert (Forall (runnable env) (firstn BATCH_SIZE l)
            /\ Forall (runnable env) (skipn BATCH_SIZE l)) as [Hf Hs].
    { rewrite <- (firstn_skipn BATCH_SIZE l) in Hall.
      apply Forall_app in Hall. exact Hall. }
    destruct (gather_settles env (firstn BATCH_SIZE l) w Hf) as (Hk1 & Hs1).
    destruct (gather _ _ _ w env (firstn BATCH_SIZE l)) as [w1 t1]. cbn [fst] in *.
    assert (forall r, In r l ->
              In r (firstn BATCH_SIZE l) \/ In r (skipn BATCH_SIZE l)) as Hsplit.
    { intros r Hin. rewrite <- (firstn_skipn BATCH_SIZE l) in Hin.
      apply in_app_or. exact Hin. }
    destruct (skipn BATCH_SIZE l) as [|y rest] eqn:Es.
    + cbn [fst]. split; [exact Hk1|].
      intros r Hin. destruct (Hsplit r Hin) as [H | []]. apply Hs1. exact H.
    + assert (List.length (y :: rest) <= fuel)%nat as Hlen'.
      { rewrite <- Es, length_skipn. subst l. cbn [List.length] in *.
        unfold BATCH_SIZE. lia. }
      destruct (IH (y :: rest) w1 Hlen' Hs) as (Hk2 & Hs2).
      destruct (run_batches _ _ _ fuel w1 env (y :: rest)) as [w2 t2].
      cbn [fst] in *. split; [eapply store_kept_trans; eassumption|].
      intros r Hin. destruct (Hsplit r Hin) as [H | H].
      * eapply settled_later; [exact Hk2|]. apply Hs1. exact H.
      * apply Hs2. exact H.
Qed.

Lemma invoice_not_overdue_earlier now now' u u' :
  eligibility u = eligibility u' -> (now <= now')%Z ->
  invoice_not_overdue now' u' = true -> invoice_not_overdue now u = true.
Proof.
  unfold eligibility, invoice_not_overdue. intros [= _ _ _ _ -> ->] Hle.
  destruct (u_pending_invoice_id u'); [|reflexivity].
  destruct (u_invoice_due_date u'); [|reflexivity].
  rewrite !Z.ltb_lt. lia.
Qed.

(** X6.  A poll leaves nothing pending.  On a store with unique keys, when
    the fetch does not raise and the acknowledgment of no fetched row
    raises, [poll_and_execute] hands every fetched row to the executor:
    each of their deliveries is acknowledged in the store the poll leaves,
    and a fetch on that store, then or later, returns no row (until a new
    signal is broadcast or a flag is reset from outside). *)
Theorem poll_leaves_nothing_pending :
  forall (w : World) (env : TickEnv) (later : Timestamp),
    keys_unique (db w) ->
    (forall l, Permutation l (shuffle env l)) ->
    fetch_raises env = None ->
    (forall r, In r (get_pending_signals_batched (db w) (tick_now env)) ->
               ack_raises (trade_env env r) = false) ->
    (tick_now env <= later)%Z ->
    (forall r sd,
        In r (get_pending_signals_batched (db w) (tick_now env)) ->
        In sd (signal_deliveries
                 (db (fst (fst (poll_and_execute SLIPPAGE_BPS asset_meta round_price
                                  w env))))) ->
        sd_id sd = delivery_id r -> sd_acknowledged sd = true)
    /\ get_pending_signals_batched
         (db (fst (fst (poll_and_execute SLIPPAGE_BPS asset_meta round_price w env))))
         later
       = [].
Proof.
  intros w env later K Hperm Hfetch Hack Hle.
  assert (store_kept (db w)
            (db (fst (fst (poll_and_execute SLIPPAGE_BPS asset_meta round_price w env))))
          /\ forall r, In r (get_pending_signals_batched (db w) (tick_now env)) ->
               settled (db (fst (fst (poll_and_execute SLIPPAGE_BPS asset_meta
                                        round_price w env)))) (delivery_id r))
    as [Hk Hs].
  { unfold poll_and_execute. rewrite Hfetch.
    destruct (fetch_owed (db w) (tick_now env) K) as (_ & Howed).
    destruct (get_pending_signals_batched (db w) (tick_now env)) as [|x l] eqn:Ef.
    { cbn. split; [apply store_kept_refl|intros r []]. }
    remember (x :: l) as pending eqn:Ep. clear Ep.
    assert (Forall (runnable env) (shuffle env pending)) as Hrun.
    { apply Forall_forall. intros r Hin.
      apply (Permutation_in _ (Permutation_sym (Hperm pending))) in Hin.
      split; [|apply Hack; exact Hin].
      rewrite Forall_forall in Howed. apply (Howed r Hin). }
    destruct (run_batches_settles env (List.length (shuffle env pending))
                (shuffle env pending) w (Nat.le_refl _) Hrun) as (Hk & Hs).
    destruct (run_batches _ _ _ _ w env (shuffle env pending)) as [w' t].
    cbn [fst] in *. split; [exact Hk|].
    intros r Hin. apply Hs. apply (Permutation_in _ (Hperm pending)). exact Hin. }
  split.
  { intros r sd Hr Hsd Hid. exact (Hs r Hr sd Hsd Hid). }
  set (db' := db (fst (fst (poll_and_execute SLIPPAGE_BPS asset_meta round_price w env))))
    in *.
  destruct (get_pending_signals_batched db' later) as [|r l] eqn:Ef; [reflexivity|].
  exfalso.
  assert (In r (get_pending_signals_batched db' later)) as Hin
      by (rewrite Ef; left; reflexivity).
  apply fetch_spec in Hin as (u' & sd' & s & Hj & Hw & _).
  apply joined_spec in Hj as (Hu' & Hsd' & Hs' & E1 & E2).
  destruct Hk as (Hsig & Husers & Hdel).
  destruct (forall2_in_r _ _ _ _ Hdel Hsd') as (sd & Hsd & (D1 & D2 & D3 & Dmono)).
  assert (exists u, In u (users (db w)) /\ eligibility u = eligibility u')
    as (u & Hu & Eu).
  { apply (in_map eligibility) in Hu'. rewrite Husers in Hu'.
    apply in_map_iff in Hu' as (u & Eu & Hu). eauto. }
  rewrite Hsig in Hs'.
  unfold pending_where in Hw.
  apply andb_true_iff in Hw as [Hw Htime].
  apply andb_true_iff in Hw as [Hw Hnack].
  apply andb_true_iff in Hw as [Hw Hinv].
  apply andb_true_iff in Hw as [Hw Hacc].
  apply andb_true_iff in Hw as [Hactive Hcred].
  assert (sd_acknowledged sd = false) as Hun.
  { destruct (sd_acknowledged sd); [|reflexivity].
    rewrite (Dmono eq_refl) in *. discriminate. }
  assert (In (select_row (u, sd, s))
             (get_pending_signals_batched (db w) (tick_now env))) as Hfetched.
  { apply fetch_spec. exists u, sd, s. split; [|split; [|reflexivity]].
    - apply joined_spec. repeat split; auto.
      + unfold eligibility in Eu. injection Eu as -> _. congruence.
      + congruence.
    - unfold pending_where.
      rewrite (invoice_not_overdue_earlier (tick_now env) later u u' Eu Hle Hinv).
      unfold eligibility in Eu. injection Eu as _ -> -> -> _ _.
      rewrite Hactive, Hcred, Hacc, Hun. cbn.
      apply Z.ltb_lt. apply Z.ltb_lt in Htime.
      unfold minutes, seconds in *. lia. }
  specialize (Hs _ Hfetched sd' Hsd'). cbn in Hs.
  rewrite (Hs D1) in *. discriminate.
Qed.

End PollCompleteness.

(** One calm poll of the sample store: the delivery is acknowledged and a
    fetch four minutes later finds nothing. *)
Lemma poll_leaves_nothing_pending_witness :
  (forall r sd,
      In r (hosted_trading_loop.get_pending_signals_batched
              (hosted_trading_loop.db trading_world)
              (hosted_trading_loop.tick_now calm_tick)) ->
      In sd (Store.signal_deliveries
               (hosted_trading_loop.db
                  (fst (fst (hosted_trading_loop.poll_and_execute 50 []
                               (fun p => Some p) trading_world calm_tick))))) ->
      Store.sd_id sd = hosted_trading_loop.delivery_id r ->
      Store.sd_acknowledged sd = true)
  /\ hosted_trading_loop.get_pending_signals_batched
       (hosted_trading_loop.db
          (fst (fst (hosted_trading_loop.poll_and_execute 50 [] (fun p => Some p)
                       trading_world calm_tick))))
       (minutes 5)
     = [].
Proof.
  apply (poll_leaves_nothing_pending 50 [] (fun p => Some p) trading_world calm_tick
           (minutes 5)).
  - exact trading_store_keys.
  - intros l. apply Permutation_refl.
  - reflexivity.
  - intros r _. reflexivity.
  - cbv. discriminate.
Defined.

(* ------------------------------------------------------------------ *)
(** ** The signal lookup of the monitor *)
(* ------------------------------------------------------------------ *)

Section SignalLookup.

Import Store Exchange position_monitor.

(** A text without the wildcards and the escape character of LIKE. *)
Fixpoint plain (s : string) : bool :=
  match s with
  | EmptyString => true
  | String c s' =>
      negb (Ascii.eqb c "%") && negb (Ascii.eqb c "_") && negb (Ascii.eqb c "\")
      && plain s'
  end.

Lemma like_any_run s : like "%" s = true.
Proof. induction s as [|c s IH]; [reflexivity|]. cbn in *. exact IH. Qed.

Lemma like_percent p s :
  like (String "%" p) s
  = like p s || match s with
                | EmptyString => false
                | String _ s' => like (String "%" p) s'
                end.
Proof. destruct s; reflexivity. Qed.

Lemma like_plain_prefix base : forall s,
  plain base = true -> like (base ++ "%") s = String.prefix base s.
Proof.
  induction base as [|c base IH]; intros s Hp.
  - cbn [append]. rewrite like_any_run. destruct s; reflexivity.
  - cbn [plain] in Hp.
    apply andb_true_iff in Hp as [Hp Hrest].
    apply andb_true_iff in Hp as [Hp H3].
    apply andb_true_iff in Hp as [H1 H2].
    apply negb_true_iff in H1, H2, H3.
    cbn [append like]. rewrite H1, H2, H3.
    destruct s as [|x s]; [reflexivity|].
    cbn [String.prefix]. rewrite IH by exact Hrest.
    destruct (ascii_dec c x) as [-> | Hne].
    + rewrite Ascii.eqb_refl. reflexivity.
    + apply Ascii.eqb_neq in Hne. rewrite Ascii.eqb_sym, Hne. reflexivity.
Qed.

(** X7.  The LIKE pattern of [find_matching_signal] is containment.  For a
    base symbol without [%], [_] and backslash, the pattern [%base%]
    matches exactly the texts that contain the base; so a signal matches a
    closed position when its upper-cased symbol contains the base symbol of
    the position, its action is the equivalent one and it is at most 48
    hours old.  An empty base symbol is contained in every text. *)
Theorem like_is_containment :
  (forall base s : string,
      plain base = true ->
      like ("%" ++ base ++ "%")%string s = Py.contains base s)
  /\ (forall (now : Timestamp) (symbol side : string) (sg : Signal),
        plain (get_base_symbol symbol) = true ->
        signal_matches now symbol side sg
        = Py.contains (get_base_symbol symbol) (Py.upper (s_symbol sg))
          && String.eqb (Py.upper (s_action sg)) (Py.upper (signal_action_of side))
          && (now - hours LOOKBACK_HOURS <=? s_created_at sg)%Z)
  /\ (forall s : string, Py.contains "" s = true).
Proof.
  assert (forall base s, plain base = true ->
            like ("%" ++ base ++ "%")%string s = Py.contains base s) as H.
  { intros base s Hp. induction s as [|x s IH].
    - change ("%" ++ base ++ "%")%string with (String "%" (base ++ "%")).
      rewrite like_percent, like_plain_prefix by exact Hp. reflexivity.
    - change ("%" ++ base ++ "%")%string with (String "%" (base ++ "%")) in *.
      rewrite like_percent, like_plain_prefix by exact Hp.
      rewrite IH. reflexivity. }
  split; [exact H|]. split.
  - intros now symbol side sg Hp. unfold signal_matches. rewrite H by exact Hp.
    reflexivity.
  - intros s. destruct s; reflexivity.
Qed.

Lemma latest_spec l :
  match latest l with
  | Some s => In s l /\ forall s', In s' l -> (s_created_at s' <= s_created_at s)%Z
  | None => l = []
  end.
Proof.
  induction l as [|a l IH]; cbn; [reflexivity|].
  destruct (latest l) as [s|].
  - destruct IH as [Hin Hmax].
    destruct (s_created_at a <? s_created_at s)%Z eqn:E.
    + apply Z.ltb_lt in E. split; [right; exact Hin|].
      intros s' [<- | Hs']; [lia | apply Hmax; exact Hs'].
    + apply Z.ltb_ge in E. split; [left; reflexivity|].
      intros s' [<- | Hs']; [lia|]. specialize (Hmax s' Hs'). lia.
  - subst l. split; [left; reflexivity|]. intros s' [<- | []]. lia.
Qed.

(** X8.  [find_matching_signal] answers the latest signal that matches.
    The signal it returns is a row of the signals table that passes the
    WHERE clause, and no row that passes it was created later; it answers
    nothing only when the query raises or no row passes. *)
Theorem find_matching_signal_is_latest :
  forall (db : Store.t) (now : Timestamp) (raises : bool) (symbol side : string),
    match find_matching_signal db now raises symbol side with
    | Some s =>
        raises = false /\ In s (signals db)
        /\ signal_matches now symbol side s = true
        /\ forall s', In s' (signals db) -> signal_matches now symbol side s' = true ->
                      (s_created_at s' <= s_created_at s)%Z
    | None =>
        raises = true
        \/ forall s', In s' (signals db) -> signal_matches now symbol side s' = false
    end.
Proof.
  intros db now raises symbol side. unfold find_matching_signal.
  destruct raises; [left; reflexivity|].
  pose proof (latest_spec (filter (signal_matches now symbol side) (signals db))) as H.
  destruct (latest _) as [s|].
  - destruct H as [Hin Hmax]. apply filter_In in Hin as [Hin Hm].
    split; [reflexivity|]. split; [exact Hin|]. split; [exact Hm|].
    intros s' Hs' Hm'. apply Hmax. apply filter_In. auto.
  - right. intros s' Hs'.
    destruct (signal_matches now symbol side s') eqn:E; [|reflexivity].
    assert (In s' (filter (signal_matches now symbol side) (signals db))) as Hin
        by (apply filter_In; auto).
    rewrite H in Hin. destruct Hin.
Qed.

(** *** The exit price *)

Fixpoint latest_first (l : list Fill) : Prop :=
  match l with
  | [] => True
  | f :: l' =>
      (forall x, In x l' -> (fill_time_or_zero x <= fill_time_or_zero f)%Z)
      /\ latest_first l'
  end.

Lemma insert_fill_in f x l : In x (insert_fill f l) <-> x = f \/ In x l.
Proof.
  induction l as [|y l IH]; cbn.
  - intuition.
  - destruct (fill_time_or_zero y <=? fill_time_or_zero f)%Z; cbn.
    + intuition.
    + rewrite IH. intuition.
Qed.

Lemma insert_fill_sorted f l : latest_first l -> latest_first (insert_fill f l).
Proof.
  induction l as [|y l IH]; cbn; intros Hs.
  - split; [intros x []|exact I].
  - destruct Hs as [Hy Hl].
    destruct (fill_time_or_zero y <=? fill_time_or_zero f)%Z eqn:E; cbn.
    + apply Z.leb_le in E. split; [|split; assumption].
      intros x [<- | Hx]; [exact E|]. specialize (Hy x Hx). lia.
    + apply Z.leb_gt in E. split; [|apply IH; exact Hl].
      intros x Hx. apply insert_fill_in in Hx as [-> | Hx]; [lia | apply Hy; exact Hx].
Qed.

Lemma sort_fills_in x l : In x (sort_fills l) <-> In x l.
Proof.
  unfold sort_fills. induction l as [|y l IH]; cbn; [tauto|].
  rewrite insert_fill_in, IH. intuition.
Qed.

Lemma sort_fills_sorted l : latest_first (sort_fills l).
Proof.
  unfold sort_fills. induction l as [|y l IH]; cbn; [exact I|].
  apply insert_fill_sorted. exact IH.
Qed.

Lemma find_latest_first (p : Fill -> bool) l :
  latest_first l ->
  match find p l with
  | Some f =>
      In f l /\ p f = true
      /\ forall x, In x l -> p x = true -> (fill_time_or_zero x <= fill_time_or_zero f)%Z
  | None => forall x, In x l -> p x = false
  end.
Proof.
  induction l as [|y l IH]; cbn; intros Hs; [intros x []|].
  destruct Hs as [Hy Hl]. destruct (p y) eqn:E.
  - split; [left; reflexivity|]. split; [exact E|].
    intros x [<- | Hx] _; [lia | apply Hy; exact Hx].
  - specialize (IH Hl). destruct (find p l) as [f|].
    + destruct IH as (Hin & Hp & Hmax). split; [right; exact Hin|].
      split; [exact Hp|].
      intros x [<- | Hx] Hpx; [congruence | apply Hmax; assumption].
    + intros x [<- | Hx]; [exact E | apply IH; exact Hx].
Qed.

(** X9.  The exit price is the price of the latest fill of the coin.  When
    [check_position_closed] reads an exit price off the fills, it is the
    "px" (0 when the key is missing) of a fill of this coin, and no fill
    of this coin in the answer has a later time; it reads none exactly when
    the query raises or the answer has no fill of this coin. *)
Theorem exit_price_is_latest_fill :
  forall (reply : FillsReply) (coin : string),
    match exit_price_from_fills reply coin with
    | Some px =>
        exists fills f,
          reply = FillsReplied fills /\ In f fills /\ fill_coin_is coin f = true
          /\ px = position_monitor.or_zero (fill_px f)
          /\ forall x, In x fills -> fill_coin_is coin x = true ->
                       (fill_time_or_zero x <= fill_time_or_zero f)%Z
    | None =>
        fills_raised reply = true
        \/ exists fills,
             reply = FillsReplied fills
             /\ forall x, In x fills -> fill_coin_is coin x = false
    end.
Proof.
  intros [msg | fills] coin; cbn; [left; reflexivity|].
  pose proof (find_latest_first (fill_coin_is coin) (sort_fills fills)
                (sort_fills_sorted fills)) as H.
  destruct (find (fill_coin_is coin) (sort_fills fills)) as [f|].
  - destruct H as (Hin & Hp & Hmax). exists fills, f.
    apply (proj1 (sort_fills_in _ _)) in Hin.
    split; [reflexivity|]. split; [exact Hin|]. split; [exact Hp|].
    split; [reflexivity|].
    intros x Hx Hpx. apply Hmax; [apply sort_fills_in; exact Hx | exact Hpx].
  - right. exists fills. split; [reflexivity|].
    intros x Hx. apply H. apply sort_fills_in. exact Hx.
Qed.

(** *** The realized P&L *)

(** A fill of the coin, at or after the opening of the position. *)
Definition in_window (coin : string) (since : option Z) (f : Fill) : bool :=
  fill_coin_is coin f
  && match since with
     | Some since_ms => (since_ms <=? fill_time_or_zero f)%Z
     | None => true
     end.

Lemma filter_insert_fill (p : Fill -> bool) f l :
  latest_first l ->
  filter p (insert_fill f l)
  = if p f then insert_fill f (filter p l) else filter p l.
Proof.
  induction l as [|y l IH]; cbn; intros Hs.
  - destruct (p f); reflexivity.
  - destruct Hs as [Hy Hl].
    destruct (fill_time_or_zero y <=? fill_time_or_zero f)%Z eqn:E; cbn.
    + destruct (p f) eqn:Ef; [|reflexivity].
      destruct (p y) eqn:Ey; cbn; [rewrite E; reflexivity|].
      (* every later element is no later than [y], hence than [f] *)
      clear IH. apply Z.leb_le in E.
      induction l as [|z l IHl]; cbn; [reflexivity|].
      destruct Hl as [Hz Hl].
      assert (fill_time_or_zero z <= fill_time_or_zero y)%Z as Hzy
          by (apply Hy; left; reflexivity).
      destruct (p z); cbn.
      * assert ((fill_time_or_zero z <=? fill_time_or_zero f)%Z = true) as ->
            by (apply Z.leb_le; lia).
        reflexivity.
      * apply IHl; [|exact Hl]. intros x Hx. apply Hy. right. exact Hx.
    + rewrite (IH Hl). destruct (p f), (p y); cbn; rewrite ?E; reflexivity.
Qed.

Lemma filter_sort_fills (p : Fill -> bool) l :
  filter p (sort_fills l) = sort_fills (filter p l).
Proof.
  induction l as [|y l IH]; [reflexivity|].
  change (sort_fills (y :: l)) with (insert_fill y (sort_fills l)).
  rewrite filter_insert_fill by apply sort_fills_sorted.
  rewrite IH. cbn [filter]. destruct (p y); reflexivity.
Qed.

Lemma filter_filter_fills (p q : Fill -> bool) l :
  filter p (filter q l) = filter (fun f => q f && p f) l.
Proof.
  induction l as [|y l IH]; cbn; [reflexivity|].
  destruct (q y); cbn; [destruct (p y); cbn; rewrite IH; reflexivity | exact IH].
Qed.

Lemma sort_fills_nil l : sort_fills l = [] <-> l = [].
Proof.
  split; [|intros ->; reflexivity].
  destruct l as [|y l]; [reflexivity|]. intros H.
  assert (In y (sort_fills (y :: l))) as Hin
      by (apply sort_fills_in; left; reflexivity).
  rewrite H in Hin. destruct Hin.
Qed.

Lemma realized_pnl_window fills coin since :
  get_hl_realized_pnl (FillsReplied fills) coin since
  = match sort_fills (filter (in_window coin since) fills) with
    | [] => None
    | _ :: _ =>
        Some (fold_left
                (fun acc f => (acc + position_monitor.or_zero (fill_closedPnl f))%float)
                (sort_fills (filter (in_window coin since) fills)) 0%float)
    end.
Proof.
  unfold get_hl_realized_pnl.
  assert (match since with
          | Some since_ms =>
              filter (fun f => (since_ms <=? fill_time_or_zero f)%Z)
                (sort_fills (filter (fill_coin_is coin) fills))
          | None => sort_fills (filter (fill_coin_is coin) fills)
          end
          = sort_fills (filter (in_window coin since) fills)) as ->.
  { unfold in_window. destruct since as [ms|].
    - rewrite filter_sort_fills, filter_filter_fills. reflexivity.
    - f_equal. apply filter_ext. intros f. rewrite andb_true_r. reflexivity. }
  reflexivity.
Qed.

(** X10.  The realized P&L reads the fills of the coin since the opening,
    and nothing else.  [get_hl_realized_pnl] gives the same answer when
    every other fill is taken out of what the exchange returned; it gives
    no P&L exactly when the query raises or no fill of the coin is at or
    after the opening time (any time when the position has none). *)
Theorem realized_pnl_reads_its_window :
  forall (fills : list Fill) (coin : string) (since : option Z),
    get_hl_realized_pnl (FillsReplied fills) coin since
    = get_hl_realized_pnl (FillsReplied (filter (in_window coin since) fills)) coin since
    /\ (get_hl_realized_pnl (FillsReplied fills) coin since = None
        <-> forall f, In f fills -> in_window coin since f = false)
    /\ forall msg, get_hl_realized_pnl (FillsRaised msg) coin since = None.
Proof.
  intros fills coin since. split; [|split; [|reflexivity]].
  - rewrite !realized_pnl_window. rewrite filter_filter_fills.
    rewrite (filter_ext
               (fun f => in_window coin since f && in_window coin since f)
               (in_window coin since)); [reflexivity|].
    intros f. apply andb_diag.
  - rewrite realized_pnl_window. split.
    + intros H f Hin.
      destruct (sort_fills (filter (in_window coin since) fills)) eqn:E;
        [|discriminate].
      apply (proj1 (sort_fills_nil _)) in E.
      destruct (in_window coin since f) eqn:Ew; [|reflexivity].
      assert (In f (filter (in_window coin since) fills)) as Hf
          by (apply filter_In; auto).
      rewrite E in Hf. destruct Hf.
    + intros H. rewrite (filter_nil_of_forall _ _ H). reflexivity.
Qed.

End SignalLookup.

(** The pattern of an ETH position matches the symbol of an ETHFI signal. *)
Lemma like_is_containment_witness :
  position_monitor.like "%ETH%" "ETHFI/USDT" = Py.contains "ETH" "ETHFI/USDT".
Proof.
  apply (proj1 like_is_containment "ETH" "ETHFI/USDT"). reflexivity.
Defined.

(* ------------------------------------------------------------------ *)
(** ** What the monitor does with a position *)
(* ------------------------------------------------------------------ *)

Section MonitorActions.

Import Store Exchange position_monitor.

Lemma live_position_of_open coin l q :
  In q l -> is_open q = true -> live_position coin l <> None.
Proof.
  intros Hin Ho. unfold live_position.
  destruct (find (fun p => coin_is coin (pos_coin p) && is_open p) l); [discriminate|].
  destruct (find is_open l) eqn:E; [discriminate|].
  rewrite (find_none _ _ E q Hin) in Ho. discriminate.
Qed.

(** X11.  The monitor waits while the account shows a position.  When the
    state query raises, or the account state lists a position of non-zero
    size (on the coin of the Open Position or on any other coin),
    [check_position] leaves the store as it is and asks the exchange
    nothing beyond that state query: no open-orders or fills query, no
    cancellation. *)
Theorem monitor_waits_while_position_is_live :
  forall (w : World) (env : MonitorEnv) (p : Monitored),
    (exists e, m_user_state env = StateRaised e)
    \/ (exists st l q,
          m_user_state env = StateReplied (Some st)
          /\ assetPositions st = Some l /\ In q l /\ is_open q = true) ->
    db (fst (check_position w env p)) = db w
    /\ Forall (fun e => exists wallet raised, e = EvUserState wallet raised)
         (snd (check_position w env p)).
Proof.
  intros w env p Hlive. unfold check_position.
  destruct (get_exchange (active_exchanges w) (m_decrypt env) p) as [cache [wallet|]];
    [|split; [reflexivity|constructor]].
  unfold check_position_closed.
  destruct Hlive as [(e & ->) | (st & l & q & -> & Hl & Hin & Ho)].
  - cbn. split; [reflexivity|]. repeat constructor. eauto.
  - rewrite Hl.
    pose proof (live_position_of_open
                  (match option_nonempty (op_hl_coin (position p)) with
                   | Some c => c
                   | None => get_base_symbol (op_symbol (position p))
                   end) l q Hin Ho) as Hne.
    destruct (live_position _ l); [|congruence].
    cbn. split; [reflexivity|]. repeat constructor. eauto.
Qed.

(** A subscriber row after "Update user stats": the subscriber [uid] has
    one trade more and the profit added, in the totals and in the current
    cycle; every other subscriber is as before. *)
Definition credited (uid : Z) (profit : float) (u u' : User) : Prop :=
  u_id u' = u_id u
  /\ if (u_id u =? uid)%Z
     then u_total_trades u'
          = Some (match u_total_trades u with Some n => n | None => 0 end + 1)%Z
          /\ u_total_profit u' = Some (or_zero (u_total_profit u) + profit)%float
          /\ u_current_cycle_trades u'
             = Some (match u_current_cycle_trades u with Some n => n | None => 0 end + 1)%Z
          /\ u_current_cycle_profit u'
             = Some (or_zero (u_current_cycle_profit u) + profit)%float
     else u' = u.

Lemma add_stats_credited uid profit u : credited uid profit u (add_stats uid profit u).
Proof.
  unfold credited, add_stats. destruct (u_id u =? uid)%Z; cbn; auto.
Qed.

Lemma start_cycle_credited uid profit ts u :
  credited uid profit u (start_cycle uid ts (add_stats uid profit u)).
Proof.
  unfold credited, start_cycle, add_stats.
  destruct (u_id u =? uid)%Z eqn:E; cbn; rewrite E; [|auto].
  destruct (u_billing_cycle_start u); cbn; auto.
Qed.

Lemma credited_map uid profit (f : User -> User) l :
  (forall u, credited uid profit u (f u)) -> Forall2 (credited uid profit) l (map f l).
Proof. intros H. induction l; cbn; constructor; auto. Qed.

(** What the four statements leave, by the answer of the function. *)
Lemma write_trade_outcome db now raises pos tr :
  let r := write_trade db now raises pos tr in
  (snd r = true ->
     trades (fst r) = trades db ++ [tr]
     /\ Forall2 (credited (op_user_id pos) (t_profit_usd tr)) (users db) (users (fst r))
     /\ (op_id pos <> 0%Z ->
         open_positions (fst r)
         = map (set_status (op_id pos) "closed" (Some now)) (open_positions db)))
  /\ (snd r = false -> open_positions (fst r) = open_positions db)
  /\ (users (fst r) = users db
      \/ (trades (fst r) = trades db ++ [tr]
          /\ Forall2 (credited (op_user_id pos) (t_profit_usd tr))
               (users db) (users (fst r))))
  /\ (insert_raises raises = false -> stats_raises raises = false ->
      cycle_raises raises = false ->
      trades (fst r) = trades db ++ [tr]
      /\ Forall2 (credited (op_user_id pos) (t_profit_usd tr)) (users db) (users (fst r))
      /\ (close_raises raises = true -> op_id pos <> 0%Z -> snd r = false)).
Proof.
  cbv zeta.
  assert (Forall2 (credited (op_user_id pos) (t_profit_usd tr)) (users db)
            (map (add_stats (op_user_id pos) (t_profit_usd tr)) (users db))) as C1.
  { apply credited_map. intros u. apply add_stats_credited. }
  assert (forall ts,
             Forall2 (credited (op_user_id pos) (t_profit_usd tr)) (users db)
               (map (start_cycle (op_user_id pos) ts)
                  (map (add_stats (op_user_id pos) (t_profit_usd tr)) (users db))))
    as C2.
  { intros ts. rewrite map_map. apply credited_map. intros u.
    apply start_cycle_credited. }
  assert (forall db0,
             trades db0 = trades db ++ [tr] ->
             Forall2 (credited (op_user_id pos) (t_profit_usd tr)) (users db) (users db0) ->
             open_positions db0 = open_positions db ->
             let r := mark_closed db0 now raises pos in
             (snd r = true ->
                trades (fst r) = trades db ++ [tr]
                /\ Forall2 (credited (op_user_id pos) (t_profit_usd tr))
                     (users db) (users (fst r))
                /\ (op_id pos <> 0%Z ->
                    open_positions (fst r)
                    = map (set_status (op_id pos) "closed" (Some now)) (open_positions db)))
             /\ (snd r = false -> open_positions (fst r) = open_positions db)
             /\ (users (fst r) = users db
                 \/ (trades (fst r) = trades db ++ [tr]
                     /\ Forall2 (credited (op_user_id pos) (t_profit_usd tr))
                          (users db) (users (fst r))))
             /\ (trades (fst r) = trades db ++ [tr]
                 /\ Forall2 (credited (op_user_id pos) (t_profit_usd tr))
                      (users db) (users (fst r))
                 /\ (close_raises raises = true -> op_id pos <> 0%Z -> snd r = false)))
    as Hclose.
  { intros db0 Ht Hc Hp. cbv zeta.
    rewrite mark_closed_trades, mark_closed_users.
    unfold mark_closed, mark.
    destruct (op_id pos =? 0)%Z eqn:E0.
    - apply Z.eqb_eq in E0. cbn [fst snd].
      split; [intros _; split; [exact Ht|]; split; [exact Hc|]; intros H; contradiction|].
      split; [intros _; exact Hp|]. split; [right; auto|].
      split; [exact Ht|]. split; [exact Hc|]. intros _ H. contradiction.
    - destruct (close_raises raises); cbn [fst snd].
      + split; [discriminate|]. split; [intros _; exact Hp|]. split; [right; auto|].
        split; [exact Ht|]. split; [exact Hc|]. reflexivity.
      + split; [intros _; split; [exact Ht|]; split; [exact Hc|]; intros _;
                cbn; rewrite Hp; reflexivity|].
        split; [discriminate|]. split; [right; auto|].
        split; [exact Ht|]. split; [exact Hc|]. discriminate. }
  unfold write_trade.
  destruct (insert_raises raises).
  { cbn [fst snd]. split; [discriminate|]. split; [reflexivity|].
    split; [left; reflexivity|]. discriminate. }
  destruct (stats_raises raises).
  { cbn [fst snd]. split; [discriminate|]. split; [reflexivity|].
    split; [left; reflexivity|]. intros _ H. discriminate H. }
  destruct (opened_of pos) as [ts|].
  - destruct (cycle_raises raises).
    { cbn [fst snd]. split; [discriminate|]. split; [reflexivity|].
      split; [right; split; [reflexivity|exact C1]|]. intros _ _ H. discriminate H. }
    match goal with
    | |- context [mark_closed ?d _ _ _] =>
        destruct (Hclose d eq_refl (C2 ts) eq_refl) as (H1 & H2 & H3 & H4)
    end.
    split; [exact H1|]. split; [exact H2|]. split; [exact H3|]. intros _ _ _. exact H4.
  - match goal with
    | |- context [mark_closed ?d _ _ _] =>
        destruct (Hclose d eq_refl C1 eq_refl) as (H1 & H2 & H3 & H4)
    end.
    split; [exact H1|]. split; [exact H2|]. split; [exact H3|]. intros _ _ _. exact H4.
Qed.

(** X12.  The recording of a Trade is four statements, each committed on
    its own: the Trade, the counters, the billing cycle, the status.
    [record_trade_close] answers [True] only when all of them ran: the
    ledger is then one Trade of the position longer (the subscriber of the
    position, the given exit price, exit type and closing time, no fee;
    the profit is the realized P&L of the exchange when its magnitude
    exceeds 0.01), that subscriber and nobody else is credited with
    exactly the profit of that Trade and one trade, and the position has
    the status "closed".  The counters are never credited without the
    Trade in the ledger, and a position is never marked closed on an
    answer [False].  But the answer [False] does not mean that nothing was
    written: when the status UPDATE raises after the other statements ran,
    the Trade is in the ledger, the subscriber is credited, and the
    position is left as it was. *)
Theorem recording_is_ledger_then_counters_then_status :
  forall (db : Store.t) (now : Timestamp) (match_raises : bool) (raises : WriteFaults)
         (pos : OpenPosition) (exit_price : float) (exit_type : string)
         (closed_at : Timestamp) (hl_pnl : option float),
    let r := record_trade_close db now match_raises raises pos exit_price exit_type
               closed_at hl_pnl in
    let recorded (tr : Trade) :=
      trades (fst r) = trades db ++ [tr]
      /\ t_user_id tr = op_user_id pos
      /\ t_exit_price tr = exit_price
      /\ t_exit_type tr = exit_type
      /\ t_closed_at tr = closed_at
      /\ t_fee_charged tr = 0%float
      /\ (forall pnl, hl_pnl = Some pnl ->
            PrimFloat.ltb 0.01%float (PrimFloat.abs pnl) = true ->
            t_profit_usd tr = pnl) in
    (trades (fst r) = trades db \/ exists tr, recorded tr)
    /\ (snd r = true ->
        exists tr,
          recorded tr
          /\ Forall2 (credited (op_user_id pos) (t_profit_usd tr))
               (users db) (users (fst r))
          /\ (op_id pos <> 0%Z ->
              status_set (op_id pos) "closed" (open_positions db)
                (open_positions (fst r))))
    /\ (users (fst r) = users db
        \/ exists tr,
             recorded tr
             /\ Forall2 (credited (op_user_id pos) (t_profit_usd tr))
                  (users db) (users (fst r)))
    /\ (snd r = false ->
        forall q, In q (open_positions (fst r)) ->
                  In q (open_positions db) \/ op_status q = "closed_manual")
    /\ (forall prices reference,
          checked_prices pos exit_price = Some prices ->
          signal_reference db now match_raises pos = Some reference ->
          op_id pos <> 0%Z ->
          insert_raises raises = false -> stats_raises raises = false ->
          cycle_raises raises = false -> close_raises raises = true ->
          snd r = false
          /\ open_positions (fst r) = open_positions db
          /\ exists tr,
               recorded tr
               /\ Forall2 (credited (op_user_id pos) (t_profit_usd tr))
                    (users db) (users (fst r))).
Proof.
  intros db now mr raises pos px ty closed pnl. cbv zeta.
  unfold record_trade_close.
  destruct (checked_prices pos px) as [[entry size]|].
  2:{ cbn [fst snd]. split; [left; reflexivity|]. split; [discriminate|].
      split; [left; reflexivity|]. split; [auto|]. intros ? ? H. discriminate H. }
  destruct (signal_reference db now mr pos) as [ref|].
  2:{ cbn [fst snd]. rewrite mark_trades, mark_users.
      split; [left; reflexivity|]. split; [discriminate|].
      split; [left; reflexivity|]. split; [|intros ? ? _ H; discriminate H].
      intros _ q Hq. unfold mark in Hq. destruct (op_id pos =? 0)%Z; [left; exact Hq|].
      cbn in Hq. apply in_map_iff in Hq as (q0 & <- & Hq0).
      unfold set_status. destruct (op_id q0 =? op_id pos)%Z; [right; reflexivity|].
      left. exact Hq0. }
  set (tr := ledger_entry pos ref entry size px ty closed pnl).
  assert (forall db',
             trades db' = trades db ++ [tr] ->
             trades db' = trades db ++ [tr]
             /\ t_user_id tr = op_user_id pos
             /\ t_exit_price tr = px
             /\ t_exit_type tr = ty
             /\ t_closed_at tr = closed
             /\ t_fee_charged tr = 0%float
             /\ (forall pnl0, pnl = Some pnl0 ->
                   PrimFloat.ltb 0.01%float (PrimFloat.abs pnl0) = true ->
                   t_profit_usd tr = pnl0)) as Hrec.
  { intros db' H. split; [exact H|]. repeat (split; [reflexivity|]).
    intros p0 -> Hp. subst tr. cbn [ledger_entry t_profit_usd].
    unfold realized_profit. rewrite Hp. reflexivity. }
  pose proof (write_trade_outcome db now raises pos tr)
    as (Htrue & Hfalse & Husers & Hall).
  pose proof (write_trade_trades db now raises pos tr) as Htrades.
  split.
  { destruct Htrades as [H | H]; [left; exact H|right; exists tr; apply Hrec; exact H]. }
  split.
  { intros Hr. destruct (Htrue Hr) as (Ht & Hc & Hp). exists tr.
    split; [apply Hrec; exact Ht|]. split; [exact Hc|].
    intros Hid. rewrite (Hp Hid). apply status_set_map. }
  split.
  { destruct Husers as [H | [Ht Hc]]; [left; exact H|].
    right. exists tr. split; [apply Hrec; exact Ht|exact Hc]. }
  split.
  { intros Hr q Hq. left. rewrite (Hfalse Hr) in Hq. exact Hq. }
  intros prices reference _ _ Hid Hi Hs Hc Hcl.
  destruct (Hall Hi Hs Hc) as (Ht & Hcr & Hr). specialize (Hr Hcl Hid).
  split; [exact Hr|]. split; [exact (Hfalse Hr)|].
  exists tr. split; [apply Hrec; exact Ht|exact Hcr].
Qed.

End MonitorActions.

(** The state query fails: the position is left as it is. *)
Definition unreachable_env : position_monitor.MonitorEnv :=
  {| position_monitor.m_now := hours 2;
     position_monitor.m_decrypt := Exchange.Decrypted "0xA11CE";
     position_monitor.m_user_state := Exchange.StateRaised "HTTP 502";
     position_monitor.m_open_orders := Exchange.OrdersReplied [];
     position_monitor.m_exit_fills := Exchange.FillsReplied [];
     position_monitor.m_pnl_fills := Exchange.FillsReplied [];
     position_monitor.m_match_raises := false;
     position_monitor.m_write_raises := position_monitor.no_fault |}.

Lemma monitor_waits_while_position_is_live_witness :
  position_monitor.db
    (fst (position_monitor.check_position monitor_start unreachable_env monitored_eth))
  = position_monitor.db monitor_start
  /\ Forall (fun e => exists wallet raised, e = EvUserState wallet raised)
       (snd (position_monitor.check_position monitor_start unreachable_env
               monitored_eth)).
Proof.
  apply (monitor_waits_while_position_is_live monitor_start unreachable_env
           monitored_eth).
  left. exists "HTTP 502". reflexivity.
Defined.

(** The store takes the Trade, the counters and the billing cycle, and
    refuses the UPDATE of the status. *)
Definition status_fault : position_monitor.WriteFaults :=
  {| position_monitor.insert_raises := false;
     position_monitor.stats_raises := false;
     position_monitor.cycle_raises := false;
     position_monitor.close_raises := true |}.

(** On the sample store the exit at 110 is answered [False]; the Trade is
    in the ledger, the subscriber is credited, the position is still
    open. *)
Lemma recording_is_ledger_then_counters_then_status_witness :
  let r := position_monitor.record_trade_close store_with_ethfi (hours 2) false
             status_fault manual_eth 110 "TP" (hours 2) None in
  snd r = false
  /\ Store.open_positions (fst r) = Store.open_positions store_with_ethfi
  /\ exists tr,
       (Store.trades (fst r) = Store.trades store_with_ethfi ++ [tr]
        /\ Store.t_user_id tr = Store.op_user_id manual_eth
        /\ Store.t_exit_price tr = 110%float
        /\ Store.t_exit_type tr = "TP"
        /\ Store.t_closed_at tr = hours 2
        /\ Store.t_fee_charged tr = 0%float
        /\ (forall pnl, @None float = Some pnl ->
              PrimFloat.ltb 0.01%float (PrimFloat.abs pnl) = true ->
              Store.t_profit_usd tr = pnl))
       /\ Forall2 (credited (Store.op_user_id manual_eth) (Store.t_profit_usd tr))
            (Store.users store_with_ethfi) (Store.users (fst r)).
Proof.
  refine (proj2 (proj2 (proj2 (proj2
            (recording_is_ledger_then_counters_then_status store_with_ethfi (hours 2)
               false status_fault manual_eth 110 "TP" (hours 2) None))))
            (100%float, 2%float) (Some "sig-ethfi") _ _ _ _ _ _ _);
    try reflexivity.
  discriminate.
Defined.

(* ------------------------------------------------------------------ *)
(** ** The emergency close *)
(* ------------------------------------------------------------------ *)

Section EmergencyClose.

Import order_utils Store Exchange hosted_trading_loop.

Variable round_price : float -> option float.

(** The same environment with another answer to the closing order. *)
Definition with_close_exchange (env : TradeEnv) (r : OrderReply) : TradeEnv :=
  {| now := now env; db_error := db_error env; ack_raises := ack_raises env;
     decrypt := decrypt env;
     gate_signal_lookup_raises := gate_signal_lookup_raises env;
     gate_position_count_raises := gate_position_count_raises env;
     gate_recent_trade_raises := gate_recent_trade_raises env;
     gate_user_state := gate_user_state env;
     gate_open_orders := gate_open_orders env;
     equity_user_state := equity_user_state env;
     entry_exchange := entry_exchange env; tp_exchange := tp_exchange env;
     sl_exchange := sl_exchange env; cancel_exchange := cancel_exchange env;
     close_user_state := close_user_state env;
     close_all_mids := close_all_mids env;
     close_exchange := r;
     record_signal_lookup_raises := record_signal_lookup_raises env;
     record_insert_raises := record_insert_raises env;
     record_billing_raises := record_billing_raises env |}.

(** X13.  What the emergency close reports.  [_emergency_close_position]
    sends at most one order; it reports the close as successful exactly
    when that order was sent and the exchange answered it with the status
    "ok"; the statuses inside the answer are not read, so an answer "ok"
    whose first status is an error, or that filled nothing, is reported
    SUCCESSFUL like a fill. *)
Theorem emergency_close_reads_the_status_only :
  forall (env : TradeEnv) (wallet coin email key reason : string) (side : bool)
         (q : float) (entry : option Z),
    (count_orders (fst (emergency_close_order round_price env wallet coin side q)) <= 1)%nat
    /\ (snd (emergency_close_order round_price env wallet coin side q) = true
        <-> exists response statuses px,
              close_exchange env = OrderReplied "ok" response statuses
              /\ In (EvOrder coin side q px LimitIoc true)
                    (fst (emergency_close_order round_price env wallet coin side q)))
    /\ (forall status response statuses statuses',
          _emergency_close_position round_price
            (with_close_exchange env (OrderReplied status response statuses))
            wallet coin side q email key entry reason
          = _emergency_close_position round_price
              (with_close_exchange env (OrderReplied status response statuses'))
              wallet coin side q email key entry reason).
Proof.
  intros env wallet coin email key reason side q entry.
  split; [|split].
  - unfold emergency_close_order. repeat break_match; cbn; lia.
  - unfold emergency_close_order.
    destruct (close_user_state env);
      [split; [discriminate | intros (r & s & px & _ & [H | []]); discriminate]|].
    destruct (close_all_mids env) as [msg | mid].
    { split; [discriminate|].
      intros (r & s & px & _ & [H | [H | []]]); discriminate. }
    destruct (PrimFloat.ltb 0%float _).
    2:{ split; [discriminate|].
        intros (r & s & px & _ & [H | [H | []]]); discriminate. }
    destruct (round_price _) as [limit_px|].
    2:{ split; [discriminate|].
        intros (r & s & px & _ & [H | [H | []]]); discriminate. }
    destruct (close_exchange env) as [msg | status response statuses]; cbn.
    { split; [discriminate|]. intros (r & s & px & H & _). discriminate. }
    split.
    + intros H. apply String.eqb_eq in H. subst status.
      exists response, statuses, limit_px. split; [reflexivity|]. auto.
    + intros (r & s & px & [= -> _ _] & _). reflexivity.
  - intros status response statuses statuses'.
    unfold _emergency_close_position, emergency_close_order. cbn.
    repeat break_match; congruence.
Qed.

End EmergencyClose.

(* ------------------------------------------------------------------ *)
(** ** The order that remains after an exit *)
(* ------------------------------------------------------------------ *)

Section RemainingLeg.

Import Store Exchange position_monitor.

(** X14.  The remaining order is cancelled once.  When [check_position] finds
    the position gone and reads an exit price, it asks the exchange for
    exactly one cancellation, of the stop-loss order when the exit price is
    nearer the take-profit target and of the take-profit order otherwise,
    on the coin of the position (none when that order id is not a number);
    it does so whether or not the closure was recorded, and whichever of
    the two orders the open-orders query still showed. *)
Theorem remaining_order_is_cancelled_once :
  forall (w : World) (env : MonitorEnv) (p : Monitored) (wallet exit_type : string)
         (exit_price : float),
    snd (get_exchange (active_exchanges w) (m_decrypt env) p) = Some wallet ->
    reports_no_position (m_user_state env) = true ->
    exit_type_from_orders (m_open_orders env) (op_tp_order_id (position p))
      (op_sl_order_id (position p)) = Some exit_type ->
    exit_price_from_fills (m_exit_fills env) (monitored_coin p) = Some exit_price ->
    filter is_cancel (snd (check_position w env p))
    = match (if String.eqb
                  (exit_type_by_proximity exit_price (op_target_tp (position p))
                     (op_target_sl (position p))) "TP"
             then op_sl_order_id (position p)
             else op_tp_order_id (position p)) with
      | Some oid => [EvCancel (monitored_coin p) oid]
      | None => []
      end.
Proof.
  intros w env p wallet exit_type exit_price Hex Hflat Hty Hpx.
  unfold check_position.
  destruct (get_exchange (active_exchanges w) (m_decrypt env) p) as [cache o].
  cbn [snd] in Hex. subst o. fold (monitored_coin p).
  rewrite (check_position_closed_flat env wallet (monitored_coin p) _ _ Hflat).
  rewrite Hty, Hpx. unfold close_position.
  destruct (record_trade_close _ _ _ _ _ _ _ _ _) as [db' flag]. cbn [snd].
  destruct (if String.eqb _ "TP" then _ else _); reflexivity.
Qed.

End RemainingLeg.

(** The take-profit order is gone and the latest fill is at the target:
    the stop-loss order 13 is cancelled. *)
Lemma remaining_order_is_cancelled_once_witness :
  filter is_cancel
    (snd (position_monitor.check_position monitor_start (monitor_env 110) monitored_eth))
  = [EvCancel "ETH" 13].
Proof.
  apply (remaining_order_is_cancelled_once monitor_start (monitor_env 110) monitored_eth
           "0xA11CE" "TP" 110).
  - reflexivity.
  - reflexivity.
  - reflexivity.
  - reflexivity.
Defined.

(* ------------------------------------------------------------------ *)
(** ** One Trade per closed position *)
(* ------------------------------------------------------------------ *)

Section MonitorCycle.

Import Store Exchange position_monitor.

(** The primary keys of open_positions and follower_users; a serial key
    starts at 1. *)
Definition positions_unique (db : Store.t) : Prop :=
  NoDup (map op_id (open_positions db))
  /\ ~ In 0%Z (map op_id (open_positions db))
  /\ NoDup (map u_id (users db)).

Definition is_open_of (u : Z) (p : OpenPosition) : bool :=
  (op_user_id p =? u)%Z && String.eqb (op_status p) "open".

(** The positions of a subscriber still to be checked, and the Trades
    recorded for the subscriber. *)
Definition open_count (db : Store.t) (u : Z) : nat :=
  List.length (filter (is_open_of u) (open_positions db)).

Definition trade_count (db : Store.t) (u : Z) : nat :=
  List.length (filter (fun t => (t_user_id t =? u)%Z) (trades db)).

(** A fetched position whose row is still open in the store. *)
Definition listed (db : Store.t) (p : Monitored) : Prop :=
  op_id (position p) <> 0%Z
  /\ exists row,
      In row (open_positions db) /\ op_id row = op_id (position p)
      /\ op_user_id row = op_user_id (position p) /\ op_status row = "open".

(** What the monitor keeps: the keys of the positions and of the
    subscribers. *)
Definition same_rows (db db' : Store.t) : Prop :=
  map op_id (open_positions db') = map op_id (open_positions db)
  /\ map u_id (users db') = map u_id (users db).

Lemma same_rows_refl db : same_rows db db.
Proof. split; reflexivity. Qed.

Lemma same_rows_trans db1 db2 db3 :
  same_rows db1 db2 -> same_rows db2 db3 -> same_rows db1 db3.
Proof. intros [A1 A2] [B1 B2]. split; congruence. Qed.

Lemma positions_unique_same db db' :
  positions_unique db -> same_rows db db' -> positions_unique db'.
Proof.
  intros (K1 & K2 & K3) (A1 & A2). unfold positions_unique. rewrite A1, A2. auto.
Qed.

Lemma set_status_user id status ts q : op_user_id (set_status id status ts q) = op_user_id q.
Proof. unfold set_status. destruct (op_id q =? id)%Z; reflexivity. Qed.

Lemma set_status_other id status ts q : op_id q <> id -> set_status id status ts q = q.
Proof.
  intros H. unfold set_status. apply Z.eqb_neq in H. rewrite H. reflexivity.
Qed.

Lemma set_status_ids id status ts l :
  map op_id (map (set_status id status ts) l) = map op_id l.
Proof. rewrite map_map. apply map_ext. intros q. apply set_status_id. Qed.

Lemma is_open_of_set_status u id status ts q :
  String.eqb status "open" = false ->
  is_open_of u (set_status id status ts q)
  = if (op_id q =? id)%Z then false else is_open_of u q.
Proof.
  intros Hs. unfold is_open_of, set_status.
  destruct (op_id q =? id)%Z; [|reflexivity].
  cbn. rewrite Hs. apply andb_false_r.
Qed.

Lemma set_status_open_le u id status ts l :
  String.eqb status "open" = false ->
  (List.length (filter (is_open_of u) (map (set_status id status ts) l))
   <= List.length (filter (is_open_of u) l))%nat.
Proof.
  intros Hs. induction l as [|q l IH]; cbn; [lia|].
  rewrite (is_open_of_set_status u id status ts q Hs).
  destruct (op_id q =? id)%Z, (is_open_of u q); cbn; lia.
Qed.

Lemma set_status_open_lt u id status ts l row :
  String.eqb status "open" = false ->
  In row l -> op_id row = id -> is_open_of u row = true ->
  (S (List.length (filter (is_open_of u) (map (set_status id status ts) l)))
   <= List.length (filter (is_open_of u) l))%nat.
Proof.
  intros Hs Hin Hid Ho. induction l as [|q l IH]; [destruct Hin|].
  cbn. rewrite (is_open_of_set_status u id status ts q Hs).
  destruct Hin as [-> | Hin].
  - apply Z.eqb_eq in Hid. rewrite Hid, Ho. cbn.
    pose proof (set_status_open_le u id status ts l Hs). lia.
  - specialize (IH Hin).
    destruct (op_id q =? id)%Z, (is_open_of u q); cbn; lia.
Qed.

Lemma add_stats_id uid profit u : u_id (add_stats uid profit u) = u_id u.
Proof. unfold add_stats. destruct (u_id u =? uid)%Z; reflexivity. Qed.

Lemma start_cycle_id uid ts u : u_id (start_cycle uid ts u) = u_id u.
Proof.
  unfold start_cycle. destruct (u_id u =? uid)%Z; [|reflexivity].
  destruct (u_billing_cycle_start u); reflexivity.
Qed.

(** The recording goes through once the Trade is in the ledger: the
    INSERT raises, or none of the three statements after it does. *)
Definition completes (raises : WriteFaults) : Prop :=
  insert_raises raises = true
  \/ (stats_raises raises = false /\ cycle_raises raises = false
      /\ close_raises raises = false).

(** What [record_trade_close] does to the store, for a position with a
    key, when the recording goes through. *)
Lemma record_trade_close_store db now mr raises pos px ty closed pnl :
  op_id pos <> 0%Z ->
  completes raises ->
  let db' := fst (record_trade_close db now mr raises pos px ty closed pnl) in
  map u_id (users db') = map u_id (users db)
  /\ (db' = db
      \/ (trades db' = trades db
          /\ open_positions db'
             = map (set_status (op_id pos) "closed_manual" (Some now)) (open_positions db))
      \/ (exists tr,
            trades db' = trades db ++ [tr] /\ t_user_id tr = op_user_id pos
            /\ open_positions db'
               = map (set_status (op_id pos) "closed" (Some now)) (open_positions db))).
Proof.
  intros Hid Hgo. unfold record_trade_close, write_trade, mark_closed, mark.
  apply Z.eqb_neq in Hid. rewrite Hid.
  destruct (checked_prices pos px) as [[entry size]|]; [|cbn; auto].
  destruct (signal_reference db now mr pos) as [ref|]; cbn [fst snd].
  2:{ split; [reflexivity|]. right. left. split; reflexivity. }
  destruct Hgo as [-> | (-> & -> & ->)]; [cbn; auto|].
  destruct (insert_raises raises); [cbn; auto|].
  destruct (opened_of pos) as [ts|]; cbn.
  - split.
    + rewrite !map_map. apply map_ext. intros u.
      rewrite start_cycle_id. apply add_stats_id.
    + right. right. eexists. split; [reflexivity|]. split; reflexivity.
  - split.
    + rewrite map_map. apply map_ext. intros u. apply add_stats_id.
    + right. right. eexists. split; [reflexivity|]. split; reflexivity.
Qed.

Lemma check_position_store w env p :
  op_id (position p) <> 0%Z ->
  completes (m_write_raises env) ->
  let db' := db (fst (check_position w env p)) in
  map u_id (users db') = map u_id (users (db w))
  /\ (db' = db w
      \/ (exists status ts,
            String.eqb status "open" = false
            /\ trades db' = trades (db w)
            /\ open_positions db'
               = map (set_status (op_id (position p)) status ts) (open_positions (db w)))
      \/ (exists tr ts,
            trades db' = trades (db w) ++ [tr]
            /\ t_user_id tr = op_user_id (position p)
            /\ open_positions db'
               = map (set_status (op_id (position p)) "closed" ts)
                     (open_positions (db w)))).
Proof.
  intros Hid Hgo. unfold check_position.
  destruct (get_exchange (active_exchanges w) (m_decrypt env) p) as [cache [wallet|]];
    [|cbn; auto].
  destruct (check_position_closed env wallet _ _ _) as [t [sz | | [px|] ty | e]];
    cbn [fst snd db]; auto.
  - unfold close_position.
    match goal with
    | |- context [record_trade_close ?a ?b ?c ?r ?d ?e ?f ?g ?h] =>
        pose proof (record_trade_close_store a b c r d e f g h Hid Hgo) as H;
        destruct (record_trade_close a b c r d e f g h) as [db' flag]
    end.
    cbn [fst snd db] in *. destruct H as (Hu & [-> | [(Ht & Hp) | (tr & Ht & Hu' & Hp)]]).
    + auto.
    + split; [exact Hu|]. right. left. exists "closed_manual", (Some (m_now env)).
      repeat split; auto.
    + split; [exact Hu|]. right. right. exists tr, (Some (m_now env)).
      repeat split; auto.
  - split; [reflexivity|]. right. left. exists "needs_review", None.
    repeat split; auto.
Qed.

Definition upkeep (db : Store.t) (u : Z) : nat := (trade_count db u + open_count db u)%nat.

Lemma check_position_upkeep w env p u :
  completes (m_write_raises env) ->
  listed (db w) p ->
  (upkeep (db (fst (check_position w env p))) u <= upkeep (db w) u)%nat.
Proof.
  intros Hgo (Hid & row & Hin & Hrow & Huser & Hst).
  pose proof (check_position_store w env p Hid Hgo) as (_ & H). cbv zeta in H.
  set (db' := db (fst (check_position w env p))) in *.
  unfold upkeep, trade_count, open_count.
  destruct H as [-> | [(status & ts & Hs & Ht & Hp) | (tr & ts & Ht & Hu & Hp)]].
  - lia.
  - rewrite Ht, Hp.
    pose proof (set_status_open_le u (op_id (position p)) status ts
                  (open_positions (db w)) Hs). lia.
  - rewrite Ht, Hp, filter_app, length_app. cbn [filter].
    pose proof (set_status_open_le u (op_id (position p)) "closed" ts
                  (open_positions (db w)) eq_refl) as Hle.
    destruct (t_user_id tr =? u)%Z eqn:E; cbn [List.length]; [|lia].
    apply Z.eqb_eq in E.
    assert (is_open_of u row = true) as Ho.
    { unfold is_open_of. rewrite Huser, <- Hu, E, Hst, Z.eqb_refl. reflexivity. }
    pose proof (set_status_open_lt u (op_id (position p)) "closed" ts
                  (open_positions (db w)) row eq_refl Hin Hrow Ho). lia.
Qed.

Lemma check_position_listed w env p other :
  completes (m_write_raises env) ->
  op_id (position p) <> 0%Z ->
  op_id (position other) <> op_id (position p) ->
  listed (db w) other ->
  listed (db (fst (check_position w env p))) other.
Proof.
  intros Hgo Hid Hneq (Hid' & row & Hin & Hrow & Huser & Hst).
  pose proof (check_position_store w env p Hid Hgo) as (_ & H). cbv zeta in H.
  set (db' := db (fst (check_position w env p))) in *.
  split; [exact Hid'|]. exists row.
  assert (forall status ts,
            In row (map (set_status (op_id (position p)) status ts)
                        (open_positions (db w)))) as Hkept.
  { intros status ts. apply in_map_iff. exists row. split; [|exact Hin].
    apply set_status_other. congruence. }
  destruct H as [-> | [(status & ts & _ & _ & Hp) | (tr & ts & _ & _ & Hp)]];
    repeat split; auto; rewrite Hp; apply Hkept.
Qed.

Lemma check_position_same_rows w env p :
  completes (m_write_raises env) ->
  op_id (position p) <> 0%Z ->
  same_rows (db w) (db (fst (check_position w env p))).
Proof.
  intros Hgo Hid.
  pose proof (check_position_store w env p Hid Hgo) as (Hu & H). cbv zeta in H.
  split; [|exact Hu].
  destruct H as [-> | [(status & ts & _ & _ & Hp) | (tr & ts & _ & _ & Hp)]];
    [reflexivity| |]; rewrite Hp; apply set_status_ids.
Qed.

Lemma gather_checks_upkeep env :
  (forall p, completes (m_write_raises (position_env env p))) ->
  forall l1 l2 w,
  NoDup (map (fun p => op_id (position p)) (l1 ++ l2)) ->
  Forall (listed (db w)) (l1 ++ l2) ->
  Forall (listed (db (fst (gather_checks w env l1)))) l2
  /\ (forall u, (upkeep (db (fst (gather_checks w env l1))) u <= upkeep (db w) u)%nat)
  /\ same_rows (db w) (db (fst (gather_checks w env l1))).
Proof.
  intros Hgo. induction l1 as [|p l1 IH]; intros l2 w Hnd Hall; cbn.
  - repeat split; auto using same_rows_refl.
  - cbn in Hnd, Hall. apply NoDup_cons_iff in Hnd as [Hnot Hnd].
    apply Forall_cons_iff in Hall as [Hp Hall].
    pose proof (fun u => check_position_upkeep w (position_env env p) p u (Hgo p))
      as Hup.
    pose proof (check_position_same_rows w (position_env env p) p (Hgo p) (proj1 Hp))
      as Hsame.
    assert (Forall (listed (db (fst (check_position w (position_env env p) p))))
              (l1 ++ l2)) as Hall1.
    { apply Forall_forall. intros other Hin. apply check_position_listed.
      - apply Hgo.
      - apply Hp.
      - intros Heq. apply Hnot. rewrite <- Heq.
        apply (in_map (fun p => op_id (position p))). exact Hin.
      - eapply Forall_forall in Hall; eassumption. }
    destruct (check_position w (position_env env p) p) as [w1 t1]. cbn [fst] in *.
    specialize (IH l2 w1 Hnd Hall1).
    destruct (gather_checks w1 env l1) as [w2 t2]. cbn [fst] in *.
    destruct IH as (Hrest & Hb & Hk). split; [exact Hrest|]. split.
    + intros u. specialize (Hb u). specialize (Hup u Hp). lia.
    + eapply same_rows_trans; eassumption.
Qed.

Lemma check_batches_step fuel w env x l :
  check_batches (S fuel) w env (x :: l)
  = let '(w1, t1) := gather_checks w env (firstn BATCH_SIZE (x :: l)) in
    match skipn BATCH_SIZE (x :: l) with
    | [] => (w1, t1)
    | y :: rest =>
        let '(w2, t2) := check_batches fuel w1 env (y :: rest) in
        (w2, t1 ++ EvSleep BATCH_DELAY :: t2)
    end.
Proof. reflexivity. Qed.

Lemma check_batches_upkeep env :
  (forall p, completes (m_write_raises (position_env env p))) ->
  forall fuel l w,
  NoDup (map (fun p => op_id (position p)) l) ->
  Forall (listed (db w)) l ->
  (forall u, (upkeep (db (fst (check_batches fuel w env l))) u <= upkeep (db w) u)%nat)
  /\ same_rows (db w) (db (fst (check_batches fuel w env l))).
Proof.
  intros Hgo. induction fuel as [|fuel IH]; intros l w Hnd Hall.
  - cbn. split; auto using same_rows_refl.
  - destruct l as [|x l']; [cbn; split; auto using same_rows_refl|].
    rewrite check_batches_step.
    remember (x :: l') as l eqn:El. clear El.
    rewrite <- (firstn_skipn BATCH_SIZE l) in Hnd, Hall.
    pose proof (gather_checks_upkeep env Hgo _ _ w Hnd Hall) as (Hrest & Hb & Hk).
    destruct (gather_checks w env (firstn BATCH_SIZE l)) as [w1 t1].
    cbn [fst] in *.
    destruct (skipn BATCH_SIZE l) as [|y rest] eqn:Es; [cbn [fst]; auto|].
    rewrite map_app in Hnd. apply NoDup_app_remove_l in Hnd.
    specialize (IH (y :: rest) w1 Hnd Hrest).
    destruct (check_batches fuel w1 env (y :: rest)) as [w2 t2].
    cbn [fst] in *. destruct IH as (Hb2 & Hk2). split.
    + intros u. specialize (Hb u). specialize (Hb2 u). lia.
    + eapply same_rows_trans; eassumption.
Qed.

Lemma get_open_positions_spec db p :
  In p (get_open_positions db) ->
  In (position p) (open_positions db) /\ op_status (position p) = "open".
Proof.
  unfold get_open_positions. intros H.
  apply in_flat_map in H as (op & Hop & H).
  destruct (String.eqb (op_status op) "open") eqn:E; [|destruct H].
  apply in_flat_map in H as (u & _ & H).
  destruct (op_user_id op =? u_id u)%Z; [|destruct H].
  destruct H as [<- | []]. cbn. apply String.eqb_eq in E. auto.
Qed.

(** A position joins one subscriber at most. *)
Lemma get_open_positions_nodup db :
  positions_unique db ->
  NoDup (map (fun p => op_id (position p)) (get_open_positions db)).
Proof.
  intros (Kp & _ & Ku). unfold get_open_positions.
  apply nodup_map_flat_map.
  - eapply NoDup_map_inv. exact Kp.
  - intros op Hop. destruct (String.eqb (op_status op) "open"); [|constructor].
    apply nodup_map_flat_map.
    + eapply NoDup_map_inv. exact Ku.
    + intros u Hu. destruct (op_user_id op =? u_id u)%Z; cbn.
      * constructor; [intros []|constructor].
      * constructor.
    + intros u u' b b' Hu Hu' Hb Hb' _.
      destruct (op_user_id op =? u_id u)%Z eqn:E; [|destruct Hb].
      destruct (op_user_id op =? u_id u')%Z eqn:E'; [|destruct Hb'].
      apply Z.eqb_eq in E, E'.
      apply (nodup_map_inj u_id (users db)); auto. congruence.
  - intros op op' b b' Hop Hop' Hb Hb' Hk.
    destruct (String.eqb (op_status op) "open"); [|destruct Hb].
    destruct (String.eqb (op_status op') "open"); [|destruct Hb'].
    apply in_flat_map in Hb as (u & _ & Hb).
    apply in_flat_map in Hb' as (u' & _ & Hb').
    destruct (op_user_id op =? u_id u)%Z; [|destruct Hb].
    destruct (op_user_id op' =? u_id u')%Z; [|destruct Hb'].
    destruct Hb as [<- | []]. destruct Hb' as [<- | []]. cbn in Hk.
    apply (nodup_map_inj op_id (open_positions db)); auto.
Qed.

Lemma get_open_positions_listed db :
  positions_unique db -> Forall (listed db) (get_open_positions db).
Proof.
  intros (_ & K0 & _). apply Forall_forall. intros p Hp.
  apply get_open_positions_spec in Hp as [Hin Hst]. split.
  - intros H0. apply K0. rewrite <- H0. apply in_map. exact Hin.
  - exists (position p). auto.
Qed.

Lemma check_all_positions_upkeep w env :
  positions_unique (db w) ->
  (forall l, Permutation l (shuffle_positions env l)) ->
  (forall p, completes (m_write_raises (position_env env p))) ->
  (forall u, (upkeep (db (fst (check_all_positions w env))) u <= upkeep (db w) u)%nat)
  /\ same_rows (db w) (db (fst (check_all_positions w env))).
Proof.
  intros K Hperm Hgo. unfold check_all_positions.
  assert (let '(w1, _) :=
            match get_open_positions (db w) with
            | [] => (w, [])
            | _ :: _ =>
                check_batches
                  (List.length (shuffle_positions env (get_open_positions (db w))))
                  w env (shuffle_positions env (get_open_positions (db w)))
            end in
          (forall u, (upkeep (db w1) u <= upkeep (db w) u)%nat)
          /\ same_rows (db w) (db w1)) as H.
  { pose proof (get_open_positions_nodup (db w) K) as Hnd.
    pose proof (get_open_positions_listed (db w) K) as Hall.
    destruct (get_open_positions (db w)) as [|x l] eqn:Ef;
      [split; auto using same_rows_refl|].
    rewrite <- Ef in *. clear Ef.
    pose proof (check_batches_upkeep env Hgo
                  (List.length (shuffle_positions env (get_open_positions (db w))))
                  (shuffle_positions env (get_open_positions (db w))) w) as H.
    destruct (check_batches _ w env _) as [w1 t1]. cbn [fst] in H. apply H.
    - eapply Permutation_NoDup; [|exact Hnd]. apply Permutation_map. apply Hperm.
    - eapply Permutation_Forall; [|exact Hall]. apply Hperm. }
  destruct (match get_open_positions (db w) with [] => _ | _ => _ end) as [w1 t1].
  destruct (scan_batches _ _ _ _) as [cache t2]. cbn [fst db]. exact H.
Qed.

(** X15.  One Trade per closed position.  Over any number of cycles of the
    monitor, on a store whose positions and subscribers have unique keys,
    and as long as no statement raises after the INSERT of a Trade (the
    INSERT itself may), the Trades recorded for a subscriber plus the
    positions of the subscriber that are still open never grow: a Trade is
    only recorded together with the closing of an open position, and a
    position that is closed, closed_manual or needs_review is not recorded
    again. *)
Theorem one_trade_per_closed_position :
  forall (envs : list CycleEnv) (w : World) (u : Z),
    positions_unique (db w) ->
    (forall env, In env envs -> forall l, Permutation l (shuffle_positions env l)) ->
    (forall env, In env envs ->
       forall p, completes (m_write_raises (position_env env p))) ->
    (trade_count (db (fst (run w envs))) u + open_count (db (fst (run w envs))) u
     <= trade_count (db w) u + open_count (db w) u)%nat.
Proof.
  intros envs w u K Hperm Hgo.
  enough ((forall u, (upkeep (db (fst (run w envs))) u <= upkeep (db w) u)%nat)
          /\ same_rows (db w) (db (fst (run w envs)))) as [H _] by apply H.
  clear u. revert w K Hperm Hgo.
  induction envs as [|env envs IH]; intros w K Hperm Hgo; cbn.
  - split; auto using same_rows_refl.
  - pose proof (check_all_positions_upkeep w env K (Hperm env (or_introl eq_refl))
                  (Hgo env (or_introl eq_refl)))
      as (Hb & Hk).
    destruct (check_all_positions w env) as [w1 t1]. cbn [fst] in *.
    specialize (IH w1 (positions_unique_same _ _ K Hk)
                  (fun e He => Hperm e (or_intror He))
                  (fun e He => Hgo e (or_intror He))).
    destruct (run w1 envs) as [w2 t2]. cbn [fst] in *.
    destruct IH as (Hb2 & Hk2). split.
    + intros u. specialize (Hb u). specialize (Hb2 u). lia.
    + eapply same_rows_trans; eassumption.
Qed.

End MonitorCycle.

(** Two cycles on the sample store: the ETH position exits at its target
    in the first one, and is not looked at in the second. *)
Definition exit_cycle : position_monitor.CycleEnv :=
  {| position_monitor.shuffle_positions := fun l => l;
     position_monitor.position_env := fun _ => monitor_env 110;
     position_monitor.shuffle_users := fun l => l;
     position_monitor.scan_decrypt := fun _ => Exchange.Decrypted "0xA11CE";
     position_monitor.scan_fills := fun _ => Exchange.FillsReplied [exit_fill 110] |}.

Definition monitor_world : position_monitor.World :=
  {| position_monitor.db := store_with_ethfi;
     position_monitor.active_exchanges := [] |}.

Lemma monitor_world_keys : positions_unique (position_monitor.db monitor_world).
Proof.
  unfold positions_unique. cbn.
  split; [|split].
  - constructor; [intros []|constructor].
  - intros [H0 | []]. discriminate H0.
  - constructor; [intros []|constructor].
Defined.

Lemma one_trade_per_closed_position_witness :
  (trade_count
     (position_monitor.db
        (fst (position_monitor.run monitor_world [exit_cycle; exit_cycle]))) 1
   + open_count
       (position_monitor.db
          (fst (position_monitor.run monitor_world [exit_cycle; exit_cycle]))) 1
   <= trade_count (position_monitor.db monitor_world) 1
      + open_count (position_monitor.db monitor_world) 1)%nat.
Proof.
  apply (one_trade_per_closed_position [exit_cycle; exit_cycle] monitor_world 1).
  - exact monitor_world_keys.
  - intros env [<- | [<- | []]] l; apply Permutation_refl.
  - intros env [<- | [<- | []]] p; right; repeat split.
Defined.

(** A cycle in which the store refuses the UPDATE of the status: the
    condition of the theorem fails. *)
Definition status_fault_cycle : position_monitor.CycleEnv :=
  {| position_monitor.shuffle_positions := fun l => l;
     position_monitor.position_env := fun _ =>
       {| position_monitor.m_now := position_monitor.m_now (monitor_env 110);
          position_monitor.m_decrypt := position_monitor.m_decrypt (monitor_env 110);
          position_monitor.m_user_state :=
            position_monitor.m_user_state (monitor_env 110);
          position_monitor.m_open_orders :=
            position_monitor.m_open_orders (monitor_env 110);
          position_monitor.m_exit_fills :=
            position_monitor.m_exit_fills (monitor_env 110);
          position_monitor.m_pnl_fills := position_monitor.m_pnl_fills (monitor_env 110);
          position_monitor.m_match_raises := false;
          position_monitor.m_write_raises := status_fault |};
     position_monitor.shuffle_users := fun l => l;
     position_monitor.scan_decrypt := fun _ => Exchange.Decrypted "0xA11CE";
     position_monitor.scan_fills := fun _ => Exchange.FillsReplied [exit_fill 110] |}.

(** Without that condition the count grows: the position whose status
    could not be written is still open in the next cycle, and the same
    closure is recorded a second time. *)
Lemma closure_recorded_twice_after_a_status_fault :
  let db' :=
    position_monitor.db
      (fst (position_monitor.run monitor_world [status_fault_cycle; exit_cycle])) in
  trade_count (position_monitor.db monitor_world) 1 = 0%nat
  /\ open_count (position_monitor.db monitor_world) 1 = 1%nat
  /\ trade_count db' 1 = 2%nat
  /\ open_count db' 1 = 0%nat
  /\ map Store.u_total_trades (Store.users db') = [Some 2%Z].
Proof. cbv zeta. repeat split; vm_compute; reflexivity. Qed.

(* ------------------------------------------------------------------ *)
(** ** The fee tiers *)
(* ------------------------------------------------------------------ *)

Section FeeTiers.

Import config.

Lemma tier_cases (t : string) :
  t = "team" \/ t = "vip" \/ t = "standard" \/ tier_at FEE_TIERS t = None.
Proof.
  unfold FEE_TIERS. cbn [tier_at].
  destruct (String.eqb "team" t) eqn:E1;
    [apply String.eqb_eq in E1; auto|].
  destruct (String.eqb "vip" t) eqn:E2;
    [apply String.eqb_eq in E2; auto|].
  destruct (String.eqb "standard" t) eqn:E3;
    [apply String.eqb_eq in E3; auto|].
  auto.
Qed.

(** X16.  The fee tiers.  For every tier text, known or not, and for no tier
    at all, [get_fee_rate], [get_tier_display] and
    [get_tier_percentage_str] return without a [KeyError]; the rate is one
    of 0, 0.05 and 0.10; the percentage text is the one shown between
    parentheses in the display text of the same tier; and a tier that is
    not in [get_valid_tiers] is charged as no tier at all, the standard
    rate of 0.10. *)
Theorem fee_tiers_are_consistent :
  forall tier : option string,
    exists (r : float) (shown pct : string),
      get_fee_rate tier = Some r
      /\ get_tier_display tier = Some shown
      /\ get_tier_percentage_str tier = Some pct
      /\ In r [0%float; 0.05%float; 0.1%float]
      /\ Py.contains ("(" ++ pct ++ ")")%string shown = true
      /\ (match tier with
          | Some t => ~ In t get_valid_tiers
          | None => True
          end ->
          r = 0.1%float /\ get_fee_rate tier = get_fee_rate None).
Proof.
  intros [t|].
  - destruct (tier_cases t) as [-> | [-> | [-> | Hnone]]].
    + exists 0%float. do 2 eexists.
      split; [reflexivity|]. split; [reflexivity|]. split; [reflexivity|].
      split; [cbn; auto|]. split; [reflexivity|].
      intros H. exfalso. apply H. cbn. auto.
    + exists 0.05%float. do 2 eexists.
      split; [reflexivity|]. split; [reflexivity|]. split; [reflexivity|].
      split; [cbn; auto|]. split; [reflexivity|].
      intros H. exfalso. apply H. cbn. auto.
    + exists 0.1%float. do 2 eexists.
      split; [reflexivity|]. split; [reflexivity|]. split; [reflexivity|].
      split; [cbn; auto|]. split; [reflexivity|].
      intros _. split; reflexivity.
    + assert (defaulted (Some t) = true) as Hd.
      { unfold defaulted. rewrite Hnone. apply orb_true_r. }
      exists 0.1%float. do 2 eexists.
      unfold get_tier_percentage_str, get_fee_rate, get_tier_display.
      rewrite Hd.
      split; [reflexivity|]. split; [reflexivity|]. split; [reflexivity|].
      split; [cbn; auto|]. split; [reflexivity|].
      intros _. split; reflexivity.
  - exists 0.1%float. do 2 eexists.
    split; [reflexivity|]. split; [reflexivity|]. split; [reflexivity|].
    split; [cbn; auto|]. split; [reflexivity|].
    intros _. split; reflexivity.
Qed.

End FeeTiers.

Lemma fee_tiers_are_consistent_witness :
  config.get_fee_rate (Some "platinum") = Some 0.1%float
  /\ config.get_fee_rate (Some "platinum") = config.get_fee_rate None.
Proof.
  destruct (fee_tiers_are_consistent (Some "platinum"))
    as (r & shown & pct & Hr & _ & _ & _ & _ & Hdef).
  assert (~ In "platinum" config.get_valid_tiers) as Hout.
  { cbn. intros [H | [H | [H | []]]]; discriminate H. }
  destruct (Hdef Hout) as [-> Heq]. split; [exact Hr | exact Heq].
Defined.

(* ------------------------------------------------------------------ *)
(** ** Coin names *)
(* ------------------------------------------------------------------ *)

Section CoinNames.

Import hosted_trading_loop position_monitor.

Fixpoint chars_all (P : ascii -> bool) (s : string) : bool :=
  match s with
  | EmptyString => true
  | String c s' => P c && chars_all P s'
  end.

(** Not a slash, and left alone by [upper]. *)
Definition coin_char (c : ascii) : bool :=
  negb (Ascii.eqb c "/") && Ascii.eqb (Py.upper_ascii c) c.

Lemma upper_ascii_slash c : Ascii.eqb (Py.upper_ascii c) "/" = Ascii.eqb c "/".
Proof.
  destruct c as [[|] [|] [|] [|] [|] [|] [|] [|]]; reflexivity.
Qed.

Lemma upper_ascii_idem c : Py.upper_ascii (Py.upper_ascii c) = Py.upper_ascii c.
Proof.
  destruct c as [[|] [|] [|] [|] [|] [|] [|] [|]]; reflexivity.
Qed.

Lemma chars_all_upper s :
  chars_all (fun c => negb (Ascii.eqb c "/")) s = true ->
  chars_all coin_char (Py.upper s) = true.
Proof.
  induction s as [|c s IH]; cbn; [reflexivity|].
  intros H. apply andb_true_iff in H as [Hc Hs].
  unfold coin_char at 1. rewrite upper_ascii_slash, Hc, upper_ascii_idem, Ascii.eqb_refl.
  cbn. apply IH. exact Hs.
Qed.

Lemma chars_all_before P sep s :
  chars_all P s = true -> chars_all P (Py.before sep s) = true.
Proof.
  induction s as [|c s IH]; cbn; [reflexivity|].
  intros H. apply andb_true_iff in H as [Hc Hs].
  destruct (Ascii.eqb c sep); cbn; [reflexivity|]. rewrite Hc. cbn. apply IH. exact Hs.
Qed.

Lemma before_has_no_sep sep s :
  chars_all (fun c => negb (Ascii.eqb c sep)) (Py.before sep s) = true.
Proof.
  induction s as [|c s IH]; cbn; [reflexivity|].
  destruct (Ascii.eqb c sep) eqn:E; cbn; [reflexivity|]. rewrite E. cbn. exact IH.
Qed.

Lemma chars_all_remove_from P old : forall s k,
  chars_all P s = true -> chars_all P (Py.remove_from old k s) = true.
Proof.
  induction s as [|c s IH]; intros k H; cbn [Py.remove_from]; [reflexivity|].
  cbn in H. apply andb_true_iff in H as [Hc Hs].
  destruct k; [|apply IH; exact Hs].
  destruct (String.prefix old (String c s)); [apply IH; exact Hs|].
  cbn [chars_all]. rewrite Hc. cbn. apply IH. exact Hs.
Qed.

Lemma chars_all_lstrip P s : chars_all P s = true -> chars_all P (Py.lstrip s) = true.
Proof.
  induction s as [|c s IH]; cbn; [reflexivity|].
  intros H. destruct (Py.is_space c); [|exact H].
  apply andb_true_iff in H as [_ Hs]. apply IH. exact Hs.
Qed.

Lemma chars_all_rstrip P s : chars_all P s = true -> chars_all P (Py.rstrip s) = true.
Proof.
  induction s as [|c s IH]; cbn; [reflexivity|].
  intros H. apply andb_true_iff in H as [Hc Hs]. specialize (IH Hs).
  destruct (Py.rstrip s).
  - destruct (Py.is_space c); cbn; [reflexivity|]. rewrite Hc. reflexivity.
  - cbn in *. rewrite Hc. exact IH.
Qed.

Lemma no_slash_of_has_char s :
  Py.has_char "/" s = false -> chars_all (fun c => negb (Ascii.eqb c "/")) s = true.
Proof.
  unfold Py.has_char. induction s as [|c s IH]; [reflexivity|].
  cbn [Py.contains String.prefix chars_all].
  destruct (ascii_dec "/" c) as [<- | Hne].
  - destruct s; discriminate.
  - cbn [orb]. intros H. rewrite (IH H), andb_true_r. apply negb_true_iff.
    apply Ascii.eqb_neq. congruence.
Qed.

Lemma has_char_of_no_slash s :
  chars_all (fun c => negb (Ascii.eqb c "/")) s = true -> Py.has_char "/" s = false.
Proof.
  unfold Py.has_char. induction s as [|c s IH]; [reflexivity|].
  cbn [Py.contains String.prefix chars_all].
  intros H. apply andb_true_iff in H as [Hc Hs].
  apply negb_true_iff, Ascii.eqb_neq in Hc.
  destruct (ascii_dec "/" c) as [<- | Hne]; [congruence|]. cbn [orb].
  apply IH. exact Hs.
Qed.

Lemma coin_char_no_slash s :
  chars_all coin_char s = true -> chars_all (fun c => negb (Ascii.eqb c "/")) s = true.
Proof.
  induction s as [|c s IH]; cbn; [reflexivity|].
  intros H. apply andb_true_iff in H as [Hc Hs]. unfold coin_char in Hc.
  apply andb_true_iff in Hc as [Hc _]. rewrite Hc. cbn. apply IH. exact Hs.
Qed.

Lemma before_upper s : Py.before "/" (Py.upper s) = Py.upper (Py.before "/" s).
Proof.
  induction s as [|c s IH]; cbn; [reflexivity|].
  rewrite upper_ascii_slash. destruct (Ascii.eqb c "/"); cbn; [reflexivity|].
  rewrite IH. reflexivity.
Qed.

Lemma has_char_upper s : Py.has_char "/" (Py.upper s) = Py.has_char "/" s.
Proof.
  destruct (Py.has_char "/" s) eqn:E.
  - destruct (Py.has_char "/" (Py.upper s)) eqn:E'; [reflexivity|].
    apply no_slash_of_has_char in E'.
    assert (chars_all (fun c => negb (Ascii.eqb c "/")) s = true) as H.
    { clear E. induction s as [|c s IH]; [reflexivity|]. cbn in *.
      apply andb_true_iff in E' as [Hc Hs]. rewrite upper_ascii_slash in Hc.
      rewrite Hc. cbn. apply IH. exact Hs. }
    apply has_char_of_no_slash in H. congruence.
  - apply has_char_of_no_slash, coin_char_no_slash, chars_all_upper,
      no_slash_of_has_char. exact E.
Qed.

(** X17.  Coin names.  The coin [convert_symbol_to_hl] gives the executor,
    and the base symbol [get_base_symbol] gives the monitor, never contain
    a slash or a lower-case letter.  For a symbol without a slash the two
    agree up to surrounding white space; for a symbol with a slash the base
    symbol is the coin with "PF_", "USD" and "USDT" taken out, stripped. *)
Theorem coin_names_are_upper_case :
  forall symbol : string,
    chars_all coin_char (convert_symbol_to_hl symbol) = true
    /\ chars_all coin_char (get_base_symbol symbol) = true
    /\ (Py.has_char "/" symbol = false ->
        get_base_symbol symbol = Py.strip (convert_symbol_to_hl symbol))
    /\ (Py.has_char "/" symbol = true ->
        get_base_symbol symbol
        = Py.strip (Py.remove "USDT" (Py.remove "USD" (Py.remove "PF_"
                      (convert_symbol_to_hl symbol))))).
Proof.
  intros symbol.
  assert (chars_all coin_char (convert_symbol_to_hl symbol) = true) as Hconv.
  { unfold convert_symbol_to_hl.
    destruct (Py.has_char "/" symbol) eqn:E.
    - apply chars_all_upper. apply before_has_no_sep.
    - unfold Py.remove. repeat apply chars_all_remove_from.
      apply chars_all_upper. apply no_slash_of_has_char. exact E. }
  split; [exact Hconv|].
  assert (Py.has_char "/" symbol = false ->
          get_base_symbol symbol = Py.strip (convert_symbol_to_hl symbol)) as H1.
  { intros E. unfold get_base_symbol, convert_symbol_to_hl.
    rewrite has_char_upper, E. destruct symbol; reflexivity. }
  assert (Py.has_char "/" symbol = true ->
          get_base_symbol symbol
          = Py.strip (Py.remove "USDT" (Py.remove "USD" (Py.remove "PF_"
                        (convert_symbol_to_hl symbol))))) as H2.
  { intros E. unfold get_base_symbol, convert_symbol_to_hl.
    rewrite has_char_upper, E, before_upper.
    destruct symbol; [discriminate E | reflexivity]. }
  split; [|split; assumption].
  destruct (Py.has_char "/" symbol) eqn:E.
  - rewrite (H2 eq_refl). unfold Py.strip, Py.remove.
    apply chars_all_rstrip, chars_all_lstrip.
    repeat apply chars_all_remove_from. exact Hconv.
  - rewrite (H1 eq_refl). unfold Py.strip.
    apply chars_all_rstrip, chars_all_lstrip. exact Hconv.
Qed.

End CoinNames.

Lemma coin_names_are_upper_case_witness :
  position_monitor.get_base_symbol "pf_adausd"
  = Py.strip (hosted_trading_loop.convert_symbol_to_hl "pf_adausd").
Proof.
  apply (proj1 (proj2 (proj2 (coin_names_are_upper_case "pf_adausd")))).
  reflexivity.
Defined.

(* ------------------------------------------------------------------ *)
(** ** What each loop leaves alone *)
(* ------------------------------------------------------------------ *)

Section Separation.

Import Store Exchange.

(** A subscriber after some steps of a loop: the same key, and the
    billing cycle where it was if it had started. *)
Definition cycle_kept (u u' : User) : Prop :=
  u_id u' = u_id u
  /\ forall ts, u_billing_cycle_start u = Some ts -> u_billing_cycle_start u' = Some ts.

(** What the trading loop keeps: the Trades, the Open Position rows there
    were (it only appends), the billing cycles that started. *)
Definition loop_kept (db db' : Store.t) : Prop :=
  trades db' = trades db
  /\ (exists added, open_positions db' = open_positions db ++ added)
  /\ Forall2 cycle_kept (users db) (users db').

(** What the monitor keeps: the signals and the deliveries, the keys of
    the Open Positions (it adds and removes none), the Trades there were
    (it only appends), the billing cycles that started. *)
Definition monitor_kept (db db' : Store.t) : Prop :=
  signals db' = signals db
  /\ signal_deliveries db' = signal_deliveries db
  /\ map op_id (open_positions db') = map op_id (open_positions db)
  /\ (exists added, trades db' = trades db ++ added)
  /\ Forall2 cycle_kept (users db) (users db').

Lemma cycles_kept_refl l : Forall2 cycle_kept l l.
Proof. induction l; constructor; auto. split; auto. Qed.

Lemma cycles_kept_trans l1 : forall l2 l3,
  Forall2 cycle_kept l1 l2 -> Forall2 cycle_kept l2 l3 -> Forall2 cycle_kept l1 l3.
Proof.
  induction l1 as [|a l1 IH]; intros l2 l3 H12 H23.
  - inversion H12; subst. inversion H23; subst. constructor.
  - inversion H12 as [|? b ? l2' Hab H12']; subst.
    inversion H23 as [|? c ? l3' Hbc H23']; subst.
    constructor; [|eapply IH; eassumption].
    destruct Hab as [A1 A2], Hbc as [B1 B2]. split; [congruence|auto].
Qed.

Lemma cycles_kept_map (f : User -> User) l :
  (forall u, cycle_kept u (f u)) -> Forall2 cycle_kept l (map f l).
Proof. intros H. induction l; cbn; constructor; auto. Qed.

Lemma start_billing_cycle_kept uid at_ u :
  cycle_kept u (hosted_trading_loop.start_billing_cycle uid at_ u).
Proof.
  unfold hosted_trading_loop.start_billing_cycle, cycle_kept.
  destruct (u_id u =? uid)%Z; [|split; auto].
  destruct (u_billing_cycle_start u) eqn:E.
  - split; [reflexivity|]. intros ts H. congruence.
  - split; [reflexivity|]. intros ts H. discriminate H.
Qed.

Lemma add_stats_kept uid profit u :
  cycle_kept u (position_monitor.add_stats uid profit u).
Proof.
  unfold position_monitor.add_stats, cycle_kept.
  destruct (u_id u =? uid)%Z; split; auto.
Qed.

Lemma start_cycle_kept uid at_ u :
  cycle_kept u (position_monitor.start_cycle uid at_ u).
Proof.
  unfold position_monitor.start_cycle, cycle_kept.
  destruct (u_id u =? uid)%Z; [|split; auto].
  destruct (u_billing_cycle_start u) eqn:E.
  - split; [reflexivity|]. intros ts H. congruence.
  - split; [reflexivity|]. intros ts H. discriminate H.
Qed.

Lemma loop_kept_refl db : loop_kept db db.
Proof.
  split; [reflexivity|]. split; [exists []; symmetry; apply app_nil_r|].
  apply cycles_kept_refl.
Qed.

Lemma loop_kept_of_eq db db' :
  trades db' = trades db -> open_positions db' = open_positions db ->
  users db' = users db -> loop_kept db db'.
Proof.
  intros H1 H2 H3. split; [exact H1|]. split.
  - exists []. rewrite H2. symmetry. apply app_nil_r.
  - rewrite H3. apply cycles_kept_refl.
Qed.

Lemma loop_kept_trans db1 db2 db3 :
  loop_kept db1 db2 -> loop_kept db2 db3 -> loop_kept db1 db3.
Proof.
  intros (A1 & (a & A2) & A3) (B1 & (b & B2) & B3). split; [congruence|]. split.
  - exists (a ++ b). rewrite B2, A2, app_assoc. reflexivity.
  - eapply cycles_kept_trans; eassumption.
Qed.

Lemma monitor_kept_refl db : monitor_kept db db.
Proof.
  repeat split; auto. - exists []. symmetry. apply app_nil_r.
  - apply cycles_kept_refl.
Qed.

Lemma monitor_kept_trans db1 db2 db3 :
  monitor_kept db1 db2 -> monitor_kept db2 db3 -> monitor_kept db1 db3.
Proof.
  intros (A1 & A2 & A3 & (a & A4) & A5) (B1 & B2 & B3 & (b & B4) & B5).
  split; [congruence|]. split; [congruence|]. split; [congruence|]. split.
  - exists (a ++ b). rewrite B4, A4, app_assoc. reflexivity.
  - eapply cycles_kept_trans; eassumption.
Qed.

(** *** The trading loop *)

Section TradingLoop.

Import order_utils hosted_trading_loop.

Variable SLIPPAGE_BPS : Z.
Variable asset_meta : list (string * nat).
Variable round_price : float -> option float.

Lemma execute_trade_loop_kept w env user signal :
  loop_kept (db w)
    (db (fst (fst (execute_trade SLIPPAGE_BPS asset_meta round_price w env user signal)))).
Proof.
  unfold execute_trade.
  assert (loop_kept (db w) (fst (fst (early_acknowledgment (db w) env signal)))) as Hk.
  { unfold early_acknowledgment.
    destruct (delivery_id signal =? 0)%Z; [apply loop_kept_refl|].
    destruct (ack_raises env); [apply loop_kept_refl|].
    apply loop_kept_of_eq; reflexivity. }
  destruct (early_acknowledgment (db w) env signal) as [[db1 t_ack] [|]];
    cbn [fst snd db] in *; [exact Hk|].
  destruct (safety_check _ env user signal) as [[cache t_gate] [wallet|]];
    cbn [fst snd db]; [|exact Hk].
  destruct (size_and_place _ _ _ env user signal wallet) as [t_place [b|]];
    cbn [fst snd db]; [|exact Hk].
  assert (loop_kept db1 (fst (record_open_position db1 env user signal b))) as Hr.
  { unfold record_open_position.
    destruct (record_signal_lookup_raises env); [apply loop_kept_refl|].
    destruct (record_insert_raises env); [apply loop_kept_refl|].
    destruct (record_billing_raises env); cbn.
    - split; [reflexivity|]. split; [eexists; reflexivity|]. apply cycles_kept_refl.
    - split; [reflexivity|]. split; [eexists; reflexivity|].
      cbn. apply cycles_kept_map. intros u. apply start_billing_cycle_kept. }
  destruct (record_open_position db1 env user signal b) as [db2 t_rec].
  cbn [fst snd db] in *. eapply loop_kept_trans; eassumption.
Qed.

Lemma gather_loop_kept env : forall l w,
  loop_kept (db w) (db (fst (gather SLIPPAGE_BPS asset_meta round_price w env l))).
Proof.
  induction l as [|item l IH]; intros w; cbn; [apply loop_kept_refl|].
  pose proof (execute_signal_db SLIPPAGE_BPS asset_meta round_price w
                (trade_env env item) item) as Hdb.
  pose proof (execute_trade_loop_kept w (trade_env env item) item item) as Hk.
  rewrite <- Hdb in Hk.
  destruct (_execute_signal_for_user _ _ _ w (trade_env env item) item) as [w1 t1].
  specialize (IH w1).
  destruct (gather _ _ _ w1 env l) as [w2 t2]. cbn [fst] in *.
  eapply loop_kept_trans; eassumption.
Qed.

Lemma run_batches_loop_kept env : forall fuel l w,
  loop_kept (db w)
    (db (fst (run_batches SLIPPAGE_BPS asset_meta round_price fuel w env l))).
Proof.
  induction fuel as [|fuel IH]; intros l w; [apply loop_kept_refl|].
  destruct l as [|x l']; [apply loop_kept_refl|].
  rewrite run_batches_step.
  pose proof (gather_loop_kept env (firstn BATCH_SIZE (x :: l')) w) as Hk.
  destruct (gather _ _ _ w env (firstn BATCH_SIZE (x :: l'))) as [w1 t1].
  destruct (skipn BATCH_SIZE (x :: l')) as [|y rest]; [exact Hk|].
  specialize (IH (y :: rest) w1).
  destruct (run_batches _ _ _ fuel w1 env (y :: rest)) as [w2 t2].
  cbn [fst] in *. eapply loop_kept_trans; eassumption.
Qed.

Lemma run_loop_kept : forall envs w,
  loop_kept (db w) (db (fst (run SLIPPAGE_BPS asset_meta round_price w envs))).
Proof.
  induction envs as [|env envs IH]; intros w; cbn; [apply loop_kept_refl|].
  assert (loop_kept (db w)
            (db (fst (fst (poll_and_execute SLIPPAGE_BPS asset_meta round_price w env)))))
    as Hk.
  { unfold poll_and_execute.
    destruct (fetch_raises env); [apply loop_kept_refl|].
    destruct (get_pending_signals_batched (db w) (tick_now env)) as [|x l];
      [apply loop_kept_refl|].
    pose proof (run_batches_loop_kept env (List.length (shuffle env (x :: l)))
                  (shuffle env (x :: l)) w) as H.
    destruct (run_batches _ _ _ _ w env _) as [w' t]. exact H. }
  destruct (poll_and_execute _ _ _ w env) as [[w1 t1] raised]. cbn [fst] in *.
  specialize (IH w1).
  destruct (run _ _ _ w1 envs) as [w2 t2]. cbn [fst] in *.
  eapply loop_kept_trans; eassumption.
Qed.

End TradingLoop.

(** *** The monitor *)

Section Monitor.

Import position_monitor.

Lemma set_status_all_ids id status ts l :
  map op_id (map (set_status id status ts) l) = map op_id l.
Proof.
  rewrite map_map. apply map_ext. intros q.
  unfold set_status. destruct (op_id q =? id)%Z; reflexivity.
Qed.

Lemma insert_kept db tr : monitor_kept db (with_trades db (trades db ++ [tr])).
Proof.
  repeat split; auto; [eexists; reflexivity|apply cycles_kept_refl].
Qed.

Lemma users_kept db (f : User -> User) :
  (forall u, cycle_kept u (f u)) -> monitor_kept db (with_users db (map f (users db))).
Proof.
  intros H. repeat split; auto; [|apply cycles_kept_map; exact H].
  exists []. symmetry. apply app_nil_r.
Qed.

Lemma mark_kept db id status ts : monitor_kept db (mark db id status ts).
Proof.
  unfold mark. destruct (id =? 0)%Z; [apply monitor_kept_refl|].
  repeat split; auto; [apply set_status_all_ids| |apply cycles_kept_refl].
  exists []. symmetry. apply app_nil_r.
Qed.

Lemma mark_closed_kept db now raises pos :
  monitor_kept db (fst (mark_closed db now raises pos)).
Proof.
  unfold mark_closed. destruct (op_id pos =? 0)%Z; [apply monitor_kept_refl|].
  destruct (close_raises raises); [apply monitor_kept_refl|]. apply mark_kept.
Qed.

Lemma write_trade_kept db now raises pos tr :
  monitor_kept db (fst (write_trade db now raises pos tr)).
Proof.
  unfold write_trade.
  destruct (insert_raises raises); [apply monitor_kept_refl|].
  pose proof (insert_kept db tr) as H1.
  destruct (stats_raises raises); [exact H1|].
  pose proof (users_kept (with_trades db (trades db ++ [tr]))
                (add_stats (op_user_id pos) (t_profit_usd tr))
                (add_stats_kept _ _)) as H2.
  pose proof (monitor_kept_trans _ _ _ H1 H2) as H12.
  destruct (opened_of pos) as [ts|].
  - destruct (cycle_raises raises); [exact H12|].
    eapply monitor_kept_trans; [|apply mark_closed_kept].
    eapply monitor_kept_trans; [exact H12|].
    apply users_kept. intros u. apply start_cycle_kept.
  - eapply monitor_kept_trans; [exact H12|apply mark_closed_kept].
Qed.

Lemma record_trade_close_kept db now mr raises pos px ty closed pnl :
  monitor_kept db (fst (record_trade_close db now mr raises pos px ty closed pnl)).
Proof.
  unfold record_trade_close.
  destruct (checked_prices pos px) as [[entry size]|]; [|apply monitor_kept_refl].
  destruct (signal_reference db now mr pos) as [ref|]; cbn [fst].
  - apply write_trade_kept.
  - apply mark_kept.
Qed.

Lemma check_position_kept w env p :
  monitor_kept (db w) (db (fst (check_position w env p))).
Proof.
  unfold check_position.
  destruct (get_exchange (active_exchanges w) (m_decrypt env) p) as [cache [wallet|]];
    [|apply monitor_kept_refl].
  destruct (check_position_closed env wallet _ _ _) as [t [sz | | [px|] ty | e]];
    cbn [fst snd db]; try apply monitor_kept_refl.
  - unfold close_position.
    match goal with
    | |- context [record_trade_close ?a ?b ?c ?r ?d ?e ?f ?g ?h] =>
        pose proof (record_trade_close_kept a b c r d e f g h) as H;
        destruct (record_trade_close a b c r d e f g h) as [db' flag]
    end.
    exact H.
  - repeat split; auto; [apply set_status_all_ids| |apply cycles_kept_refl].
    exists []. symmetry. apply app_nil_r.
Qed.

Lemma gather_checks_kept env : forall l w,
  monitor_kept (db w) (db (fst (gather_checks w env l))).
Proof.
  induction l as [|p l IH]; intros w; cbn; [apply monitor_kept_refl|].
  pose proof (check_position_kept w (position_env env p) p) as Hk.
  destruct (check_position w (position_env env p) p) as [w1 t1].
  specialize (IH w1). destruct (gather_checks w1 env l) as [w2 t2].
  cbn [fst] in *. eapply monitor_kept_trans; eassumption.
Qed.

Lemma check_batches_kept env : forall fuel l w,
  monitor_kept (db w) (db (fst (check_batches fuel w env l))).
Proof.
  induction fuel as [|fuel IH]; intros l w; [apply monitor_kept_refl|].
  destruct l as [|x l']; [apply monitor_kept_refl|].
  rewrite check_batches_step.
  pose proof (gather_checks_kept env (firstn BATCH_SIZE (x :: l')) w) as Hk.
  destruct (gather_checks w env (firstn BATCH_SIZE (x :: l'))) as [w1 t1].
  destruct (skipn BATCH_SIZE (x :: l')) as [|y rest]; [exact Hk|].
  specialize (IH (y :: rest) w1).
  destruct (check_batches fuel w1 env (y :: rest)) as [w2 t2].
  cbn [fst] in *. eapply monitor_kept_trans; eassumption.
Qed.

Lemma monitor_run_kept : forall envs w,
  monitor_kept (db w) (db (fst (run w envs))).
Proof.
  induction envs as [|env envs IH]; intros w; cbn; [apply monitor_kept_refl|].
  assert (monitor_kept (db w) (db (fst (check_all_positions w env)))) as Hk.
  { unfold check_all_positions.
    assert (monitor_kept (db w)
              (db (fst (match get_open_positions (db w) with
                        | [] => (w, [])
                        | _ :: _ =>
                            check_batches
                              (List.length
                                 (shuffle_positions env (get_open_positions (db w))))
                              w env (shuffle_positions env (get_open_positions (db w)))
                        end)))) as H.
    { destruct (get_open_positions (db w)); [apply monitor_kept_refl|].
      apply check_batches_kept. }
    destruct (match get_open_positions (db w) with [] => _ | _ => _ end) as [w1 t1].
    destruct (scan_batches _ _ _ _) as [cache t2]. exact H. }
  destruct (check_all_positions w env) as [w1 t1]. cbn [fst] in *.
  specialize (IH w1). destruct (run w1 envs) as [w2 t2]. cbn [fst] in *.
  eapply monitor_kept_trans; eassumption.
Qed.

End Monitor.

(** X18.  What each loop leaves alone.  However many polls the trading loop
    runs, it changes no Trade, it changes and removes no Open Position row
    that was there (it only appends), and it never moves a billing cycle
    that has started.  However many cycles the monitor runs, it changes no
    signal and no delivery, it adds and removes no Open Position row, it
    changes and removes no Trade that was there (it only appends), and it
    never moves a billing cycle that has started. *)
Theorem loops_keep_to_their_tables :
  (forall (SLIPPAGE_BPS : Z) (asset_meta : list (string * nat))
          (round_price : float -> option float)
          (w : hosted_trading_loop.World) (envs : list hosted_trading_loop.TickEnv),
      loop_kept (hosted_trading_loop.db w)
        (hosted_trading_loop.db
           (fst (hosted_trading_loop.run SLIPPAGE_BPS asset_meta round_price w envs))))
  /\ (forall (w : position_monitor.World) (envs : list position_monitor.CycleEnv),
        monitor_kept (position_monitor.db w)
          (position_monitor.db (fst (position_monitor.run w envs)))).
Proof.
  split.
  - intros. apply run_loop_kept.
  - intros. apply monitor_run_kept.
Qed.

End Separation.
